(** * skill-share-circle: the three edge functions over the relational store

    A shallow embedding of [supabase/functions/send-request],
    [supabase/functions/accept-request] and
    [supabase/functions/complete-session], together with the part of the
    schema of [supabase/migrations] that these handlers read and write.

    Each handler is a straight-line script of PostgREST calls with early
    returns.  It is embedded as a computation in a small monad that threads
    the store and the console and can leave early with an HTTP response. *)

From Stdlib Require Import List String Ascii ZArith Bool Lia.
Import ListNotations.

Local Open Scope string_scope.
Local Open Scope Z_scope.

(** ** Column types *)

(** [UUID] columns hold values, not texts.  A request body names a row by a
    text, which the store reads with [uuid_in]: upper-case digits, braces
    and a different grouping of the digits denote the same value.  What the
    handlers get back from the store is the text [uuid_out] prints, and
    [===] in a handler compares texts. *)
Module Uuid.
Inductive hex :=
| x0 | x1 | x2 | x3 | x4 | x5 | x6 | x7
| x8 | x9 | xa | xb | xc | xd | xe | xf.

(** One byte of the value: two hexadecimal digits. *)
Definition octet : Type := hex * hex.

(** The 16 bytes of a [uuid] value. *)
Inductive t :=
| bytes (b0 b1 b2 b3 b4 b5 b6 b7 b8 b9 b10 b11 b12 b13 b14 b15 : octet).

(** [isxdigit] and the digit's value. *)
Definition digit (c : ascii) : option hex :=
  match c with
  | "0" => Some x0 | "1" => Some x1 | "2" => Some x2 | "3" => Some x3
  | "4" => Some x4 | "5" => Some x5 | "6" => Some x6 | "7" => Some x7
  | "8" => Some x8 | "9" => Some x9
  | "a" | "A" => Some xa | "b" | "B" => Some xb | "c" | "C" => Some xc
  | "d" | "D" => Some xd | "e" | "E" => Some xe | "f" | "F" => Some xf
  | _ => None
  end%char.

Definition char (h : hex) : ascii :=
  match h with
  | x0 => "0" | x1 => "1" | x2 => "2" | x3 => "3"
  | x4 => "4" | x5 => "5" | x6 => "6" | x7 => "7"
  | x8 => "8" | x9 => "9" | xa => "a" | xb => "b"
  | xc => "c" | xd => "d" | xe => "e" | xf => "f"
  end%char.

Definition starts_with (c : ascii) (s : string) : bool :=
  match s with
  | String c' _ => Ascii.eqb c' c
  | EmptyString => false
  end.

Definition tail (s : string) : string :=
  match s with
  | String _ r => r
  | EmptyString => EmptyString
  end.

(** The loop of [string_to_uuid]: [n] bytes are still to be read, the next
    one has index [i]; a hyphen is skipped after a byte of odd index that is
    not the last. *)
Fixpoint read_bytes (n i : nat) (src : string) : option (list octet * string) :=
  match n with
  | O => Some ([], src)
  | S n' =>
      match src with
      | String c1 (String c2 rest) =>
          match digit c1, digit c2 with
          | Some h1, Some h2 =>
              let rest :=
                if starts_with "-" rest && Nat.odd i && (i <? 15)%nat
                then tail rest else rest in
              match read_bytes n' (S i) rest with
              | Some (l, rest) => Some ((h1, h2) :: l, rest)
              | None => None
              end
          | _, _ => None
          end
      | _ => None
      end
  end.

Definition of_list (l : list octet) : option t :=
  match l with
  | [b0; b1; b2; b3; b4; b5; b6; b7; b8; b9; b10; b11; b12; b13; b14; b15] =>
      Some (bytes b0 b1 b2 b3 b4 b5 b6 b7 b8 b9 b10 b11 b12 b13 b14 b15)
  | _ => None
  end.

(** [uuid_in]: the value a text denotes, [None] for "invalid input syntax
    for type uuid".  Digits of either case, hyphens after any group of four
    digits, the whole optionally in braces. *)
Definition uuid_in (source : string) : option t :=
  let braces := starts_with "{" source in
  let src := if braces then tail source else source in
  match read_bytes 16 0 src with
  | Some (l, rest) =>
      let rest :=
        if braces then
          if starts_with "}" rest then Some (tail rest) else None
        else Some rest in
      match rest with
      | Some EmptyString => of_list l
      | _ => None
      end
  | None => None
  end.

Definition two (b : octet) (s : string) : string :=
  String (char (fst b)) (String (char (snd b)) s).

(** [uuid_out]: lower-case digits in groups of 8-4-4-4-12. *)
Definition out (u : t) : string :=
  match u with
  | bytes b0 b1 b2 b3 b4 b5 b6 b7 b8 b9 b10 b11 b12 b13 b14 b15 =>
      let g5 := two b10 (two b11 (two b12 (two b13 (two b14 (two b15
                  EmptyString))))) in
      let g4 := two b8 (two b9 (String "-" g5)) in
      let g3 := two b6 (two b7 (String "-" g4)) in
      let g2 := two b4 (two b5 (String "-" g3)) in
      two b0 (two b1 (two b2 (two b3 (String "-" g2))))
  end.

(** The value of a text that is known to denote one (the nil uuid
    otherwise). *)
Definition of_text (s : string) : t :=
  match uuid_in s with
  | Some u => u
  | None =>
      let z := (x0, x0) in
      bytes z z z z z z z z z z z z z z z z
  end.
End Uuid.

Definition uuid := Uuid.t.

(** A [uuid] read by a handler is its canonical text. *)
Coercion Uuid.out : Uuid.t >-> string.

(** [TIMESTAMPTZ] columns, as the ISO strings the handlers write. *)
Definition timestamptz := string.

(** [NUMERIC(10, 2)] credit amounts, counted in hundredths of a credit.
    The handlers only compare a balance with 0.5 or 1 and add or subtract
    0.5 or 1; on values with two decimals these operations of JavaScript
    numbers, once stored back into the column, agree with integer arithmetic
    on hundredths. *)
Definition numeric := Z.

Definition one_credit : numeric := 100.
Definition half_credit : numeric := 50.

(** ** The schema (migration 20260130175822 and 20260202055408) *)

Module Profile.
(** [public.profiles]; [user_id] is [UNIQUE].  Columns that no handler
    reads or writes (email, bio, avatar_url, ...) are left out. *)
Record t := mk {
  user_id : uuid;
  name : string;
  credits : numeric
}.

Definition set_credits (v : numeric) (p : t) : t :=
  mk (user_id p) (name p) v.
End Profile.

Module LearningRequest.
(** [CHECK (status IN ('pending', 'accepted', 'rejected', 'cancelled'))] *)
Inductive status_t := pending | accepted | rejected | cancelled.

Record t := mk {
  id : uuid;
  learner_id : uuid;
  tutor_id : uuid;
  skill_id : option uuid;
  message : option string;
  proposed_datetime : option timestamptz;
  status : status_t
}.

Definition set_status (s : status_t) (r : t) : t :=
  mk (id r) (learner_id r) (tutor_id r) (skill_id r) (message r)
     (proposed_datetime r) s.

Definition status_eqb (a b : status_t) : bool :=
  match a, b with
  | pending, pending | accepted, accepted
  | rejected, rejected | cancelled, cancelled => true
  | _, _ => false
  end.
End LearningRequest.

Module Session.
(** [CHECK (status IN ('scheduled', 'in_progress', 'completed', 'cancelled'))] *)
Inductive status_t := scheduled | in_progress | completed | cancelled.

Record t := mk {
  id : uuid;
  request_id : option uuid;
  tutor_id : uuid;
  learner_id : uuid;
  skill_id : option uuid;
  scheduled_at : timestamptz;
  duration_minutes : Z;
  status : status_t;
  tutor_notes : option string;
  learner_notes : option string;
  is_ai_session : option bool;      (* BOOLEAN DEFAULT false, nullable *)
  completed_at : option timestamptz
}.

Definition status_eqb (a b : status_t) : bool :=
  match a, b with
  | scheduled, scheduled | in_progress, in_progress
  | completed, completed | cancelled, cancelled => true
  | _, _ => false
  end.
End Session.

Module CreditTransaction.
(** [CHECK (type IN ('teaching', 'learning', 'ai_session', 'welcome_bonus', 'top_up'))] *)
Inductive type_t := teaching | learning | ai_session | welcome_bonus | top_up.

Record t := mk {
  id : uuid;
  user_id : uuid;
  amount : numeric;
  type : type_t;
  session_id : option uuid;
  description : option string
}.
End CreditTransaction.

Module Conversation.
(** [CONSTRAINT unique_conversation UNIQUE (participant_1, participant_2)] *)
Record t := mk {
  id : uuid;
  participant_1 : uuid;
  participant_2 : uuid;
  last_message_at : option timestamptz
}.

Definition set_last_message_at (ts : timestamptz) (c : t) : t :=
  mk (id c) (participant_1 c) (participant_2 c) (Some ts).
End Conversation.

Module Message.
Record t := mk {
  id : uuid;
  conversation_id : uuid;
  sender_id : uuid;
  content : string
}.
End Message.

(** The tables the handlers touch.  A table is the list of its rows in
    insertion order. *)
Record db := mkDb {
  profiles : list Profile.t;
  learning_requests : list LearningRequest.t;
  sessions : list Session.t;
  credit_transactions : list CreditTransaction.t;
  conversations : list Conversation.t;
  messages : list Message.t
}.

Definition with_profiles (f : list Profile.t -> list Profile.t) (d : db) : db :=
  mkDb (f (profiles d)) (learning_requests d) (sessions d)
       (credit_transactions d) (conversations d) (messages d).

Definition with_learning_requests
    (f : list LearningRequest.t -> list LearningRequest.t) (d : db) : db :=
  mkDb (profiles d) (f (learning_requests d)) (sessions d)
       (credit_transactions d) (conversations d) (messages d).

Definition with_sessions (f : list Session.t -> list Session.t) (d : db) : db :=
  mkDb (profiles d) (learning_requests d) (f (sessions d))
       (credit_transactions d) (conversations d) (messages d).

Definition with_credit_transactions
    (f : list CreditTransaction.t -> list CreditTransaction.t) (d : db) : db :=
  mkDb (profiles d) (learning_requests d) (sessions d)
       (f (credit_transactions d)) (conversations d) (messages d).

Definition with_conversations
    (f : list Conversation.t -> list Conversation.t) (d : db) : db :=
  mkDb (profiles d) (learning_requests d) (sessions d)
       (credit_transactions d) (f (conversations d)) (messages d).

Definition with_messages (f : list Message.t -> list Message.t) (d : db) : db :=
  mkDb (profiles d) (learning_requests d) (sessions d)
       (credit_transactions d) (conversations d) (f (messages d)).

(** ** PostgREST query results *)

(** [.single()]: the one matching row, an error (no data) when the filter
    matches no row or more than one. *)
Definition single {A : Type} (rows : list A) : option A :=
  match rows with
  | [x] => Some x
  | _ => None
  end.

(** [.update(...).eq(...)]: every row that satisfies the filter is changed. *)
Definition update_rows {A : Type} (p : A -> bool) (f : A -> A) (rows : list A)
  : list A :=
  map (fun x => if p x then f x else x) rows.

(** [.eq(column, value)] on a uuid column: the store reads [value] as a
    uuid and compares values; a text that denotes none matches no row (the
    call answers with an error and no data). *)
Definition col_eq {A : Type} (column : A -> uuid) (value : string) : A -> bool :=
  fun row =>
    match Uuid.uuid_in value with
    | Some v => (column row =? v)%string
    | None => false
    end.

(** JavaScript truthiness of the values the handlers test. *)
Definition truthy_string (s : string) : bool := negb (s =? "")%string.

Definition truthy_opt_string (s : option string) : bool :=
  match s with
  | Some s => truthy_string s
  | None => false
  end.

Definition truthy_opt_bool (b : option bool) : bool :=
  match b with
  | Some b => b
  | None => false
  end.

(** [a || b] on nullable strings. *)
Definition js_or (a b : option string) : option string :=
  if truthy_opt_string a then a else b.

(** [[a, b].sort()]: the default sort compares the two strings by code
    unit and keeps the order of equal elements. *)
Definition sortedIds (a b : string) : string * string :=
  if (b <? a)%string then (b, a) else (a, b).

(** ** HTTP requests and responses *)

Module Http.
(** What a handler reads of the incoming request.  [json] is [None] when
    [await req.json()] throws. *)
Record request (B : Type) := mkRequest {
  method : string;
  authorization : option string;
  json : option B
}.
Arguments mkRequest {B}.
Arguments method {B}.
Arguments authorization {B}.
Arguments json {B}.

(** The bodies the handlers send. *)
Inductive payload :=
| Text (text : string)                         (* new Response("ok") *)
| Error (error : string)                       (* { error } *)
| Success (message : string)                   (* { success: true, message } *)
| SuccessRequest (request : LearningRequest.t) (* { success: true, request } *)
| SuccessSession (session : Session.t).        (* { success: true, session } *)

Record response := mkResponse {
  status : Z;
  body : payload
}.

Definition preflight : response := mkResponse 200 (Text "ok").
Definition error (code : Z) (msg : string) : response :=
  mkResponse code (Error msg).
End Http.

(** ** Handler scripts *)

(** The store together with what was printed on the console. *)
Record world := mkWorld {
  store : db;
  console : list string
}.

(** One step of a handler either goes on with a value or leaves the
    handler with a response ([return new Response(...)]). *)
Inductive step (A : Type) :=
| Next (a : A)
| Reply (r : Http.response).
Arguments Next {A}.
Arguments Reply {A}.

Definition script (A : Type) : Type := world -> step A * world.

Definition ret {A : Type} (a : A) : script A := fun w => (Next a, w).

Definition reply {A : Type} (r : Http.response) : script A :=
  fun w => (Reply r, w).

Definition bind {A B : Type} (m : script A) (k : A -> script B) : script B :=
  fun w =>
    match m w with
    | (Next a, w') => k a w'
    | (Reply r, w') => (Reply r, w')
    end.

Declare Scope script_scope.
Delimit Scope script_scope with script.
Notation "x <- m ;; k" := (bind m (fun x => k))
  (at level 61, m at next level, right associativity) : script_scope.
Notation "m ;; k" := (bind m (fun _ => k))
  (at level 61, right associativity) : script_scope.
Local Open Scope script_scope.

(** The response a handler finally sends and the world it leaves. *)
Definition run (m : script Http.response) (w : world) : Http.response * world :=
  match m w with
  | (Next r, w') => (r, w')
  | (Reply r, w') => (r, w')
  end.

(** [console.log] and [console.error]; the line records the message, not
    the error object printed after it. *)
Definition console_log (line : string) : script unit :=
  fun w => (Next tt, mkWorld (store w) (console w ++ [line])%list).

Definition console_error (line : string) : script unit := console_log line.

(** *** Store operations

    Every call on the store can come back with an error: the [fault]
    argument says that this call does, for whatever reason the store has (a
    lost connection, a violated constraint, a value out of the range of its
    column, a text that its column cannot read).  A failed call leaves the
    store as it was.  Where a handler writes a text of the body into a uuid
    column, the row holds [Uuid.of_text] of it: the value it denotes. *)

(** [.from(table).select(...).eq(...).single()]: the [data] of the answer
    ([None] for [null], which comes with an [error]). *)
Definition select_single {A : Type} (fault : bool) (table : db -> list A)
    (p : A -> bool) : script (option A) :=
  fun w =>
    (Next (if fault then None else single (filter p (table (store w)))), w).

(** [.update(...).eq(...)] and [.insert(...)] without [.select()]: the
    answer's [error], [true] when there is one. *)
Definition write (fault : bool) (change : db -> db) : script bool :=
  fun w =>
    if fault then (Next true, w)
    else (Next false, mkWorld (change (store w)) (console w)).

(** [.insert(row).select().single()]: the inserted row, or [None] with an
    error. *)
Definition insert_returning {A : Type} (fault : bool) (row : A)
    (add : A -> db -> db) : script (option A) :=
  fun w =>
    if fault then (Next None, w)
    else (Next (Some row), mkWorld (add row (store w)) (console w)).

(** [.eq("participant_1", p1).eq("participant_2", p2)] *)
Definition same_pair (p1 p2 : string) (c : Conversation.t) : bool :=
  col_eq Conversation.participant_1 p1 c
  && col_eq Conversation.participant_2 p2 c.

(** Inserting into [conversations] is refused by [unique_conversation] when
    the pair is already there. *)
Definition insert_conversation (fault : bool) (row : Conversation.t)
  : script (option Conversation.t) :=
  fun w =>
    insert_returning
      (fault || existsb (same_pair (Conversation.participant_1 row)
                                   (Conversation.participant_2 row))
                        (conversations (store w)))
      row (fun r => with_conversations (fun rows => (rows ++ [r])%list)) w.

Definition insert_message (fault : bool) (row : Message.t) : script bool :=
  write fault (with_messages (fun rows => (rows ++ [row])%list)).

Definition touch_conversation (fault : bool) (conversation_id : string)
    (ts : timestamptz) : script bool :=
  write fault
    (with_conversations
       (update_rows (col_eq Conversation.id conversation_id)
                    (Conversation.set_last_message_at ts))).

(** ** supabase/functions/send-request/index.ts *)

Module SendRequest.
(** [interface SendRequestBody].  A required field that the JSON body lacks
    is the empty string here: the handler tests both with [!]. *)
Record body := mkBody {
  tutor_id : string;
  skill_id : option string;
  message : string;
  proposed_datetime : option string
}.

(** What the handler takes from its surroundings. *)
Record env := mkEnv {
  get_user : string -> option uuid;  (* supabaseUser.auth.getUser() *)
  now : timestamptz;                 (* new Date().toISOString() *)
  db_now : timestamptz;              (* DEFAULT now() of an inserted row *)
  new_request_id : uuid;             (* gen_random_uuid() of the inserted rows *)
  new_conversation_id : uuid;
  new_message_id : uuid
}.

(** Which calls on the store fail, in the order the handler makes them. *)
Record faults := mkFaults {
  fail_select_learner : bool;
  fail_select_tutor : bool;
  fail_insert_request : bool;
  fail_select_conversation : bool;
  fail_insert_conversation : bool;
  fail_insert_message : bool;
  fail_update_conversation : bool
}.

Definition no_faults : faults :=
  mkFaults false false false false false false false.

(** The handler from [await req.json()] on, for the authenticated [user]. *)
Definition process (e : env) (f : faults) (user : uuid) (b : body)
  : script Http.response :=
  let tutor_id := tutor_id b in
  let message := message b in
  if negb (truthy_string tutor_id) || negb (truthy_string message) then
    reply (Http.error 400 "tutor_id and message are required")
  else if (tutor_id =? user)%string then
    reply (Http.error 400 "You cannot send a request to yourself")
  else
  (* Check if learner has enough credits *)
  learnerProfile <-
    select_single (fail_select_learner f) profiles
      (col_eq Profile.user_id user) ;;
  if match learnerProfile with
     | None => true
     | Some p => Profile.credits p <? one_credit
     end
  then reply (Http.error 400 "Insufficient credits to send a request")
  else
  (* Check tutor exists *)
  tutorProfile <-
    select_single (fail_select_tutor f) profiles
      (col_eq Profile.user_id tutor_id) ;;
  match tutorProfile with
  | None => reply (Http.error 404 "Tutor not found")
  | Some _ =>
  (* Create the learning request *)
  request <-
    insert_returning (fail_insert_request f)
      (LearningRequest.mk (new_request_id e) user (Uuid.of_text tutor_id)
         (option_map Uuid.of_text (js_or (skill_id b) None)) (Some message)
         (js_or (proposed_datetime b) None) LearningRequest.pending)
      (fun r => with_learning_requests (fun rows => (rows ++ [r])%list)) ;;
  match request with
  | None =>
      console_error "Failed to create request:" ;;
      reply (Http.error 500 "Failed to create request")
  | Some request =>
  (* Create or get conversation between users *)
  let sortedIds := sortedIds user tutor_id in
  existingConvo <-
    select_single (fail_select_conversation f) conversations
      (same_pair (fst sortedIds) (snd sortedIds)) ;;
  let conversationId :=
    option_map (fun c => (Conversation.id c : string)) existingConvo in
  conversationId <-
    (if negb (truthy_opt_string conversationId) then
       newConvo <-
         insert_conversation (fail_insert_conversation f)
           (Conversation.mk (new_conversation_id e)
              (Uuid.of_text (fst sortedIds)) (Uuid.of_text (snd sortedIds))
              (Some (db_now e))) ;;
       match newConvo with
       | None =>
           console_error "Failed to create conversation:" ;;
           ret conversationId
       | Some newConvo => ret (Some (Conversation.id newConvo : string))
       end
     else ret conversationId) ;;
  (* Send initial message if conversation was created *)
  match conversationId with
  | Some id =>
      if truthy_string id then
        insert_message (fail_insert_message f)
          (Message.mk (new_message_id e) (Uuid.of_text id) user
             ("📚 Learning Request: " ++ message)) ;;
        touch_conversation (fail_update_conversation f) id (now e) ;;
        ret tt
      else ret tt
  | None => ret tt
  end ;;
  console_log ("Request " ++ LearningRequest.id request ++ " created by "
               ++ user ++ " for tutor " ++ tutor_id) ;;
  ret (Http.mkResponse 201 (Http.SuccessRequest request))
  end
  end.

(** [Deno.serve(async (req) => ...)] *)
Definition handler (e : env) (f : faults) (req : Http.request body)
  : script Http.response :=
  if (Http.method req =? "OPTIONS")%string then ret Http.preflight
  else
  match Http.authorization req with
  | None => reply (Http.error 401 "Missing authorization header")
  | Some authHeader =>
  (* [!authHeader]: an empty header is no header *)
  if negb (truthy_string authHeader) then
    reply (Http.error 401 "Missing authorization header")
  else
  match get_user e authHeader with
  | None => reply (Http.error 401 "Unauthorized")
  | Some user =>
  match Http.json req with
  | None =>
      (* req.json() throws; caught by the outer try *)
      console_error "Unexpected error:" ;;
      reply (Http.error 500 "Internal server error")
  | Some b => process e f user b
  end
  end
  end.
End SendRequest.

(** ** supabase/functions/accept-request/index.ts *)

Module AcceptRequest.
(** [interface AcceptRequestBody]; a required field that is missing is the
    empty string, an optional one [None]. *)
Record body := mkBody {
  request_id : string;
  scheduled_at : string;
  duration_minutes : option Z
}.

Record env := mkEnv {
  get_user : string -> option uuid;     (* supabaseUser.auth.getUser() *)
  now : timestamptz;                    (* new Date().toISOString() *)
  toLocaleString : string -> string;    (* new Date(s).toLocaleString() *)
  new_session_id : uuid;                (* gen_random_uuid() of the inserted rows *)
  new_message_id : uuid
}.

Record faults := mkFaults {
  fail_select_request : bool;
  fail_update_request : bool;
  fail_insert_session : bool;
  fail_select_conversation : bool;
  fail_insert_message : bool;
  fail_update_conversation : bool
}.

Definition no_faults : faults := mkFaults false false false false false false.

Definition process (e : env) (f : faults) (user : uuid) (b : body)
  : script Http.response :=
  let request_id := request_id b in
  let scheduled_at := scheduled_at b in
  let duration_minutes :=
    match duration_minutes b with
    | Some d => d
    | None => 60
    end in
  if negb (truthy_string request_id) || negb (truthy_string scheduled_at) then
    reply (Http.error 400 "request_id and scheduled_at are required")
  else
  (* Fetch the request *)
  request <-
    select_single (fail_select_request f) learning_requests
      (col_eq LearningRequest.id request_id) ;;
  match request with
  | None => reply (Http.error 404 "Request not found")
  | Some request =>
  (* Verify user is the tutor *)
  if negb (LearningRequest.tutor_id request =? user)%string then
    reply (Http.error 403 "Only the tutor can accept this request")
  else
  (* Check request is pending *)
  if negb (LearningRequest.status_eqb (LearningRequest.status request)
                                      LearningRequest.pending) then
    reply (Http.error 400 "Request is no longer pending")
  else
  (* Update request status *)
  write (fail_update_request f)
    (with_learning_requests
       (update_rows (col_eq LearningRequest.id request_id)
                    (LearningRequest.set_status LearningRequest.accepted))) ;;
  (* Create session *)
  session <-
    insert_returning (fail_insert_session f)
      (Session.mk (new_session_id e) (Some (Uuid.of_text request_id))
         (LearningRequest.tutor_id request)
         (LearningRequest.learner_id request)
         (LearningRequest.skill_id request)
         scheduled_at duration_minutes Session.scheduled
         None None (Some false) None)
      (fun s => with_sessions (fun rows => (rows ++ [s])%list)) ;;
  match session with
  | None =>
      console_error "Failed to create session:" ;;
      reply (Http.error 500 "Failed to create session")
  | Some session =>
  (* Send message to conversation *)
  let sortedIds :=
    sortedIds (LearningRequest.learner_id request)
              (LearningRequest.tutor_id request) in
  convo <-
    select_single (fail_select_conversation f) conversations
      (same_pair (fst sortedIds) (snd sortedIds)) ;;
  match convo with
  | Some convo =>
      insert_message (fail_insert_message f)
        (Message.mk (new_message_id e) (Conversation.id convo) user
           ("✅ Request accepted! Session scheduled for "
            ++ toLocaleString e scheduled_at)) ;;
      touch_conversation (fail_update_conversation f)
        (Conversation.id convo) (now e) ;;
      ret tt
  | None => ret tt
  end ;;
  console_log ("Request " ++ request_id ++ " accepted. Session "
               ++ Session.id session ++ " created.") ;;
  ret (Http.mkResponse 201 (Http.SuccessSession session))
  end
  end.

(** [Deno.serve(async (req) => ...)] *)
Definition handler (e : env) (f : faults) (req : Http.request body)
  : script Http.response :=
  if (Http.method req =? "OPTIONS")%string then ret Http.preflight
  else
  match Http.authorization req with
  | None => reply (Http.error 401 "Missing authorization header")
  | Some authHeader =>
  (* [!authHeader]: an empty header is no header *)
  if negb (truthy_string authHeader) then
    reply (Http.error 401 "Missing authorization header")
  else
  match get_user e authHeader with
  | None => reply (Http.error 401 "Unauthorized")
  | Some user =>
  match Http.json req with
  | None =>
      console_error "Unexpected error:" ;;
      reply (Http.error 500 "Internal server error")
  | Some b => process e f user b
  end
  end
  end.
End AcceptRequest.

(** ** supabase/functions/complete-session/index.ts *)

Module CompleteSession.
(** [interface CompleteSessionRequest]; a missing [session_id] is the empty
    string, a missing note [None]. *)
Record body := mkBody {
  session_id : string;
  tutor_notes : option string;
  learner_notes : option string
}.

Record env := mkEnv {
  get_user : string -> option uuid;  (* supabaseUser.auth.getUser() *)
  now : timestamptz;                 (* new Date().toISOString() *)
  new_learner_tx_id : uuid;          (* gen_random_uuid() of the inserted rows *)
  new_tutor_tx_id : uuid
}.

Record faults := mkFaults {
  fail_select_session : bool;
  fail_select_learner : bool;
  fail_update_session : bool;
  fail_deduct : bool;
  fail_select_tutor : bool;
  fail_credit_tutor : bool;
  fail_insert_learner_tx : bool;
  fail_insert_tutor_tx : bool
}.

Definition no_faults : faults :=
  mkFaults false false false false false false false false.

(** The row written by the [update] of the session: status, completion
    time and notes are replaced, the other columns kept. *)
Definition completed_row (ts : timestamptz) (tutor_notes learner_notes : option string)
    (s : Session.t) : Session.t :=
  Session.mk (Session.id s) (Session.request_id s) (Session.tutor_id s)
    (Session.learner_id s) (Session.skill_id s) (Session.scheduled_at s)
    (Session.duration_minutes s) Session.completed
    tutor_notes learner_notes (Session.is_ai_session s) (Some ts).

Definition insert_transaction (fault : bool) (row : CreditTransaction.t)
  : script bool :=
  write fault (with_credit_transactions (fun rows => (rows ++ [row])%list)).

Definition update_credits (fault : bool) (user : uuid) (v : numeric)
  : script bool :=
  write fault
    (with_profiles
       (update_rows (col_eq Profile.user_id user)
                    (Profile.set_credits v))).

(** The handler from [await req.json()] on, for the authenticated [user]. *)
Definition process (e : env) (f : faults) (user : uuid) (b : body)
  : script Http.response :=
  let session_id := session_id b in
  if negb (truthy_string session_id) then
    reply (Http.error 400 "session_id is required")
  else
  console_log ("Completing session " ++ session_id ++ " by user " ++ user) ;;
  (* Fetch the session *)
  session <-
    select_single (fail_select_session f) sessions
      (col_eq Session.id session_id) ;;
  match session with
  | None =>
      console_error "Session not found:" ;;
      reply (Http.error 404 "Session not found")
  | Some session =>
  (* Verify user is participant *)
  if negb (Session.tutor_id session =? user)%string
     && negb (Session.learner_id session =? user)%string then
    reply (Http.error 403 "You are not a participant in this session")
  else
  (* Check session isn't already completed *)
  if Session.status_eqb (Session.status session) Session.completed then
    reply (Http.error 400 "Session is already completed")
  else
  (* Calculate credit amounts *)
  let isAiSession := truthy_opt_bool (Session.is_ai_session session) in
  let creditCost := if isAiSession then half_credit else one_credit in
  (* Check learner has enough credits *)
  learnerProfile <-
    select_single (fail_select_learner f) profiles
      (col_eq Profile.user_id (Session.learner_id session)) ;;
  match learnerProfile with
  | None =>
      console_error "Learner profile not found:" ;;
      reply (Http.error 404 "Learner profile not found")
  | Some learnerProfile =>
  if Profile.credits learnerProfile <? creditCost then
    reply (Http.error 400 "Insufficient credits")
  else
  (* Update session status *)
  updateError <-
    write (fail_update_session f)
      (with_sessions
         (update_rows (col_eq Session.id session_id)
            (completed_row (now e)
               (js_or (tutor_notes b) (Session.tutor_notes session))
               (js_or (learner_notes b) (Session.learner_notes session))))) ;;
  if updateError : bool then
    console_error "Failed to update session:" ;;
    reply (Http.error 500 "Failed to update session")
  else
  (* Deduct credits from learner *)
  deductError <-
    update_credits (fail_deduct f) (Session.learner_id session)
      (Profile.credits learnerProfile - creditCost) ;;
  (if deductError : bool then console_error "Failed to deduct credits:"
   else ret tt) ;;
  (* Add credits to tutor (only for human sessions) *)
  (if negb isAiSession then
     tutorProfile <-
       select_single (fail_select_tutor f) profiles
         (col_eq Profile.user_id (Session.tutor_id session)) ;;
     match tutorProfile with
     | Some tutorProfile =>
         update_credits (fail_credit_tutor f) (Session.tutor_id session)
           (Profile.credits tutorProfile + one_credit) ;;
         ret tt
     | None => ret tt
     end
   else ret tt) ;;
  (* Create credit transaction records *)
  (* Learner spent credits *)
  insert_transaction (fail_insert_learner_tx f)
    (CreditTransaction.mk (new_learner_tx_id e) (Session.learner_id session)
       (- creditCost)
       (if isAiSession then CreditTransaction.ai_session
        else CreditTransaction.learning)
       (Some (Uuid.of_text session_id))
       (Some (if isAiSession then "AI Learning Session"
              else "Human tutoring session"))) ;;
  (* Tutor earned credits (only for human sessions) *)
  (if negb isAiSession then
     insert_transaction (fail_insert_tutor_tx f)
       (CreditTransaction.mk (new_tutor_tx_id e) (Session.tutor_id session)
          one_credit CreditTransaction.teaching (Some (Uuid.of_text session_id))
          (Some "Teaching session completed")) ;;
     ret tt
   else ret tt) ;;
  console_log ("Session " ++ session_id
               ++ " completed successfully. Credits transferred.") ;;
  ret (Http.mkResponse 200
         (Http.Success "Session completed and credits transferred"))
  end
  end.

(** [Deno.serve(async (req) => ...)] *)
Definition handler (e : env) (f : faults) (req : Http.request body)
  : script Http.response :=
  (* Handle CORS preflight *)
  if (Http.method req =? "OPTIONS")%string then ret Http.preflight
  else
  match Http.authorization req with
  | None => reply (Http.error 401 "Missing authorization header")
  | Some authHeader =>
  (* [!authHeader]: an empty header is no header *)
  if negb (truthy_string authHeader) then
    reply (Http.error 401 "Missing authorization header")
  else
  match get_user e authHeader with
  | None =>
      console_error "Auth error:" ;;
      reply (Http.error 401 "Unauthorized")
  | Some user =>
  match Http.json req with
  | None =>
      console_error "Unexpected error:" ;;
      reply (Http.error 500 "Internal server error")
  | Some b => process e f user b
  end
  end
  end.
End CompleteSession.

(** ** Reading the store and the calls *)

Definition find_profile (d : db) (user : string) : option Profile.t :=
  single (filter (col_eq Profile.user_id user) (profiles d)).

(** The credit balance of a user, when the user has a profile. *)
Definition balance (d : db) (user : string) : option numeric :=
  option_map Profile.credits (find_profile d user).

Definition find_session (d : db) (id : string) : option Session.t :=
  single (filter (col_eq Session.id id) (sessions d)).

Definition find_request (d : db) (id : string) : option LearningRequest.t :=
  single (filter (col_eq LearningRequest.id id) (learning_requests d)).

(** The conversation row the handlers look up for two users. *)
Definition find_conversation (d : db) (a b : string) : option Conversation.t :=
  single (filter (same_pair (fst (sortedIds a b)) (snd (sortedIds a b)))
                 (conversations d)).

(** The conversation rows between two users, whichever way round they are
    stored. *)
Definition conversations_between (d : db) (a b : string)
  : list Conversation.t :=
  filter (fun c => same_pair a b c || same_pair b a c) (conversations d).

(** A request that is not a CORS preflight, carries a credential (not the
    empty header) that [getUser] resolves to [user], and whose JSON body
    parses to [b]. *)
Definition authenticated {B : Type} (get_user : string -> option uuid)
    (req : Http.request B) (user : uuid) (b : B) : Prop :=
  Http.method req <> "OPTIONS"
  /\ exists authHeader,
       Http.authorization req = Some authHeader
       /\ authHeader <> ""
       /\ get_user authHeader = Some user
       /\ Http.json req = Some b.

(** A call is a participant's when the caller is the tutor or the learner
    of the session. *)
Definition participant (user : uuid) (s : Session.t) : Prop :=
  Session.tutor_id s = user \/ Session.learner_id s = user.

(** A script keeps an observation of the store when no run of it changes
    what the observation sees. *)
Definition keeps {A X : Type} (obs : db -> X) (m : script A) : Prop :=
  forall w, obs (store (snd (m w))) = obs (store w).

(** The two columns [unique_conversation] ranges over. *)
Definition pair_of (c : Conversation.t) : uuid * uuid :=
  (Conversation.participant_1 c, Conversation.participant_2 c).

(** What identifies a conversation row: its id and its pair. *)
Definition row_key (c : Conversation.t) : uuid * (uuid * uuid) :=
  (Conversation.id c, pair_of c).

(** Every conversation row holds its participants in sorted order (of the
    texts the store prints), and no two rows hold the same pair: the second
    is the schema's constraint, the first is what the writers of the table
    sort the two ids for before they look a row up or insert one. *)
Definition ordered_unique (d : db) : Prop :=
  (forall p, In p (map pair_of (conversations d)) ->
     (snd p <? fst p)%string = false)
  /\ NoDup (map pair_of (conversations d)).

(** What the learner pays for a session, and what its tutor earns. *)
Definition cost (s : Session.t) : numeric :=
  if truthy_opt_bool (Session.is_ai_session s) then half_credit else one_credit.

(** The ledger rows complete-session inserts for session [s]: the learner's
    row, and the tutor's for a human session. *)
Definition learner_row (e : CompleteSession.env) (s : Session.t)
  : CreditTransaction.t :=
  CreditTransaction.mk (CompleteSession.new_learner_tx_id e)
    (Session.learner_id s) (- cost s)
    (if truthy_opt_bool (Session.is_ai_session s)
     then CreditTransaction.ai_session else CreditTransaction.learning)
    (Some (Session.id s))
    (Some (if truthy_opt_bool (Session.is_ai_session s)
           then "AI Learning Session" else "Human tutoring session")).

Definition tutor_row (e : CompleteSession.env) (s : Session.t)
  : CreditTransaction.t :=
  CreditTransaction.mk (CompleteSession.new_tutor_tx_id e)
    (Session.tutor_id s) one_credit CreditTransaction.teaching
    (Some (Session.id s)) (Some "Teaching session completed").

Definition ledger_rows (e : CompleteSession.env) (s : Session.t)
  : list CreditTransaction.t :=
  learner_row e s
  :: (if truthy_opt_bool (Session.is_ai_session s) then [] else [tutor_row e s]).

(** What the two writes on [profiles] take from and give to user [u]: the
    learner is debited the cost, the tutor of a human session is credited 1.
    A user who is both is debited and credited. *)
Definition debit (s : Session.t) (u : uuid) : numeric :=
  if (u =? Session.learner_id s)%string then cost s else 0.

Definition credit (s : Session.t) (u : uuid) : numeric :=
  if negb (truthy_opt_bool (Session.is_ai_session s))
     && (u =? Session.tutor_id s)%string
  then one_credit else 0.

(** The session row as complete-session leaves it for body [b]. *)
Definition completed_session (e : CompleteSession.env)
    (b : CompleteSession.body) (s : Session.t) : Session.t :=
  CompleteSession.completed_row (CompleteSession.now e)
    (js_or (CompleteSession.tutor_notes b) (Session.tutor_notes s))
    (js_or (CompleteSession.learner_notes b) (Session.learner_notes s)) s.

(** The response of a completed call. *)
Definition completed_response : Http.response :=
  Http.mkResponse 200 (Http.Success "Session completed and credits transferred").

(** ** A small store used for the concrete runs *)

Module Sample.
Definition alice : uuid :=
  Eval vm_compute in Uuid.of_text "11111111-aaaa-4aaa-8aaa-000000000001".
Definition bob : uuid :=
  Eval vm_compute in Uuid.of_text "22222222-bbbb-4bbb-8bbb-000000000002".
Definition carol : uuid :=
  Eval vm_compute in Uuid.of_text "33333333-cccc-4ccc-8ccc-000000000003".
Definition dave : uuid :=
  Eval vm_compute in Uuid.of_text "44444444-dddd-4ddd-8ddd-000000000004".

Definition token (user : uuid) : string := "Bearer " ++ user.

(** [getUser] resolves the credential ["Bearer " ++ user] to [user]. *)
Definition get_user (authHeader : string) : option uuid :=
  if String.prefix "Bearer " authHeader then
    Uuid.uuid_in
      (String.substring 7 (String.length authHeader - 7) authHeader)
  else None.

Definition post {B : Type} (user : uuid) (b : B) : Http.request B :=
  Http.mkRequest "POST" (Some (token user)) (Some b).

Definition human_session : uuid :=
  Eval vm_compute in Uuid.of_text "aaaaaaaa-0000-4000-8000-00000000000a".
Definition ai_session : uuid :=
  Eval vm_compute in Uuid.of_text "aaaaaaaa-0000-4000-8000-00000000000b".
Definition self_session : uuid :=
  Eval vm_compute in Uuid.of_text "aaaaaaaa-0000-4000-8000-00000000000c".
Definition orphan_session : uuid :=
  Eval vm_compute in Uuid.of_text "aaaaaaaa-0000-4000-8000-00000000000d".
Definition cancelled_session : uuid :=
  Eval vm_compute in Uuid.of_text "aaaaaaaa-0000-4000-8000-00000000000e".
Definition pending_request : uuid :=
  Eval vm_compute in Uuid.of_text "bbbbbbbb-0000-4000-8000-00000000000a".
Definition accepted_request : uuid :=
  Eval vm_compute in Uuid.of_text "bbbbbbbb-0000-4000-8000-00000000000b".

Definition session (id tutor learner : uuid) (st : Session.status_t)
    (ai : bool) : Session.t :=
  Session.mk id None tutor learner None "2026-03-01T10:00:00Z" 60 st
             None None (Some ai) None.

(** alice has 3 credits, bob 1, carol 0.4; dave has no profile.
    alice learns from bob in [human_session] and [cancelled_session], from
    dave in [orphan_session], alone in [ai_session]; in [self_session]
    she is tutor and learner at once. *)
Definition store : db :=
  mkDb
    [ Profile.mk alice "Alice" 300;
      Profile.mk bob "Bob" 100;
      Profile.mk carol "Carol" 40 ]
    [ LearningRequest.mk pending_request alice bob None (Some "Guitar?")
        None LearningRequest.pending;
      LearningRequest.mk accepted_request alice bob None (Some "Piano?")
        None LearningRequest.accepted ]
    [ session human_session bob alice Session.scheduled false;
      session ai_session bob alice Session.scheduled true;
      session self_session alice alice Session.scheduled false;
      session orphan_session dave alice Session.scheduled false;
      session cancelled_session bob alice Session.cancelled false ]
    [] [] [].

Definition world0 : world := mkWorld store [].

Definition send_env : SendRequest.env :=
  SendRequest.mkEnv get_user "2026-03-01T09:00:00.000Z"
    "2026-03-01T09:00:00.100Z"
    (Uuid.of_text "cccccccc-0000-4000-8000-000000000001")
    (Uuid.of_text "cccccccc-0000-4000-8000-000000000002")
    (Uuid.of_text "cccccccc-0000-4000-8000-000000000003").

Definition send_env' : SendRequest.env :=
  SendRequest.mkEnv get_user "2026-03-01T09:30:00.000Z"
    "2026-03-01T09:30:00.100Z"
    (Uuid.of_text "cccccccc-0000-4000-8000-000000000011")
    (Uuid.of_text "cccccccc-0000-4000-8000-000000000012")
    (Uuid.of_text "cccccccc-0000-4000-8000-000000000013").

Definition accept_env : AcceptRequest.env :=
  AcceptRequest.mkEnv get_user "2026-03-01T09:10:00.000Z"
    (fun s => s)
    (Uuid.of_text "dddddddd-0000-4000-8000-000000000001")
    (Uuid.of_text "dddddddd-0000-4000-8000-000000000002").

(** erin and frank hold 2 credits each and have not written to each other
    yet. *)
Definition erin : uuid :=
  Eval vm_compute in Uuid.of_text "aaaaaaaa-1111-4111-8111-000000000005".
Definition frank : uuid :=
  Eval vm_compute in Uuid.of_text "bbbbbbbb-2222-4222-8222-000000000006".

Definition circle : db :=
  mkDb
    [ Profile.mk erin "Erin" 200; Profile.mk frank "Frank" 200 ]
    [] [] [] [] [].

Definition complete_env : CompleteSession.env :=
  CompleteSession.mkEnv get_user "2026-03-01T11:00:00.000Z"
    (Uuid.of_text "eeeeeeee-0000-4000-8000-000000000001")
    (Uuid.of_text "eeeeeeee-0000-4000-8000-000000000002").
End Sample.

(** ** Quantities and invariants of the store *)

Definition sum_amounts (l : list numeric) : numeric := fold_right Z.add 0 l.

(** All the credits held, and all the amounts of a run of ledger rows. *)
Definition total_credits (d : db) : numeric :=
  sum_amounts (map Profile.credits (profiles d)).

Definition ledger_total (rows : list CreditTransaction.t) : numeric :=
  sum_amounts (map CreditTransaction.amount rows).

(** No profile is in debt. *)
Definition nonneg_balances (d : db) : Prop :=
  forall p, In p (profiles d) -> 0 <= Profile.credits p.

(** No request and no session has one user as both learner and tutor. *)
Definition distinct_parties (d : db) : Prop :=
  (forall r, In r (learning_requests d) ->
     LearningRequest.tutor_id r <> LearningRequest.learner_id r)
  /\ (forall s, In s (sessions d) ->
        Session.tutor_id s <> Session.learner_id s).

(** ** Row-level security (migration 20260202055408) *)

Module Policy.
(** ["Participants can view conversations"]:
    [USING (auth.uid() = participant_1 OR auth.uid() = participant_2)] *)
Definition view_conversation (uid : uuid) (c : Conversation.t) : bool :=
  (uid =? Conversation.participant_1 c)%string
  || (uid =? Conversation.participant_2 c)%string.

(** ["Users can create conversations"]:
    [WITH CHECK (auth.uid() = participant_1 OR auth.uid() = participant_2)] *)
Definition create_conversation (uid : uuid) (c : Conversation.t) : bool :=
  (uid =? Conversation.participant_1 c)%string
  || (uid =? Conversation.participant_2 c)%string.
End Policy.

(** ** src/pages/TutorProfile.tsx: the page that calls send-request *)

Module TutorProfilePage.
Record env := mkEnv {
  db_now : timestamptz;            (* DEFAULT now() of an inserted row *)
  new_conversation_id : uuid       (* gen_random_uuid() of the inserted row *)
}.

Record faults := mkFaults {
  fail_select_conversation : bool;
  fail_insert_conversation : bool
}.

Definition no_faults : faults := mkFaults false false.


(** [handleStartConversation], for the tutor shown ([tutor.user_id], [None]
    while there is none) and the signed-in [user].  The page talks to the
    store with the user's own client, so the select only sees the rows the
    view policy lets [user] see, and the insert is refused when the create
    policy or [unique_conversation] does.  The result is where the page
    navigates, [None] when the handler returns at once. *)
Definition handleStartConversation (e : env) (f : faults)
    (tutor : option uuid) (user : option uuid) : script (option string) :=
  match tutor, user with
  | Some tutor_user_id, Some user_id =>
      (* Check if conversation exists *)
      let sortedIds := sortedIds user_id tutor_user_id in
      existingConvo <-
        select_single (fail_select_conversation f) conversations
          (fun c => Policy.view_conversation user_id c
                    && same_pair (fst sortedIds) (snd sortedIds) c) ;;
      match existingConvo with
      | Some _ => ret (Some "/messages")
      | None =>
          (* Create conversation *)
          let row := Conversation.mk (new_conversation_id e)
                       (Uuid.of_text (fst sortedIds))
                       (Uuid.of_text (snd sortedIds)) (Some (db_now e)) in
          insert_conversation
            (fail_insert_conversation f
             || negb (Policy.create_conversation user_id row)) row ;;
          ret (Some "/messages")
      end
  | _, _ => ret None
  end.
End TutorProfilePage.

(** The row send-request inserts into [learning_requests]. *)
Definition new_request (e : SendRequest.env) (user : uuid)
    (b : SendRequest.body) : LearningRequest.t :=
  LearningRequest.mk (SendRequest.new_request_id e) user
    (Uuid.of_text (SendRequest.tutor_id b))
    (option_map Uuid.of_text (js_or (SendRequest.skill_id b) None))
    (Some (SendRequest.message b))
    (js_or (SendRequest.proposed_datetime b) None) LearningRequest.pending.

(** ** Row-level security on [messages] (migration 20260202055408) *)

Module MessagePolicy.
(** [EXISTS (SELECT 1 FROM public.conversations c WHERE c.id =
    conversation_id AND (auth.uid() = c.participant_1 OR auth.uid() =
    c.participant_2))] *)
Definition in_conversation (uid : uuid) (convs : list Conversation.t)
    (conversation_id : uuid) : bool :=
  existsb (fun c => (Conversation.id c =? conversation_id)%string
                    && ((uid =? Conversation.participant_1 c)%string
                        || (uid =? Conversation.participant_2 c)%string))
          convs.

(** ["Conversation participants can view messages"] *)
Definition view_message (uid : uuid) (convs : list Conversation.t)
    (m : Message.t) : bool :=
  in_conversation uid convs (Message.conversation_id m).

(** ["Conversation participants can send messages"] *)
Definition send_message (uid : uuid) (convs : list Conversation.t)
    (m : Message.t) : bool :=
  (uid =? Message.sender_id m)%string
  && in_conversation uid convs (Message.conversation_id m).

(** ["Sender can update messages"]: [USING (auth.uid() = sender_id)] *)
Definition update_message (uid : uuid) (m : Message.t) : bool :=
  (uid =? Message.sender_id m)%string.

(** ["Participants can update conversations"] *)
Definition update_conversation (uid : uuid) (c : Conversation.t) : bool :=
  (uid =? Conversation.participant_1 c)%string
  || (uid =? Conversation.participant_2 c)%string.
End MessagePolicy.

(** ** src/hooks/useConversations.ts: what the page writes and counts *)

Module UseMessages.
(** A row of [messages] with the column the three functions leave at its
    default, [read_at TIMESTAMPTZ]. *)
Record row := mkRow {
  message : Message.t;
  read_at : option timestamptz
}.

Definition set_read_at (ts : timestamptz) (r : row) : row :=
  mkRow (message r) (Some ts).

Definition is_null {A : Type} (x : option A) : bool :=
  match x with
  | None => true
  | Some _ => false
  end.

Record env := mkEnv {
  now : timestamptz;               (* new Date().toISOString() *)
  trim : string -> string;         (* String.prototype.trim *)
  new_message_id : uuid            (* gen_random_uuid() of the inserted row *)
}.

Record faults := mkFaults {
  fail_insert_message : bool;
  fail_update_conversation : bool
}.

Definition no_faults : faults := mkFaults false false.

(** The update that ends [fetchMessages] ("Mark messages as read"), as the
    table it leaves.  The hook uses the user's own client: the update only
    reaches the rows that the update policy, and the view policy for the
    columns it filters on, let [user] reach. *)
Definition markAsRead (ts : timestamptz) (conversationId user : option uuid)
    (convs : list Conversation.t) (rows : list row) : list row :=
  match conversationId, user with
  | Some conversationId, Some user_id =>
      if negb (truthy_string conversationId) then rows
      else
        update_rows
          (fun r =>
             MessagePolicy.update_message user_id (message r)
             && MessagePolicy.view_message user_id convs (message r)
             && col_eq (fun r => Message.conversation_id (message r))
                       conversationId r
             && negb (col_eq (fun r => Message.sender_id (message r))
                             user_id r)
             && is_null (read_at r))
          (set_read_at ts) rows
  | _, _ => rows
  end.

(** [unreadCount] of [fetchConversations] for one conversation: the rows
    the user sees that others sent and that have no [read_at]. *)
Definition unreadCount (user_id : uuid) (convs : list Conversation.t)
    (convo_id : uuid) (rows : list row) : nat :=
  List.length
    (filter
       (fun r =>
          MessagePolicy.view_message user_id convs (message r)
          && col_eq (fun r => Message.conversation_id (message r)) convo_id r
          && negb (col_eq (fun r => Message.sender_id (message r)) user_id r)
          && is_null (read_at r))
       rows).

(** [sendMessage]: [None] when it returns at once, else [!error]. *)
Definition sendMessage (e : env) (f : faults)
    (conversationId user : option uuid) (content : string)
  : script (option bool) :=
  match conversationId, user with
  | Some conversationId, Some user_id =>
      if negb (truthy_string conversationId)
         || negb (truthy_string (trim e content)) then ret None
      else
        let row := Message.mk (new_message_id e) conversationId user_id
                     (trim e content) in
        error <-
          (fun w =>
             insert_message
               (fail_insert_message f
                || negb (MessagePolicy.send_message user_id
                           (conversations (store w)) row))
               row w) ;;
        (if negb error then
           write (fail_update_conversation f)
             (with_conversations
                (update_rows
                   (fun c => MessagePolicy.update_conversation user_id c
                             && col_eq Conversation.id conversationId c)
                   (Conversation.set_last_message_at (now e)))) ;;
           ret tt
         else ret tt) ;;
        ret (Some (negb error))
  | _, _ => ret None
  end.
End UseMessages.

(** * Properties *)

(** ** Texts and values of uuids *)

Lemma digit_char (h : Uuid.hex) : Uuid.digit (Uuid.char h) = Some h.
Proof. destruct h; reflexivity. Qed.

Lemma char_not_dash (h : Uuid.hex) : (Uuid.char h =? "-")%char = false.
Proof. destruct h; reflexivity. Qed.

Lemma char_not_brace (h : Uuid.hex) : (Uuid.char h =? "{")%char = false.
Proof. destruct h; reflexivity. Qed.

(** The store reads the text it prints as the value it printed. *)
Lemma uuid_in_out (u : uuid) : Uuid.uuid_in u = Some u.
Proof.
  destruct u as [[a0 c0] [a1 c1] [a2 c2] [a3 c3] [a4 c4] [a5 c5] [a6 c6]
                 [a7 c7] [a8 c8] [a9 c9] [a10 c10] [a11 c11] [a12 c12]
                 [a13 c13] [a14 c14] [a15 c15]].
  unfold Uuid.uuid_in, Uuid.out, Uuid.two. cbv zeta.
  cbn [fst snd Uuid.starts_with]. rewrite char_not_brace.
  repeat (cbn [Uuid.read_bytes Uuid.starts_with Uuid.tail Nat.odd Nat.even
               Nat.ltb Nat.leb andb negb Ascii.eqb Bool.eqb];
          rewrite ?digit_char, ?char_not_dash).
  reflexivity.
Qed.

Lemma out_inj (a b : uuid) : (a : string) = b -> a = b.
Proof.
  intros H. apply (f_equal Uuid.uuid_in) in H.
  rewrite !uuid_in_out in H. now inversion H.
Qed.

Lemma uuid_eqb_eq (a b : uuid) : (a =? b)%string = true <-> a = b.
Proof.
  rewrite String.eqb_eq. split; [apply out_inj|now intros ->].
Qed.

Lemma uuid_eqb_neq (a b : uuid) : (a =? b)%string = false <-> a <> b.
Proof.
  rewrite String.eqb_neq. split; intros H E; apply H;
    [now rewrite E|now apply out_inj].
Qed.

Lemma out_truthy (u : uuid) : truthy_string u = true.
Proof. destruct u as [[a0 c0] ?]. reflexivity. Qed.

Lemma out_not_empty (u : uuid) : (u : string) <> "".
Proof. destruct u as [[a0 c0] ?]. discriminate. Qed.

Lemma of_text_in (s : string) (v : uuid) :
  Uuid.uuid_in s = Some v -> Uuid.of_text s = v.
Proof. unfold Uuid.of_text. now intros ->. Qed.

Lemma of_text_out (u : uuid) : Uuid.of_text u = u.
Proof. apply of_text_in, uuid_in_out. Qed.

(** ** Queries and updates on a table *)

Lemma truthy_string_true (s : string) : truthy_string s = true <-> s <> "".
Proof.
  unfold truthy_string. rewrite negb_true_iff. apply String.eqb_neq.
Qed.

Lemma truthy_string_false (s : string) : truthy_string s = false <-> s = "".
Proof.
  unfold truthy_string. rewrite negb_false_iff. apply String.eqb_eq.
Qed.

Lemma col_eq_true {A : Type} (column : A -> uuid) (v : string) (row : A) :
  col_eq column v row = true <-> Uuid.uuid_in v = Some (column row).
Proof.
  unfold col_eq. destruct (Uuid.uuid_in v) as [u|].
  - rewrite uuid_eqb_eq. split; [now intros ->|now intros [= ->]].
  - split; discriminate.
Qed.

Lemma col_eq_false {A : Type} (column : A -> uuid) (v : string) (row : A) :
  col_eq column v row = false <-> Uuid.uuid_in v <> Some (column row).
Proof.
  rewrite <- col_eq_true. destruct (col_eq column v row); split; congruence.
Qed.

(** Looking up the text of a value is looking up the value. *)
Lemma col_eq_out {A : Type} (column : A -> uuid) (u : uuid) (row : A) :
  col_eq column u row = (column row =? u)%string.
Proof. unfold col_eq. now rewrite uuid_in_out. Qed.

(** Two texts of one value select the same rows. *)
Lemma col_eq_value {A : Type} (column : A -> uuid) (v : string) (u : uuid)
    (row : A) :
  Uuid.uuid_in v = Some u -> col_eq column v row = col_eq column u row.
Proof. intros H. unfold col_eq. now rewrite H, uuid_in_out. Qed.

Lemma filter_col_eq_value {A : Type} (column : A -> uuid) (v : string)
    (u : uuid) (rows : list A) :
  Uuid.uuid_in v = Some u ->
  filter (col_eq column v) rows = filter (col_eq column u) rows.
Proof. intros H. apply filter_ext. intros row. now apply col_eq_value. Qed.

(** A text that denotes no uuid selects nothing. *)
Lemma filter_col_eq_invalid {A : Type} (column : A -> uuid) (v : string)
    (rows : list A) :
  Uuid.uuid_in v = None -> filter (col_eq column v) rows = [].
Proof.
  intros H. induction rows as [|x rows IH]; [reflexivity|].
  cbn [filter]. unfold col_eq at 1. now rewrite H.
Qed.

Lemma single_some {A : Type} (rows : list A) (x : A) :
  single rows = Some x -> rows = [x].
Proof.
  destruct rows as [|y [|z rows]]; simpl; intros H; inversion H; reflexivity.
Qed.

Lemma single_filter_holds {A : Type} (p : A -> bool) (rows : list A) (x : A) :
  single (filter p rows) = Some x -> p x = true /\ In x rows.
Proof.
  intros H. apply single_some in H.
  assert (Hin : In x (filter p rows)) by (rewrite H; left; reflexivity).
  apply filter_In in Hin. tauto.
Qed.

Lemma single_map {A B : Type} (f : A -> B) (rows : list A) :
  single (map f rows) = option_map f (single rows).
Proof. destruct rows as [|y [|z rows]]; reflexivity. Qed.

(** Rows selected by the filter of an update are the updated rows, when the
    update keeps the filtered column. *)
Lemma filter_update_rows_same {A : Type} (p : A -> bool) (f : A -> A)
    (rows : list A) :
  (forall x, p (f x) = p x) ->
  filter p (update_rows p f rows) = map f (filter p rows).
Proof.
  intros Hkeep. unfold update_rows.
  induction rows as [|x rows IH]; simpl; [reflexivity|].
  destruct (p x) eqn:Hp.
  - rewrite Hkeep, Hp. simpl. now rewrite IH.
  - rewrite Hp. exact IH.
Qed.

(** Rows selected by another filter are not touched, when the two filters
    select different rows before and after the update. *)
Lemma filter_update_rows_other {A : Type} (p q : A -> bool) (f : A -> A)
    (rows : list A) :
  (forall x, p x = true -> q x = false /\ q (f x) = false) ->
  filter q (update_rows p f rows) = filter q rows.
Proof.
  intros Hother. unfold update_rows.
  induction rows as [|x rows IH]; simpl; [reflexivity|].
  destruct (p x) eqn:Hp.
  - destruct (Hother x Hp) as [Hq Hqf]. now rewrite Hq, Hqf.
  - now rewrite IH.
Qed.

Lemma find_session_id (d : db) (id : string) (s : Session.t) :
  find_session d id = Some s -> Uuid.uuid_in id = Some (Session.id s).
Proof.
  intros H. apply single_filter_holds in H. now apply col_eq_true.
Qed.

Lemma find_request_id (d : db) (id : string) (r : LearningRequest.t) :
  find_request d id = Some r -> Uuid.uuid_in id = Some (LearningRequest.id r).
Proof.
  intros H. apply single_filter_holds in H. now apply col_eq_true.
Qed.

Lemma find_profile_user_id (d : db) (user : string) (p : Profile.t) :
  find_profile d user = Some p -> Uuid.uuid_in user = Some (Profile.user_id p).
Proof.
  intros H. apply single_filter_holds in H. now apply col_eq_true.
Qed.

Lemma balance_find_profile (d : db) (user : string) (c : numeric) :
  balance d user = Some c ->
  exists p, find_profile d user = Some p /\ Profile.credits p = c.
Proof.
  unfold balance. destruct (find_profile d user) as [p|]; simpl; intros H;
    inversion H. now exists p.
Qed.

(** ** What a script leaves alone *)

Section Keeps.
Context {X : Type} (obs : db -> X).

Lemma keeps_ret {A : Type} (a : A) : keeps obs (ret a).
Proof. intros w. reflexivity. Qed.

Lemma keeps_reply {A : Type} (r : Http.response) : keeps obs (@reply A r).
Proof. intros w. reflexivity. Qed.

Lemma keeps_bind {A B : Type} (m : script A) (k : A -> script B) :
  keeps obs m -> (forall a, keeps obs (k a)) -> keeps obs (bind m k).
Proof.
  intros Hm Hk w. unfold bind. specialize (Hm w).
  destruct (m w) as [[a|r] w1]; simpl in *.
  - now rewrite Hk.
  - exact Hm.
Qed.

Lemma keeps_console_log (line : string) : keeps obs (console_log line).
Proof. intros w. reflexivity. Qed.

Lemma keeps_console_error (line : string) : keeps obs (console_error line).
Proof. intros w. reflexivity. Qed.

Lemma keeps_select_single {A : Type} (fault : bool) (table : db -> list A)
    (p : A -> bool) :
  keeps obs (select_single fault table p).
Proof. intros w. reflexivity. Qed.

Lemma keeps_write (fault : bool) (change : db -> db) :
  (forall d, obs (change d) = obs d) -> keeps obs (write fault change).
Proof.
  intros H w. unfold write. destruct fault; simpl; [reflexivity|apply H].
Qed.

Lemma keeps_insert_returning {A : Type} (fault : bool) (row : A)
    (add : A -> db -> db) :
  (forall d, obs (add row d) = obs d) ->
  keeps obs (insert_returning fault row add).
Proof.
  intros H w. unfold insert_returning. destruct fault; simpl;
    [reflexivity|apply H].
Qed.

Lemma keeps_run (m : script Http.response) (w : world) :
  keeps obs m -> obs (store (snd (run m w))) = obs (store w).
Proof.
  intros H. unfold run. specialize (H w).
  now destruct (m w) as [[a|r] w1].
Qed.
End Keeps.

(** ** Running a script by hand *)

(** Unfolds the steps of a script and the store calls, as far as the tests
    they depend on are known. *)
Ltac exec :=
  cbv beta iota zeta delta
    [run bind ret reply console_log console_error select_single write
     insert_returning insert_conversation insert_message touch_conversation
     CompleteSession.update_credits CompleteSession.insert_transaction];
  cbn [store console fst snd negb orb andb option_map
       LearningRequest.status_eqb Session.status_eqb
       profiles learning_requests sessions credit_transactions conversations
       messages with_profiles with_learning_requests with_sessions
       with_credit_transactions with_conversations with_messages
       SendRequest.fail_select_learner SendRequest.fail_select_tutor
       SendRequest.fail_insert_request SendRequest.fail_select_conversation
       SendRequest.fail_insert_conversation SendRequest.fail_insert_message
       SendRequest.fail_update_conversation
       AcceptRequest.fail_select_request AcceptRequest.fail_update_request
       AcceptRequest.fail_insert_session
       AcceptRequest.fail_select_conversation
       AcceptRequest.fail_insert_message
       AcceptRequest.fail_update_conversation
       CompleteSession.fail_select_session CompleteSession.fail_select_learner
       CompleteSession.fail_update_session CompleteSession.fail_deduct
       CompleteSession.fail_select_tutor CompleteSession.fail_credit_tutor
       CompleteSession.fail_insert_learner_tx
       CompleteSession.fail_insert_tutor_tx].

Ltac exec_in H :=
  cbv beta iota zeta delta
    [run bind ret reply console_log console_error select_single write
     insert_returning insert_conversation insert_message touch_conversation
     CompleteSession.update_credits CompleteSession.insert_transaction]
    in H;
  cbn [store console fst snd negb orb andb option_map
       LearningRequest.status_eqb Session.status_eqb
       profiles learning_requests sessions credit_transactions conversations
       messages with_profiles with_learning_requests with_sessions
       with_credit_transactions with_conversations with_messages
       SendRequest.fail_select_learner SendRequest.fail_select_tutor
       SendRequest.fail_insert_request SendRequest.fail_select_conversation
       SendRequest.fail_insert_conversation SendRequest.fail_insert_message
       SendRequest.fail_update_conversation
       AcceptRequest.fail_select_request AcceptRequest.fail_update_request
       AcceptRequest.fail_insert_session
       AcceptRequest.fail_select_conversation
       AcceptRequest.fail_insert_message
       AcceptRequest.fail_update_conversation
       CompleteSession.fail_select_session CompleteSession.fail_select_learner
       CompleteSession.fail_update_session CompleteSession.fail_deduct
       CompleteSession.fail_select_tutor CompleteSession.fail_credit_tutor
       CompleteSession.fail_insert_learner_tx
       CompleteSession.fail_insert_tutor_tx] in H.

(** Splits on every test the run in [H] still depends on. *)
Ltac crunch H :=
  repeat (exec_in H;
          match type of H with
          | context [if ?c then _ else _] => destruct c eqn:?
          | context [match ?c with Some _ => _ | None => _ end] =>
              destruct c eqn:?
          end);
  exec_in H.

(** A call built by [Sample.post] is authenticated. *)
Ltac sample_call :=
  split;
  [ discriminate
  | eexists; split; [reflexivity|]; split; [discriminate|];
    split; reflexivity ].


(** ** send-request *)

Module SendRequestSpec.
Import SendRequest.

Lemma send_request_authenticated (e : env) (f : faults) (req : Http.request body)
    (user : uuid) (b : body) :
  authenticated (get_user e) req user b ->
  handler e f req = process e f user b.
Proof.
  intros [Hm (authHeader & Ha & Hne & Hu & Hj)]. unfold handler.
  apply String.eqb_neq in Hm. apply truthy_string_true in Hne.
  now rewrite Hm, Ha, Hne, Hu, Hj.
Qed.

Lemma process_keeps_profiles (e : env) (f : faults) (user : uuid) (b : body) :
  keeps profiles (process e f user b).
Proof.
  unfold process, insert_conversation, insert_message, touch_conversation.
  repeat first
    [ apply keeps_reply | apply keeps_ret | apply keeps_console_log
    | apply keeps_console_error | apply keeps_select_single
    | apply keeps_write; reflexivity
    | apply keeps_insert_returning; reflexivity
    | apply keeps_bind; [|intros ?]
    | match goal with
      | |- keeps _ (if ?c then _ else _) => destruct c
      | |- keeps _ (match ?c with Some _ => _ | None => _ end) => destruct c
      | |- keeps _ (fun w => insert_returning _ _ _ w) =>
          intros w; apply (keeps_insert_returning profiles); reflexivity
      end ].
Qed.

Lemma handler_keeps_profiles (e : env) (f : faults) (req : Http.request body) :
  keeps profiles (handler e f req).
Proof.
  unfold handler.
  destruct (Http.method req =? "OPTIONS")%string; [apply keeps_ret|].
  destruct (Http.authorization req) as [authHeader|]; [|apply keeps_reply].
  destruct (negb (truthy_string authHeader)); [apply keeps_reply|].
  destruct (get_user e authHeader) as [user|]; [|apply keeps_reply].
  destruct (Http.json req) as [b|].
  - apply process_keeps_profiles.
  - apply keeps_bind; [apply keeps_console_error|intros ?; apply keeps_reply].
Qed.

(** X21.  The guard on self-requests, for a caller named by the text of
    their id as [getUser] gives it: the call is rejected with status 400 and
    leaves the store and the console as they were, whichever store calls
    would fail.  The error is "You cannot send a request to yourself" when
    the message is not empty; an empty message is refused one check
    earlier. *)
Theorem self_request_by_own_text_rejected (e : env) (f : faults)
    (req : Http.request body) (user : uuid) (b : body) (w : world)
    (resp : Http.response) (w' : world) :
  authenticated (get_user e) req user b ->
  tutor_id b = user ->
  run (handler e f req) w = (resp, w') ->
  w' = w
  /\ Http.status resp = 400
  /\ (message b <> "" ->
      resp = Http.error 400 "You cannot send a request to yourself").
Proof.
  intros Hauth Hself Hrun.
  rewrite (send_request_authenticated _ _ _ _ _ Hauth) in Hrun.
  unfold process in Hrun.
  rewrite Hself, String.eqb_refl, out_truthy in Hrun.
  destruct (truthy_string (message b)) eqn:Hm;
    exec_in Hrun; inversion Hrun; subst resp w'; clear Hrun;
    repeat split; intros Hm';
    try reflexivity;
    apply truthy_string_false in Hm; contradiction.
Qed.

(** alice names herself by the text of her id. *)
Lemma self_request_by_own_text_rejected_witness :
  let b := mkBody Sample.alice None "Teach me the guitar" None in
  let out := run (handler Sample.send_env no_faults
                    (Sample.post Sample.alice b)) Sample.world0 in
  fst out = Http.error 400 "You cannot send a request to yourself"
  /\ snd out = Sample.world0.
Proof.
  cbv zeta.
  destruct (self_request_by_own_text_rejected Sample.send_env no_faults
              (Sample.post Sample.alice
                 (mkBody Sample.alice None "Teach me the guitar" None))
              Sample.alice _ Sample.world0
              (fst (run (handler Sample.send_env no_faults
                           (Sample.post Sample.alice
                              (mkBody Sample.alice None
                                 "Teach me the guitar" None)))
                      Sample.world0))
              (snd (run (handler Sample.send_env no_faults
                           (Sample.post Sample.alice
                              (mkBody Sample.alice None
                                 "Teach me the guitar" None)))
                      Sample.world0))
              ltac:(sample_call) eq_refl eq_refl)
    as (Hw & _ & Hresp).
  split; [apply Hresp; discriminate|exact Hw].
Defined.

(** C9.  The guard on self-requests compares the text of the body with the
    text of the caller's id, and the store reads the text as a uuid.  alice
    names herself with the letters of her id in upper case: the guard lets
    the call through, the lookup of the tutor finds her own profile, and the
    call answers 201, having inserted a learning request whose tutor is its
    learner and a conversation of alice with herself.  Named by the text
    [getUser] gives, she is refused. *)
Theorem self_request_in_upper_case_accepted :
  let b := mkBody "11111111-AAAA-4AAA-8AAA-000000000001" None
             "Teach me the guitar" None in
  let req := Sample.post Sample.alice b in
  let out := run (handler Sample.send_env no_faults req) Sample.world0 in
  let b' := mkBody Sample.alice None "Teach me the guitar" None in
  authenticated (get_user Sample.send_env) req Sample.alice b
  /\ Uuid.uuid_in (tutor_id b) = Some Sample.alice
  /\ Http.status (fst out) = 201
  /\ (exists r,
        learning_requests (store (snd out))
        = (learning_requests Sample.store ++ [r])%list
        /\ LearningRequest.learner_id r = Sample.alice
        /\ LearningRequest.tutor_id r = Sample.alice
        /\ LearningRequest.status r = LearningRequest.pending)
  /\ map pair_of (conversations (store (snd out)))
     = [(Sample.alice, Sample.alice)]
  /\ run (handler Sample.send_env no_faults (Sample.post Sample.alice b'))
         Sample.world0
     = (Http.error 400 "You cannot send a request to yourself",
        Sample.world0).
Proof.
  cbv zeta. split; [sample_call|]. split; [reflexivity|].
  split; [reflexivity|]. split.
  - eexists. split; [reflexivity|]. repeat split.
  - split; reflexivity.
Qed.




(** C8, as amended.  No send-request call, successful or not, changes the
    profiles table, so every credit balance is what it was: the learner's
    balance is checked and nothing is deducted.  When the caller holds at
    least 1 credit, tutor_id and message are not empty, and the named
    tutor has no profile, the call fails with 404 "Tutor not found" and
    leaves the store and the console as they were.  (The lookup of the
    caller's profile is taken to be answered; the caller has a profile and
    the tutor none, so they differ.) *)
Theorem send_request_keeps_balances (e : env) (f : faults)
    (req : Http.request body) (d : db) (log : list string)
    (resp : Http.response) (w' : world) :
  run (handler e f req) (mkWorld d log) = (resp, w') ->
  profiles (store w') = profiles d
  /\ (forall u, balance (store w') u = balance d u)
  /\ (forall user b c,
        authenticated (get_user e) req user b ->
        fail_select_learner f = false ->
        balance d user = Some c ->
        one_credit <= c ->
        tutor_id b <> "" ->
        message b <> "" ->
        find_profile d (tutor_id b) = None ->
        resp = Http.error 404 "Tutor not found" /\ w' = mkWorld d log).
Proof.
  intros Hrun.
  assert (Hkeep : profiles (store w') = profiles d).
  { pose proof (keeps_run profiles (handler e f req) (mkWorld d log)
                  (handler_keeps_profiles e f req)) as H.
    now rewrite Hrun in H. }
  split; [exact Hkeep|]. split.
  { intros u. unfold balance, find_profile. now rewrite Hkeep. }
  intros user b c Hauth Hf Hbal Hc Ht Hm Hnone.
  rewrite (send_request_authenticated _ _ _ _ _ Hauth) in Hrun.
  destruct (balance_find_profile _ _ _ Hbal) as (p & Hp & Hpc).
  assert (Hne : (tutor_id b =? user)%string = false).
  { apply String.eqb_neq. intros Heq. rewrite Heq in Hnone. congruence. }
  assert (Hrich : (Profile.credits p <? one_credit) = false)
    by (rewrite Hpc; now apply Z.ltb_ge).
  apply truthy_string_true in Ht, Hm.
  unfold process in Hrun. unfold find_profile in Hp, Hnone.
  rewrite Ht, Hm, Hne, Hf in Hrun. exec_in Hrun.
  rewrite Hp, Hrich in Hrun. exec_in Hrun.
  destruct (fail_select_tutor f); [|rewrite Hnone in Hrun];
    inversion Hrun; now subst.
Qed.

(** alice, who holds 3 credits, asks bob: the request, the conversation
    and the first message are created and alice still holds 3 credits.
    Then she asks dave, who has no profile: 404, and nothing is written. *)
Lemma send_request_keeps_balances_witness :
  let b := mkBody Sample.bob None "Teach me the guitar" None in
  let req := Sample.post Sample.alice b in
  let out := run (handler Sample.send_env no_faults req) Sample.world0 in
  let b' := mkBody Sample.dave None "Teach me the guitar" None in
  let req' := Sample.post Sample.alice b' in
  let out' := run (handler Sample.send_env no_faults req') Sample.world0 in
  Http.status (fst out) = 201
  /\ List.length (learning_requests (store (snd out))) = 3%nat
  /\ balance (store (snd out)) Sample.alice = Some 300
  /\ profiles (store (snd out)) = profiles Sample.store
  /\ find_profile Sample.store Sample.dave = None
  /\ fst out' = Http.error 404 "Tutor not found"
  /\ snd out' = Sample.world0.
Proof.
  cbv zeta. split; [reflexivity|]. split; [reflexivity|].
  split; [reflexivity|].
  set (b := mkBody Sample.bob None "Teach me the guitar" None).
  set (b' := mkBody Sample.dave None "Teach me the guitar" None).
  split.
  - apply (send_request_keeps_balances Sample.send_env no_faults
             (Sample.post Sample.alice b) Sample.store []
             (fst (run (handler Sample.send_env no_faults
                          (Sample.post Sample.alice b)) Sample.world0))).
    reflexivity.
  - split; [reflexivity|].
    assert (Hauth : authenticated (get_user Sample.send_env)
                      (Sample.post Sample.alice b') Sample.alice b')
      by sample_call.
    assert (Hc : one_credit <= 300) by (unfold one_credit; lia).
    destruct (send_request_keeps_balances Sample.send_env no_faults
                (Sample.post Sample.alice b') Sample.store []
                (fst (run (handler Sample.send_env no_faults
                             (Sample.post Sample.alice b')) Sample.world0))
                (snd (run (handler Sample.send_env no_faults
                             (Sample.post Sample.alice b')) Sample.world0))
                eq_refl)
      as (_ & _ & Hmissing).
    apply (Hmissing Sample.alice b' 300 Hauth eq_refl eq_refl Hc);
      [discriminate|discriminate|reflexivity].
Defined.

(** C8 as stated fails: dave has no profile, yet a call that names him is
    answered 400, not 404, when the caller is carol, who holds 0.4 credit,
    and when alice, who holds 3, sends an empty message. *)
Lemma missing_tutor_not_404_counterexample :
  let poor := mkBody Sample.dave None "Teach me the guitar" None in
  let mute := mkBody Sample.dave None "" None in
  find_profile Sample.store Sample.dave = None
  /\ authenticated (get_user Sample.send_env)
       (Sample.post Sample.carol poor) Sample.carol poor
  /\ fst (run (handler Sample.send_env no_faults
                 (Sample.post Sample.carol poor)) Sample.world0)
     = Http.error 400 "Insufficient credits to send a request"
  /\ authenticated (get_user Sample.send_env)
       (Sample.post Sample.alice mute) Sample.alice mute
  /\ fst (run (handler Sample.send_env no_faults
                 (Sample.post Sample.alice mute)) Sample.world0)
     = Http.error 400 "tutor_id and message are required"
  /\ Http.status
       (fst (run (handler Sample.send_env no_faults
                    (Sample.post Sample.carol poor)) Sample.world0))
     <> 404.
Proof.
  cbv zeta. split; [reflexivity|]. split; [sample_call|].
  split; [reflexivity|]. split; [sample_call|]. split; [reflexivity|].
  vm_compute. discriminate.
Qed.
End SendRequestSpec.


(** ** accept-request *)

Module AcceptRequestSpec.
Import AcceptRequest.

Lemma accept_request_authenticated (e : env) (f : faults) (req : Http.request body)
    (user : uuid) (b : body) :
  authenticated (get_user e) req user b ->
  handler e f req = process e f user b.
Proof.
  intros [Hm (authHeader & Ha & Hne & Hu & Hj)]. unfold handler.
  apply String.eqb_neq in Hm. apply truthy_string_true in Hne.
  now rewrite Hm, Ha, Hne, Hu, Hj.
Qed.

Lemma status_eqb_pending (s : LearningRequest.status_t) :
  LearningRequest.status_eqb s LearningRequest.pending = true
  <-> s = LearningRequest.pending.
Proof. destruct s; simpl; split; intros H; congruence. Qed.




(** With the fields of the body filled in, the request found and pending,
    and neither its lookup nor the insert of the session failing, a call by
    the tutor answers 201. *)
Lemma accept_request_succeeds (e : env) (f : faults)
    (req : Http.request body) (user : uuid) (b : body) (d : db)
    (log : list string) (r : LearningRequest.t) :
  authenticated (get_user e) req user b ->
  request_id b <> "" ->
  scheduled_at b <> "" ->
  find_request d (request_id b) = Some r ->
  LearningRequest.status r = LearningRequest.pending ->
  LearningRequest.tutor_id r = user ->
  fail_select_request f = false ->
  fail_insert_session f = false ->
  Http.status (fst (run (handler e f req) (mkWorld d log))) = 201.
Proof.
  intros Hauth Hid Hat Hr Hst Htutor Hf1 Hf2.
  rewrite (accept_request_authenticated _ _ _ _ _ Hauth). subst user.
  apply truthy_string_true in Hid, Hat. unfold find_request in Hr.
  destruct (run (process e f (LearningRequest.tutor_id r) b) (mkWorld d log))
    as [resp w'] eqn:Hrun.
  unfold process in Hrun. rewrite Hid, Hat, Hf1 in Hrun. exec_in Hrun.
  rewrite Hr in Hrun. rewrite String.eqb_refl, Hst in Hrun. exec_in Hrun.
  destruct (fail_update_request f); exec_in Hrun;
    rewrite Hf2 in Hrun; crunch Hrun; inversion Hrun; reflexivity.
Qed.

(** C7.  For a pending learning request, a successful accept-request call
    by its tutor (one that answers 201, the update of the request not
    being refused by the store) leaves the request with status accepted
    and appends exactly one row to the sessions table: the session sent
    back in the response, whose request_id is the request's id, whose
    tutor_id, learner_id and skill_id are the request's, and whose status
    is scheduled. *)
Theorem accept_pending_creates_session (e : env) (f : faults)
    (req : Http.request body) (user : uuid) (b : body) (d : db)
    (log : list string) (r : LearningRequest.t)
    (resp : Http.response) (w' : world) :
  authenticated (get_user e) req user b ->
  find_request d (request_id b) = Some r ->
  LearningRequest.status r = LearningRequest.pending ->
  LearningRequest.tutor_id r = user ->
  fail_update_request f = false ->
  run (handler e f req) (mkWorld d log) = (resp, w') ->
  Http.status resp = 201 ->
  find_request (store w') (request_id b)
  = Some (LearningRequest.set_status LearningRequest.accepted r)
  /\ exists s,
       sessions (store w') = (sessions d ++ [s])%list
       /\ resp = Http.mkResponse 201 (Http.SuccessSession s)
       /\ Session.request_id s = Some (LearningRequest.id r)
       /\ Session.tutor_id s = LearningRequest.tutor_id r
       /\ Session.learner_id s = LearningRequest.learner_id r
       /\ Session.skill_id s = LearningRequest.skill_id r
       /\ Session.status s = Session.scheduled.
Proof.
  intros Hauth Hr Hst Htutor Hf Hrun Hok.
  rewrite (accept_request_authenticated _ _ _ _ _ Hauth) in Hrun. subst user.
  pose proof (find_request_id _ _ _ Hr) as Hrid.
  assert (Hacc : forall rows,
    single (filter (col_eq LearningRequest.id (request_id b))
              (update_rows (col_eq LearningRequest.id (request_id b))
                 (LearningRequest.set_status LearningRequest.accepted) rows))
    = option_map (LearningRequest.set_status LearningRequest.accepted)
        (single (filter (col_eq LearningRequest.id (request_id b)) rows))).
  { intros rows. rewrite filter_update_rows_same by reflexivity.
    apply single_map. }
  unfold process in Hrun. unfold find_request in Hr.
  destruct (truthy_string (request_id b)) eqn:Hid,
           (truthy_string (scheduled_at b)) eqn:Hat; exec_in Hrun;
    try (inversion Hrun; subst resp; discriminate Hok).
  destruct (fail_select_request f);
    [inversion Hrun; subst resp; discriminate Hok|].
  rewrite Hr in Hrun. rewrite String.eqb_refl, Hst, Hf in Hrun.
  exec_in Hrun.
  destruct (fail_insert_session f); exec_in Hrun;
    [inversion Hrun; subst resp; discriminate Hok|].
  match type of Hrun with
  | context [match ?c with Some _ => _ | None => _ end] => destruct c
  end;
  [destruct (fail_insert_message f), (fail_update_conversation f)|];
  exec_in Hrun; inversion Hrun; subst resp w'; clear Hrun;
  (split;
   [unfold find_request; cbn [store learning_requests with_learning_requests
       with_sessions with_messages with_conversations];
    rewrite Hacc, Hr; reflexivity
   |eexists; split; [reflexivity|];
    rewrite (of_text_in _ _ Hrid); repeat split]).
Qed.

(** bob accepts alice's pending request. *)
Lemma accept_pending_creates_session_witness :
  let b := mkBody Sample.pending_request "2026-03-05T18:00:00Z" None in
  let req := Sample.post Sample.bob b in
  let out := run (handler Sample.accept_env no_faults req) Sample.world0 in
  Http.status (fst out) = 201
  /\ find_request (store (snd out)) Sample.pending_request
     = Some (LearningRequest.mk Sample.pending_request Sample.alice
               Sample.bob None (Some "Guitar?") None LearningRequest.accepted)
  /\ List.length (sessions (store (snd out)))
     = S (List.length (sessions Sample.store)).
Proof.
  cbv zeta.
  set (b := mkBody Sample.pending_request "2026-03-05T18:00:00Z" None).
  set (req := Sample.post Sample.bob b).
  assert (Hauth : authenticated (get_user Sample.accept_env) req Sample.bob b)
    by sample_call.
  assert (Hok : Http.status
                  (fst (run (handler Sample.accept_env no_faults req)
                          Sample.world0)) = 201) by reflexivity.
  split; [exact Hok|].
  destruct (accept_pending_creates_session Sample.accept_env no_faults req
              Sample.bob b Sample.store []
              (LearningRequest.mk Sample.pending_request Sample.alice
                 Sample.bob None (Some "Guitar?") None
                 LearningRequest.pending)
              (fst (run (handler Sample.accept_env no_faults req)
                      Sample.world0))
              (snd (run (handler Sample.accept_env no_faults req)
                      Sample.world0))
              Hauth eq_refl eq_refl eq_refl eq_refl eq_refl Hok)
    as [Hreq (s & Hs & _)].
  split; [exact Hreq|].
  rewrite Hs, length_app. simpl. lia.
Defined.
End AcceptRequestSpec.


(** ** complete-session *)

Lemma balance_set_credits (d : db) (v : uuid) (x : numeric) (u : uuid) :
  balance
    (with_profiles
       (update_rows (col_eq Profile.user_id v) (Profile.set_credits x)) d) u
  = if (u =? v)%string then option_map (fun _ => x) (balance d u)
    else balance d u.
Proof.
  unfold balance, find_profile. cbn [profiles with_profiles].
  destruct (u =? v)%string eqn:E.
  - apply uuid_eqb_eq in E. subst v.
    rewrite filter_update_rows_same by reflexivity.
    rewrite single_map. now destruct (single _).
  - rewrite filter_update_rows_other; [reflexivity|].
    intros p Hp. rewrite col_eq_out in Hp. apply uuid_eqb_eq in Hp.
    rewrite !col_eq_out. cbn [Profile.user_id Profile.set_credits].
    rewrite Hp, String.eqb_sym. split; exact E.
Qed.

Lemma find_profile_set_credits (d : db) (v : uuid) (x : numeric) (u : uuid) :
  find_profile
    (with_profiles
       (update_rows (col_eq Profile.user_id v) (Profile.set_credits x)) d) u
  = if (u =? v)%string then option_map (Profile.set_credits x) (find_profile d u)
    else find_profile d u.
Proof.
  unfold find_profile. cbn [profiles with_profiles].
  destruct (u =? v)%string eqn:E.
  - apply uuid_eqb_eq in E. subst v.
    rewrite filter_update_rows_same by reflexivity.
    apply single_map.
  - rewrite filter_update_rows_other; [reflexivity|].
    intros p Hp. rewrite col_eq_out in Hp. apply uuid_eqb_eq in Hp.
    rewrite !col_eq_out. cbn [Profile.user_id Profile.set_credits].
    rewrite Hp, String.eqb_sym. split; exact E.
Qed.

Lemma lookup_after_set (rows : list Profile.t) (v : uuid) (x : numeric)
    (u : uuid) :
  single (filter (col_eq Profile.user_id u)
            (update_rows (col_eq Profile.user_id v) (Profile.set_credits x) rows))
  = if (u =? v)%string
    then option_map (Profile.set_credits x)
           (single (filter (col_eq Profile.user_id u) rows))
    else single (filter (col_eq Profile.user_id u) rows).
Proof.
  destruct (u =? v)%string eqn:E.
  - apply uuid_eqb_eq in E. subst v.
    rewrite filter_update_rows_same by reflexivity.
    apply single_map.
  - rewrite filter_update_rows_other; [reflexivity|].
    intros p Hp. rewrite col_eq_out in Hp. apply uuid_eqb_eq in Hp.
    rewrite !col_eq_out. cbn [Profile.user_id Profile.set_credits].
    rewrite Hp, String.eqb_sym. split; exact E.
Qed.

Lemma balance_with_sessions (f : list Session.t -> list Session.t) (d : db)
    (u : uuid) :
  balance (with_sessions f d) u = balance d u.
Proof. reflexivity. Qed.

Lemma balance_with_credit_transactions
    (f : list CreditTransaction.t -> list CreditTransaction.t) (d : db)
    (u : uuid) :
  balance (with_credit_transactions f d) u = balance d u.
Proof. reflexivity. Qed.

Module CompleteSessionSpec.
Import CompleteSession.

Lemma complete_session_authenticated (e : env) (f : faults) (req : Http.request body)
    (user : uuid) (b : body) :
  authenticated (get_user e) req user b ->
  handler e f req = process e f user b.
Proof.
  intros [Hm (authHeader & Ha & Hne & Hu & Hj)]. unfold handler.
  apply String.eqb_neq in Hm. apply truthy_string_true in Hne.
  now rewrite Hm, Ha, Hne, Hu, Hj.
Qed.

Lemma participant_check (user : uuid) (s : Session.t) :
  participant user s ->
  negb (Session.tutor_id s =? user)%string
  && negb (Session.learner_id s =? user)%string = false.
Proof.
  intros [H|H]; rewrite H, String.eqb_refl; simpl;
    [reflexivity|apply andb_false_r].
Qed.

Lemma status_eqb_completed (st : Session.status_t) :
  Session.status_eqb st Session.completed = true <-> st = Session.completed.
Proof. destruct st; simpl; split; intros H; congruence. Qed.

Lemma find_session_completed (e : env) (b : body) (s : Session.t) (d : db)
    (tn ln : option string) :
  find_session d (session_id b) = Some s ->
  find_session
    (with_sessions
       (update_rows (col_eq Session.id (session_id b))
          (completed_row (now e) tn ln)) d)
    (session_id b)
  = Some (completed_row (now e) tn ln s).
Proof.
  unfold find_session. cbn [sessions with_sessions]. intros H.
  rewrite filter_update_rows_same by reflexivity.
  now rewrite single_map, H.
Qed.

Ltac flags :=
  cbn [fail_select_session fail_select_learner fail_update_session
       fail_deduct fail_select_tutor fail_credit_tutor
       fail_insert_learner_tx fail_insert_tutor_tx].

Lemma not_completed (st : Session.status_t) :
  st <> Session.completed ->
  Session.status_eqb st Session.completed = false.
Proof.
  intros H. destruct (Session.status_eqb _ _) eqn:E; [|reflexivity].
  apply status_eqb_completed in E. contradiction.
Qed.

Lemma process_effect (e : env) (user : uuid) (b : body) (d : db)
    (log : list string) (s : Session.t) (c : numeric) :
  session_id b <> "" ->
  find_session d (session_id b) = Some s ->
  participant user s ->
  Session.status s <> Session.completed ->
  balance d (Session.learner_id s) = Some c ->
  cost s <= c ->
  exists w',
    run (process e no_faults user b) (mkWorld d log) = (completed_response, w')
    /\ find_session (store w') (session_id b) = Some (completed_session e b s)
    /\ (forall u : uuid,
          balance (store w') u
          = option_map (fun x => x - debit s u + credit s u) (balance d u))
    /\ credit_transactions (store w')
       = (credit_transactions d ++ ledger_rows e s)%list
    /\ learning_requests (store w') = learning_requests d
    /\ conversations (store w') = conversations d
    /\ messages (store w') = messages d.
Proof.
  intros Hid Hs Hpart Hst Hbal Hc.
  destruct (balance_find_profile _ _ _ Hbal) as (lp & Hlp & Hlpc).
  pose proof (find_session_id _ _ _ Hs) as Hsid.
  apply of_text_in in Hsid.
  apply truthy_string_true in Hid.
  assert (Hrich : (Profile.credits lp <? cost s) = false)
    by (rewrite Hlpc; now apply Z.ltb_ge).
  unfold process, no_faults. flags. rewrite Hid. exec.
  pose proof Hs as Hs'. unfold find_session in Hs'. rewrite Hs'.
  rewrite (participant_check _ _ Hpart), (not_completed _ Hst).
  exec. pose proof Hlp as Hlp'. unfold find_profile in Hlp'. rewrite Hlp'.
  unfold cost in Hrich. rewrite Hrich. exec.
  unfold ledger_rows, learner_row, tutor_row, debit, credit, cost.
  rewrite Hsid.
  destruct (truthy_opt_bool (Session.is_ai_session s)) eqn:Hai; exec.
  - (* AI session: the learner is debited, nobody is credited *)
    eexists. split; [reflexivity|]. exec.
    split; [apply find_session_completed, Hs|].
    split; [|repeat split].
    intros u.
    rewrite balance_with_credit_transactions, balance_set_credits,
      balance_with_sessions.
    destruct (u =? Session.learner_id s)%string eqn:E; cbn [negb andb].
    + apply uuid_eqb_eq in E. subst u. rewrite Hbal. cbn. f_equal.
      rewrite Hlpc. lia.
    + destruct (balance d u); cbn; f_equal; lia.
  - (* human session: the tutor is looked up after the debit *)
    rewrite lookup_after_set.
    destruct (single (filter (col_eq Profile.user_id (Session.tutor_id s))
                        (profiles d))) as [tp|] eqn:Htp.
    + assert (Htb : balance d (Session.tutor_id s) = Some (Profile.credits tp))
        by (unfold balance, find_profile; now rewrite Htp).
      destruct (Session.tutor_id s =? Session.learner_id s)%string eqn:Esame;
        cbn [option_map]; exec;
        (eexists; split; [reflexivity|]; exec;
         split; [apply find_session_completed, Hs|];
         split; [|split; [now rewrite <- app_assoc|repeat split]]);
        intros u;
        rewrite !balance_with_credit_transactions, !balance_set_credits,
          balance_with_sessions;
        cbn [negb andb Profile.credits Profile.set_credits].
      * apply uuid_eqb_eq in Esame. rewrite Esame.
        destruct (u =? Session.learner_id s)%string eqn:E.
        -- apply uuid_eqb_eq in E. subst u. rewrite Hbal. cbn. f_equal.
           rewrite Hlpc. lia.
        -- destruct (balance d u); cbn; f_equal; lia.
      * destruct (u =? Session.tutor_id s)%string eqn:Et.
        -- apply uuid_eqb_eq in Et. subst u. rewrite Esame, Htb. cbn.
           f_equal. lia.
        -- destruct (u =? Session.learner_id s)%string eqn:E.
           ++ apply uuid_eqb_eq in E. subst u. rewrite Hbal. cbn. f_equal.
              rewrite Hlpc. lia.
           ++ destruct (balance d u); cbn; f_equal; lia.
    + assert (Htb : balance d (Session.tutor_id s) = None)
        by (unfold balance, find_profile; now rewrite Htp).
      assert (Hnone : (if (Session.tutor_id s =? Session.learner_id s)%string
                       then option_map
                              (Profile.set_credits
                                 (Profile.credits lp - one_credit)) None
                       else None) = None) by (now destruct (_ =? _)%string).
      rewrite Hnone. exec.
      eexists. split; [reflexivity|]. exec.
      split; [apply find_session_completed, Hs|].
      split; [|split; [now rewrite <- app_assoc|repeat split]].
      intros u.
      rewrite !balance_with_credit_transactions, !balance_set_credits,
        balance_with_sessions.
      cbn [negb andb].
      destruct (u =? Session.tutor_id s)%string eqn:Et.
      * apply uuid_eqb_eq in Et. subst u. rewrite Htb.
        now destruct (_ =? _)%string.
      * destruct (u =? Session.learner_id s)%string eqn:E.
        -- apply uuid_eqb_eq in E. subst u. rewrite Hbal. cbn. f_equal.
           rewrite Hlpc. lia.
        -- destruct (balance d u); cbn; f_equal; lia.
Qed.

(** A call that answers 200 named a session. *)
Lemma success_names_session (e : env) (f : faults) (user : uuid) (b : body)
    (w : world) :
  Http.status (fst (run (process e f user b) w)) = 200 ->
  session_id b <> "".
Proof.
  intros Hok Hempty. apply truthy_string_false in Hempty.
  unfold process in Hok. rewrite Hempty in Hok. exec_in Hok.
  discriminate Hok.
Qed.

(** C1, as amended.  For a session that is not an AI session (flag false
    or null), whose status is not completed, whose learner holds at least
    1 credit, whose tutor is another user than its learner and has a
    profile, a successful complete-session call by a participant (it
    answers 200 and no store call fails) takes exactly 1 credit from the
    learner's balance, adds exactly 1 credit to the tutor's balance, and
    appends exactly two rows to credit_transactions, both referencing the
    session: amount -1 of type learning for the learner, then amount +1 of
    type teaching for the tutor. *)
Theorem complete_human_session_transfers (e : env)
    (req : Http.request body) (user : uuid) (b : body) (d : db)
    (log : list string) (s : Session.t) (c t : numeric)
    (resp : Http.response) (w' : world) :
  authenticated (get_user e) req user b ->
  find_session d (session_id b) = Some s ->
  truthy_opt_bool (Session.is_ai_session s) = false ->
  Session.status s <> Session.completed ->
  participant user s ->
  balance d (Session.learner_id s) = Some c ->
  one_credit <= c ->
  Session.tutor_id s <> Session.learner_id s ->
  balance d (Session.tutor_id s) = Some t ->
  run (handler e no_faults req) (mkWorld d log) = (resp, w') ->
  Http.status resp = 200 ->
  balance (store w') (Session.learner_id s) = Some (c - one_credit)
  /\ balance (store w') (Session.tutor_id s) = Some (t + one_credit)
  /\ exists spent earned,
       credit_transactions (store w')
       = (credit_transactions d ++ [spent; earned])%list
       /\ CreditTransaction.user_id spent = Session.learner_id s
       /\ CreditTransaction.amount spent = - one_credit
       /\ CreditTransaction.type spent = CreditTransaction.learning
       /\ CreditTransaction.session_id spent = Some (Session.id s)
       /\ CreditTransaction.user_id earned = Session.tutor_id s
       /\ CreditTransaction.amount earned = one_credit
       /\ CreditTransaction.type earned = CreditTransaction.teaching
       /\ CreditTransaction.session_id earned = Some (Session.id s).
Proof.
  intros Hauth Hs Hai Hst Hpart Hbal Hc Hdiff Htb Hrun Hok.
  rewrite (complete_session_authenticated _ _ _ _ _ Hauth) in Hrun.
  assert (Hid : session_id b <> "").
  { apply (success_names_session e no_faults user b (mkWorld d log)).
    now rewrite Hrun. }
  assert (Hcost : cost s <= c) by (unfold cost; now rewrite Hai).
  destruct (process_effect e user b d log s c Hid Hs Hpart Hst Hbal Hcost)
    as (w1 & Hrun1 & _ & Hbalance & Hledger & _).
  rewrite Hrun1 in Hrun. inversion Hrun; subst resp w'; clear Hrun.
  apply uuid_eqb_neq in Hdiff.
  split; [|split].
  - rewrite Hbalance, Hbal. unfold debit, credit, cost.
    rewrite Hai, String.eqb_refl, String.eqb_sym, Hdiff. cbn. f_equal. lia.
  - rewrite Hbalance, Htb. unfold debit, credit, cost.
    rewrite Hai, String.eqb_refl, Hdiff. cbn. f_equal. lia.
  - exists (learner_row e s), (tutor_row e s).
    rewrite Hledger. unfold ledger_rows, learner_row, tutor_row, cost.
    rewrite Hai. repeat split.
Qed.


(** alice completes the session in which bob taught her. *)
Lemma complete_human_session_transfers_witness :
  let b := mkBody Sample.human_session None None in
  let req := Sample.post Sample.alice b in
  let out := run (handler Sample.complete_env no_faults req) Sample.world0 in
  Http.status (fst out) = 200
  /\ balance (store (snd out)) Sample.alice = Some 200
  /\ balance (store (snd out)) Sample.bob = Some 200
  /\ List.length (credit_transactions (store (snd out))) = 2%nat.
Proof.
  cbv zeta.
  set (b := mkBody Sample.human_session None None).
  set (req := Sample.post Sample.alice b).
  assert (Hauth : authenticated (get_user Sample.complete_env) req
                    Sample.alice b) by sample_call.
  assert (Hs : find_session Sample.store (session_id b)
               = Some (Sample.session Sample.human_session Sample.bob
                         Sample.alice Session.scheduled false))
    by reflexivity.
  assert (Hc : one_credit <= 300) by (unfold one_credit; lia).
  assert (Hok : Http.status
                  (fst (run (handler Sample.complete_env no_faults req)
                          Sample.world0)) = 200) by reflexivity.
  split; [exact Hok|].
  destruct (complete_human_session_transfers Sample.complete_env req
              Sample.alice b Sample.store [] _ 300 100
              (fst (run (handler Sample.complete_env no_faults req)
                      Sample.world0))
              (snd (run (handler Sample.complete_env no_faults req)
                      Sample.world0))
              Hauth Hs eq_refl)
    as (Hl & Ht & spent & earned & Hrows & _);
    [discriminate | right; reflexivity | reflexivity | exact Hc
    | discriminate | reflexivity | reflexivity | exact Hok |].
  split; [exact Hl|]. split; [exact Ht|]. now rewrite Hrows.
Defined.

(** C1 as stated fails in two ways.  In [self_session] alice is tutor and
    learner at once: the call succeeds, both ledger rows are written, and
    her balance is what it was, not 1 credit less.  In [orphan_session]
    the tutor, dave, has no profile: the call succeeds and writes his
    teaching row, and there is no balance of his to increase. *)
Lemma complete_human_session_counterexample :
  let self := mkBody Sample.self_session None None in
  let orphan := mkBody Sample.orphan_session None None in
  let out1 := run (handler Sample.complete_env no_faults
                     (Sample.post Sample.alice self)) Sample.world0 in
  let out2 := run (handler Sample.complete_env no_faults
                     (Sample.post Sample.alice orphan)) Sample.world0 in
  (find_session Sample.store (session_id self)
   = Some (Sample.session Sample.self_session Sample.alice Sample.alice
             Session.scheduled false)
   /\ balance Sample.store Sample.alice = Some 300
   /\ Http.status (fst out1) = 200
   /\ List.length (credit_transactions (store (snd out1))) = 2%nat
   /\ balance (store (snd out1)) Sample.alice = Some 300
   /\ balance (store (snd out1)) Sample.alice <> Some (300 - one_credit))
  /\ (find_session Sample.store (session_id orphan)
      = Some (Sample.session Sample.orphan_session Sample.dave Sample.alice
                Session.scheduled false)
      /\ balance Sample.store Sample.dave = None
      /\ Http.status (fst out2) = 200
      /\ List.length (credit_transactions (store (snd out2))) = 2%nat
      /\ balance (store (snd out2)) Sample.alice = Some 200
      /\ balance (store (snd out2)) Sample.dave = None).
Proof.
  cbv zeta. repeat split; try reflexivity. vm_compute. discriminate.
Qed.




Lemma not_rejected_as_completed (e : env) (f : faults) (user : uuid)
    (b : body) (d : db) (log : list string) (s : Session.t) :
  session_id b <> "" ->
  find_session d (session_id b) = Some s ->
  fail_select_session f = false ->
  Session.status s <> Session.completed ->
  fst (run (process e f user b) (mkWorld d log))
  <> Http.error 400 "Session is already completed".
Proof.
  intros Hid Hs Hf Hst Hrun.
  apply truthy_string_true in Hid. unfold find_session in Hs.
  unfold process in Hrun. rewrite Hid, Hf in Hrun. exec_in Hrun.
  rewrite Hs in Hrun. rewrite (not_completed _ Hst) in Hrun.
  crunch Hrun; discriminate Hrun.
Qed.

(** C10.  For a call by a participant that names an existing session (the
    lookup being answered), complete-session answers 400 "Session is
    already completed" exactly when the status of the session is
    completed.  In every other status (scheduled, in_progress, cancelled)
    with the learner holding the cost of the session, and no store call
    failing, the call answers 200, leaves the session completed, moves the
    credits (each user's balance loses the cost if the user is the learner
    and gains 1 if the user is the tutor of a human session) and appends
    the ledger rows: a cancelled session is completed and charged like any
    other. *)
Theorem rejects_only_completed_sessions (e : env)
    (req : Http.request body) (user : uuid) (b : body) (d : db)
    (log : list string) (s : Session.t) :
  authenticated (get_user e) req user b ->
  session_id b <> "" ->
  find_session d (session_id b) = Some s ->
  participant user s ->
  (forall f,
     fail_select_session f = false ->
     (fst (run (handler e f req) (mkWorld d log))
      = Http.error 400 "Session is already completed"
      <-> Session.status s = Session.completed))
  /\ (forall c,
        Session.status s <> Session.completed ->
        balance d (Session.learner_id s) = Some c ->
        cost s <= c ->
        exists w',
          run (handler e no_faults req) (mkWorld d log)
          = (completed_response, w')
          /\ option_map Session.status (find_session (store w') (session_id b))
             = Some Session.completed
          /\ (forall u : uuid,
                balance (store w') u
                = option_map (fun x => x - debit s u + credit s u)
                    (balance d u))
          /\ credit_transactions (store w')
             = (credit_transactions d ++ ledger_rows e s)%list).
Proof.
  intros Hauth Hid Hs Hpart.
  rewrite !(complete_session_authenticated _ _ _ _ _ Hauth). split.
  - intros f Hf.
    rewrite (complete_session_authenticated _ _ _ _ _ Hauth). split.
    + intros Hresp.
      destruct (Session.status_eqb (Session.status s) Session.completed)
        eqn:E; [now apply status_eqb_completed|].
      exfalso.
      apply (not_rejected_as_completed e f user b d log s Hid Hs Hf);
        [|exact Hresp].
      intros Hc. apply status_eqb_completed in Hc. congruence.
    + intros Hc. apply status_eqb_completed in Hc.
      apply truthy_string_true in Hid. unfold find_session in Hs.
      unfold process. rewrite Hid, Hf. exec. rewrite Hs.
      now rewrite (participant_check _ _ Hpart), Hc.
  - intros c Hst Hbal Hc.
    destruct (process_effect e user b d log s c Hid Hs Hpart Hst Hbal Hc)
      as (w1 & Hrun1 & Hsess & Hbalance & Hledger & _).
    exists w1. split; [exact Hrun1|]. split; [now rewrite Hsess|].
    split; assumption.
Qed.


(** alice completes the session with bob that had been cancelled: she is
    charged and bob is paid. *)
Lemma rejects_only_completed_sessions_witness :
  let b := mkBody Sample.cancelled_session None None in
  let req := Sample.post Sample.alice b in
  let out := run (handler Sample.complete_env no_faults req) Sample.world0 in
  option_map Session.status (find_session Sample.store (session_id b))
  = Some Session.cancelled
  /\ fst out = completed_response
  /\ option_map Session.status
       (find_session (store (snd out)) (session_id b))
     = Some Session.completed
  /\ balance (store (snd out)) Sample.alice = Some 200
  /\ balance (store (snd out)) Sample.bob = Some 200.
Proof.
  cbv zeta.
  set (b := mkBody Sample.cancelled_session None None).
  set (req := Sample.post Sample.alice b).
  assert (Hauth : authenticated (get_user Sample.complete_env) req
                    Sample.alice b) by sample_call.
  assert (Hs : find_session Sample.store (session_id b)
               = Some (Sample.session Sample.cancelled_session Sample.bob
                         Sample.alice Session.cancelled false))
    by reflexivity.
  assert (Hid : session_id b <> "") by discriminate.
  assert (Hc : cost (Sample.session Sample.cancelled_session Sample.bob
                       Sample.alice Session.cancelled false) <= 300)
    by (vm_compute; discriminate).
  split; [reflexivity|].
  destruct (rejects_only_completed_sessions Sample.complete_env req
              Sample.alice b Sample.store [] _ Hauth Hid Hs
              (or_intror eq_refl))
    as [_ Hcharge].
  destruct (Hcharge 300) as (w1 & Hrun & Hst & Hbalance & _);
    [discriminate | reflexivity | exact Hc |].
  unfold Sample.world0. rewrite Hrun. cbn [fst snd].
  split; [reflexivity|]. split; [exact Hst|].
  rewrite !Hbalance. split; reflexivity.
Defined.

(** C6.  When the call has reached the deduction (session found, caller a
    participant, status not completed, learner holding the cost, session
    marked completed) and the write that deducts the learner's credits
    fails, whatever the later store calls do: the failure is printed on
    the console, the session stays completed, the ledger rows are still
    inserted (each one unless its own insert fails), and the response is
    the 200 success response.  The learner, when not also the tutor, still
    holds the credits. *)
Theorem failed_deduction_not_rolled_back (e : env) (f : faults)
    (req : Http.request body) (user : uuid) (b : body) (d : db)
    (log : list string) (s : Session.t) (c : numeric)
    (resp : Http.response) (w' : world) :
  authenticated (get_user e) req user b ->
  session_id b <> "" ->
  find_session d (session_id b) = Some s ->
  participant user s ->
  Session.status s <> Session.completed ->
  balance d (Session.learner_id s) = Some c ->
  cost s <= c ->
  fail_select_session f = false ->
  fail_select_learner f = false ->
  fail_update_session f = false ->
  fail_deduct f = true ->
  run (handler e f req) (mkWorld d log) = (resp, w') ->
  resp = completed_response
  /\ Http.status resp = 200
  /\ In "Failed to deduct credits:" (console w')
  /\ find_session (store w') (session_id b) = Some (completed_session e b s)
  /\ Session.status (completed_session e b s) = Session.completed
  /\ credit_transactions (store w')
     = (credit_transactions d
        ++ (if fail_insert_learner_tx f then [] else [learner_row e s])
        ++ (if truthy_opt_bool (Session.is_ai_session s)
               || fail_insert_tutor_tx f
            then [] else [tutor_row e s]))%list
  /\ (Session.tutor_id s <> Session.learner_id s ->
      balance (store w') (Session.learner_id s) = Some c).
Proof.
  intros Hauth Hid Hs Hpart Hst Hbal Hc Hf1 Hf2 Hf3 Hf4 Hrun.
  rewrite (complete_session_authenticated _ _ _ _ _ Hauth) in Hrun.
  destruct (balance_find_profile _ _ _ Hbal) as (lp & Hlp & Hlpc).
  pose proof (find_session_id _ _ _ Hs) as Hsid.
  apply of_text_in in Hsid.
  apply truthy_string_true in Hid.
  assert (Hrich : (Profile.credits lp <? cost s) = false)
    by (rewrite Hlpc; now apply Z.ltb_ge).
  unfold process in Hrun. rewrite Hid, Hf1, Hf2, Hf3, Hf4 in Hrun.
  exec_in Hrun.
  pose proof Hs as Hs'. unfold find_session in Hs'. rewrite Hs' in Hrun.
  rewrite (participant_check _ _ Hpart), (not_completed _ Hst) in Hrun.
  exec_in Hrun.
  pose proof Hlp as Hlp'. unfold find_profile in Hlp'. rewrite Hlp' in Hrun.
  unfold cost in Hrich. rewrite Hrich in Hrun. 
  unfold learner_row, tutor_row, cost. rewrite Hsid in Hrun.
  destruct (truthy_opt_bool (Session.is_ai_session s)) eqn:Hai;
  crunch Hrun; inversion Hrun; subst resp w'; clear Hrun; exec;
    (split; [reflexivity|]); (split; [reflexivity|]);
    (split; [rewrite ?in_app_iff; simpl; tauto|]);
    (split; [apply find_session_completed, Hs|]);
    (split; [reflexivity|]);
    (split; [rewrite ?app_nil_r, <- ?app_assoc; reflexivity|]);
    intros Hdiff; apply uuid_eqb_neq in Hdiff;
    rewrite ?balance_with_credit_transactions, ?balance_set_credits,
      ?balance_with_sessions;
    rewrite String.eqb_sym in Hdiff; rewrite ?Hdiff; exact Hbal.
Qed.
(** alice completes the session with bob while the deduction fails: she
    keeps her 3 credits, bob is paid, both ledger rows are written. *)
Lemma failed_deduction_not_rolled_back_witness :
  let f := mkFaults false false false true false false false false in
  let b := mkBody Sample.human_session None None in
  let req := Sample.post Sample.alice b in
  let out := run (handler Sample.complete_env f req) Sample.world0 in
  fst out = completed_response
  /\ In "Failed to deduct credits:" (console (snd out))
  /\ option_map Session.status
       (find_session (store (snd out)) (session_id b))
     = Some Session.completed
  /\ List.length (credit_transactions (store (snd out))) = 2%nat
  /\ balance (store (snd out)) Sample.alice = Some 300
  /\ balance (store (snd out)) Sample.bob = Some 200.
Proof.
  cbv zeta.
  set (f := mkFaults false false false true false false false false).
  set (b := mkBody Sample.human_session None None).
  set (req := Sample.post Sample.alice b).
  assert (Hauth : authenticated (get_user Sample.complete_env) req
                    Sample.alice b) by sample_call.
  assert (Hs : find_session Sample.store (session_id b)
               = Some (Sample.session Sample.human_session Sample.bob
                         Sample.alice Session.scheduled false))
    by reflexivity.
  assert (Hid : session_id b <> "") by discriminate.
  assert (Hc : cost (Sample.session Sample.human_session Sample.bob
                       Sample.alice Session.scheduled false) <= 300)
    by (vm_compute; discriminate).
  destruct (failed_deduction_not_rolled_back Sample.complete_env f req
              Sample.alice b Sample.store [] _ 300
              (fst (run (handler Sample.complete_env f req) Sample.world0))
              (snd (run (handler Sample.complete_env f req) Sample.world0))
              Hauth Hid Hs (or_intror eq_refl))
    as (Hresp & _ & Hlog & Hsess & _ & Hrows & Hkept);
    [discriminate | reflexivity | exact Hc | reflexivity | reflexivity
    | reflexivity | reflexivity | reflexivity |].
  split; [exact Hresp|]. split; [exact Hlog|].
  split; [now rewrite Hsess|]. split; [now rewrite Hrows|].
  split; [apply Hkept; discriminate|reflexivity].
Defined.
End CompleteSessionSpec.


(** ** Conversations between two users *)

Lemma ltb_asym (a b : string) : (a <? b)%string = true -> (b <? a)%string = false.
Proof.
  unfold String.ltb. rewrite (String.compare_antisym b a).
  now destruct (String.compare a b).
Qed.

Lemma ltb_total (a b : string) :
  (a <? b)%string = false -> (b <? a)%string = false -> a = b.
Proof.
  unfold String.ltb. rewrite (String.compare_antisym b a).
  destruct (String.compare a b) eqn:E; simpl; try discriminate.
  intros _ _. now apply String.compare_eq_iff.
Qed.

Lemma sortedIds_comm (a b : string) : sortedIds a b = sortedIds b a.
Proof.
  unfold sortedIds.
  destruct (b <? a)%string eqn:Hba, (a <? b)%string eqn:Hab; try reflexivity.
  - apply ltb_asym in Hba. congruence.
  - now rewrite (ltb_total a b Hab Hba).
Qed.

Lemma sortedIds_ordered (a b : string) :
  (snd (sortedIds a b) <? fst (sortedIds a b))%string = false.
Proof.
  unfold sortedIds. destruct (b <? a)%string eqn:Hba; cbn [fst snd]; [|exact Hba].
  now apply ltb_asym.
Qed.

Lemma sortedIds_cases (a b : string) :
  sortedIds a b = (a, b) \/ sortedIds a b = (b, a).
Proof. unfold sortedIds. destruct (b <? a)%string; auto. Qed.

(** The values of the sorted texts of two ids. *)
Lemma sortedIds_values (a b : uuid) :
  exists x y : uuid,
    sortedIds a b = (x : string, y : string)
    /\ ((x, y) = (a, b) \/ (x, y) = (b, a))
    /\ (y <? x)%string = false.
Proof.
  pose proof (sortedIds_ordered a b) as Hord.
  destruct (sortedIds_cases a b) as [E|E]; rewrite E in Hord |- *;
    cbn [fst snd] in Hord;
    [exists a, b|exists b, a]; (split; [reflexivity|]); split; auto.
Qed.

Lemma same_pair_true (p1 p2 : string) (c : Conversation.t) :
  same_pair p1 p2 c = true
  <-> Uuid.uuid_in p1 = Some (Conversation.participant_1 c)
      /\ Uuid.uuid_in p2 = Some (Conversation.participant_2 c).
Proof.
  unfold same_pair. now rewrite andb_true_iff, !col_eq_true.
Qed.

Lemma same_pair_out (a b : uuid) (c : Conversation.t) :
  same_pair a b c = true <-> pair_of c = (a, b).
Proof.
  rewrite same_pair_true, !uuid_in_out. unfold pair_of.
  split; [intros [[= ->] [= ->]]; reflexivity|intros [= -> ->]; auto].
Qed.

Lemma find_conversation_comm (d : db) (a b : string) :
  find_conversation d a b = find_conversation d b a.
Proof. unfold find_conversation. now rewrite (sortedIds_comm a b). Qed.

(** At most one row carries a given value of a column without duplicates. *)
Lemma filter_nodup_length {A K : Type} (key : A -> K) (p : A -> bool) (k : K)
    (rows : list A) :
  NoDup (map key rows) ->
  (forall x, In x rows -> p x = true -> key x = k) ->
  (List.length (filter p rows) <= 1)%nat.
Proof.
  induction rows as [|x rows IH]; simpl; intros Hnd Hk; [lia|].
  inversion Hnd as [|? ? Hnotin Hnd']; subst.
  destruct (p x) eqn:Hp.
  - assert (Hempty : filter p rows = []).
    { destruct (filter p rows) as [|y ys] eqn:E; [reflexivity|exfalso].
      assert (Hy : In y (filter p rows)) by (rewrite E; now left).
      apply filter_In in Hy. destruct Hy as [Hin Hpy].
      apply Hnotin. rewrite (Hk x (or_introl eq_refl) Hp).
      rewrite <- (Hk y (or_intror Hin) Hpy). now apply in_map. }
    rewrite Hempty. simpl. lia.
  - apply IH; [exact Hnd'|]. intros y Hy. apply Hk. now right.
Qed.

Lemma map_pair_of_touch (p : Conversation.t -> bool) (ts : timestamptz)
    (rows : list Conversation.t) :
  map pair_of (update_rows p (Conversation.set_last_message_at ts) rows)
  = map pair_of rows.
Proof.
  unfold update_rows. rewrite map_map. apply map_ext.
  intros c. now destruct (p c).
Qed.

Lemma map_row_key_touch (p : Conversation.t -> bool) (ts : timestamptz)
    (rows : list Conversation.t) :
  map row_key (update_rows p (Conversation.set_last_message_at ts) rows)
  = map row_key rows.
Proof.
  unfold update_rows. rewrite map_map. apply map_ext.
  intros c. now destruct (p c).
Qed.

Lemma map_pair_of_row_key (rows : list Conversation.t) :
  map pair_of rows = map snd (map row_key rows).
Proof. rewrite map_map. reflexivity. Qed.

Lemma existsb_same_pair_false (a b : uuid) (rows : list Conversation.t) :
  existsb (same_pair a b) rows = false ->
  ~ In (a, b) (map pair_of rows).
Proof.
  intros Hex Hin. apply in_map_iff in Hin. destruct Hin as (c & Hc & Hin).
  apply same_pair_out in Hc.
  assert (Htrue : existsb (same_pair a b) rows = true)
    by (apply existsb_exists; now exists c).
  congruence.
Qed.

Lemma found_exists {A : Type} (p : A -> bool) (rows : list A) (x : A) :
  single (filter p rows) = Some x -> existsb p rows = true.
Proof.
  intros H. apply single_filter_holds in H. apply existsb_exists.
  exists x. tauto.
Qed.

Lemma ordered_unique_same_pairs (d d' : db) :
  map pair_of (conversations d') = map pair_of (conversations d) ->
  ordered_unique d -> ordered_unique d'.
Proof. unfold ordered_unique. now intros ->. Qed.

(** Adding the row of two ids whose pair is not there, stored as the values
    of their sorted texts. *)
Lemma ordered_unique_new_pair (d d' : db) (a b : uuid) :
  map pair_of (conversations d')
  = (map pair_of (conversations d)
     ++ [(Uuid.of_text (fst (sortedIds a b)),
          Uuid.of_text (snd (sortedIds a b)))])%list ->
  existsb (same_pair (fst (sortedIds a b)) (snd (sortedIds a b)))
          (conversations d) = false ->
  ordered_unique d -> ordered_unique d'.
Proof.
  destruct (sortedIds_values a b) as (x & y & E & _ & Hxy).
  rewrite E. cbn [fst snd]. rewrite !of_text_out.
  unfold ordered_unique. intros -> Hex [Hord Hnd]. split.
  - intros p Hp. apply in_app_iff in Hp. destruct Hp as [Hp|[<-|[]]].
    + now apply Hord.
    + exact Hxy.
  - apply existsb_same_pair_false in Hex.
    apply NoDup_rev in Hnd. rewrite <- (rev_involutive (_ ++ _)).
    apply NoDup_rev. rewrite rev_app_distr. simpl. constructor; [|exact Hnd].
    now rewrite <- in_rev.
Qed.

Lemma pair_in_exists (a b : uuid) (rows : list Conversation.t) :
  existsb (same_pair a b) rows = true -> In (a, b) (map pair_of rows).
Proof.
  intros H. apply existsb_exists in H. destruct H as (c & Hc & Hp).
  apply same_pair_out in Hp. apply in_map_iff. now exists c.
Qed.

(** In a sorted table without duplicate pairs, the row the handlers look up
    for two users is the one row between them. *)
Lemma found_between (d : db) (a b : uuid) (c : Conversation.t) :
  ordered_unique d ->
  find_conversation d a b = Some c ->
  conversations_between d a b = [c].
Proof.
  intros [Hord _] Hc. unfold find_conversation in Hc.
  apply single_some in Hc. rewrite <- Hc. unfold conversations_between.
  apply filter_ext_in. intros r Hr.
  specialize (Hord (pair_of r) (in_map pair_of _ _ Hr)).
  destruct (sortedIds_values a b) as (x & y & E & Hcase & Hxy).
  rewrite E. cbn [fst snd].
  destruct (same_pair x y r) eqn:Hp.
  - apply same_pair_out in Hp.
    destruct Hcase as [[= -> ->]|[= -> ->]]; apply orb_true_iff;
      [left|right]; now apply same_pair_out.
  - apply orb_false_iff. split.
    + destruct (same_pair a b r) eqn:Hab; [|reflexivity].
      apply same_pair_out in Hab. rewrite Hab in Hord. cbn [fst snd] in Hord.
      destruct Hcase as [[= -> ->]|[= -> ->]].
      * apply same_pair_out in Hab. congruence.
      * assert (a = b) by (apply out_inj; now apply ltb_total).
        subst b. apply same_pair_out in Hab. congruence.
    + destruct (same_pair b a r) eqn:Hba; [|reflexivity].
      apply same_pair_out in Hba. rewrite Hba in Hord. cbn [fst snd] in Hord.
      destruct Hcase as [[= -> ->]|[= -> ->]].
      * assert (a = b) by (apply out_inj; now apply ltb_total).
        subst b. apply same_pair_out in Hba. congruence.
      * apply same_pair_out in Hba. congruence.
Qed.

Module ConversationSpec.
Import SendRequest.

Lemma accept_request_keeps_rows (e : AcceptRequest.env)
    (f : AcceptRequest.faults) (req : Http.request AcceptRequest.body) :
  keeps (fun d => map row_key (conversations d))
        (AcceptRequest.handler e f req).
Proof.
  unfold AcceptRequest.handler, AcceptRequest.process, insert_message,
    touch_conversation.
  repeat first
    [ apply keeps_reply | apply keeps_ret | apply keeps_console_log
    | apply keeps_console_error | apply keeps_select_single
    | apply keeps_write; intros ?;
      cbn [conversations with_conversations with_messages
           with_learning_requests];
      rewrite ?map_row_key_touch; reflexivity
    | apply keeps_insert_returning; reflexivity
    | apply keeps_bind; [|intros ?]
    | match goal with
      | |- keeps _ (if ?c then _ else _) => destruct c
      | |- keeps _ (match ?c with Some _ => _ | None => _ end) => destruct c
      end ].
Qed.

(** C5.  send-request sorts the text of the caller's id with the text of
    the body, and the store reads both as uuids.  frank sends erin a request:
    the call creates their conversation, stored as (erin, frank).  Then erin
    sends frank one, naming him with the letters of his id in upper case:
    upper-case letters sort before lower-case ones, so the call looks for
    the row (frank, erin), finds none, and inserts one, which the unique
    constraint on the ordered pair does not refuse.  The call answers 201
    and leaves two conversations between the two, the second with its larger
    id first, and erin's message in the second.  Naming frank by the text
    the store prints, the same call adds no row and posts into the first. *)
Theorem conversation_duplicated_by_upper_case :
  let first := run (handler Sample.send_env no_faults
                      (Sample.post Sample.frank
                         (mkBody Sample.erin None "Teach me chess" None)))
                   (mkWorld Sample.circle []) in
  let b := mkBody "BBBBBBBB-2222-4222-8222-000000000006" None
             "Teach me the guitar" None in
  let out := run (handler Sample.send_env' no_faults
                    (Sample.post Sample.erin b))
                 (snd first) in
  let b' := mkBody Sample.frank None "Teach me the guitar" None in
  let out' := run (handler Sample.send_env' no_faults
                     (Sample.post Sample.erin b'))
                  (snd first) in
  conversations Sample.circle = []
  /\ Http.status (fst first) = 201
  /\ map row_key (conversations (store (snd first)))
     = [(new_conversation_id Sample.send_env, (Sample.erin, Sample.frank))]
  /\ ordered_unique (store (snd first))
  /\ authenticated (get_user Sample.send_env') (Sample.post Sample.erin b)
       Sample.erin b
  /\ Uuid.uuid_in (tutor_id b) = Some Sample.frank
  /\ Http.status (fst out) = 201
  /\ map row_key (conversations (store (snd out)))
     = [(new_conversation_id Sample.send_env, (Sample.erin, Sample.frank));
        (new_conversation_id Sample.send_env',
         (Sample.frank, Sample.erin))]
  /\ List.length (conversations_between (store (snd out)) Sample.erin
                    Sample.frank) = 2%nat
  /\ map Message.conversation_id (messages (store (snd out)))
     = [new_conversation_id Sample.send_env;
        new_conversation_id Sample.send_env']
  /\ ~ ordered_unique (store (snd out))
  /\ Http.status (fst out') = 201
  /\ map row_key (conversations (store (snd out')))
     = [(new_conversation_id Sample.send_env, (Sample.erin, Sample.frank))]
  /\ map Message.conversation_id (messages (store (snd out')))
     = [new_conversation_id Sample.send_env;
        new_conversation_id Sample.send_env].
Proof.
  cbv zeta. split; [reflexivity|]. split; [reflexivity|].
  split; [reflexivity|].
  split.
  { split.
    - intros p Hp. vm_compute in Hp. destruct Hp as [<-|[]]. reflexivity.
    - vm_compute. constructor; [intros []|constructor]. }
  split; [sample_call|].
  split; [reflexivity|]. split; [reflexivity|]. split; [reflexivity|].
  split; [reflexivity|]. split; [reflexivity|].
  split.
  { intros [Hord _].
    assert (Hlt : (snd (Sample.frank, Sample.erin)
                   <? fst (Sample.frank, Sample.erin))%string = false);
      [|vm_compute in Hlt; discriminate Hlt].
    apply Hord. vm_compute. right. left. reflexivity. }
  split; [reflexivity|]. split; reflexivity.
Qed.
End ConversationSpec.

(** ** More on complete-session *)

Module CompleteSessionMore.
Import CompleteSession CompleteSessionSpec.

(** A request that does not get past the first lines of the handler. *)
Lemma complete_session_gate (e : env) (f : faults) (req : Http.request body)
    (w : world) :
  (exists user b, authenticated (get_user e) req user b)
  \/ (store (snd (run (handler e f req) w)) = store w
      /\ In (fst (run (handler e f req) w))
            [Http.preflight; Http.error 401 "Missing authorization header";
             Http.error 401 "Unauthorized";
             Http.error 500 "Internal server error"]).
Proof.
  unfold handler.
  destruct (Http.method req =? "OPTIONS")%string eqn:Hm;
    [right; split; [reflexivity|simpl; tauto]|].
  destruct (Http.authorization req) as [authHeader|] eqn:Ha;
    [|right; split; [reflexivity|simpl; tauto]].
  destruct (truthy_string authHeader) eqn:Hne; cbn [negb];
    [|right; split; [reflexivity|simpl; tauto]].
  destruct (get_user e authHeader) as [user|] eqn:Hu;
    [|right; split; [reflexivity|simpl; tauto]].
  destruct (Http.json req) as [b|] eqn:Hj;
    [|right; split; [reflexivity|simpl; tauto]].
  left. exists user, b. split; [now apply String.eqb_neq|].
  exists authHeader. split; [exact Ha|].
  split; [now apply truthy_string_true|]. auto.
Qed.


Lemma participant_of_check (user : uuid) (s : Session.t) :
  negb (Session.tutor_id s =? user)%string
  && negb (Session.learner_id s =? user)%string = false ->
  participant user s.
Proof.
  intros H. apply andb_false_iff in H.
  destruct H as [H|H]; apply negb_false_iff, uuid_eqb_eq in H;
    [left|right]; exact H.
Qed.

(** A call that answers 200 has passed every check of the handler. *)
Lemma success_passed_checks (e : env) (f : faults)
    (user : uuid) (b : body) (d : db) (log : list string)
    (resp : Http.response) (w' : world) :
  run (process e f user b) (mkWorld d log) = (resp, w') ->
  Http.status resp = 200 ->
  exists s c,
    session_id b <> ""
    /\ find_session d (session_id b) = Some s
    /\ participant user s
    /\ Session.status s <> Session.completed
    /\ balance d (Session.learner_id s) = Some c
    /\ cost s <= c
    /\ find_session (store w') (session_id b) = Some (completed_session e b s)
    /\ resp = completed_response.
Proof.
  intros Hrun Hok. unfold process in Hrun.
  destruct (truthy_string (session_id b)) eqn:Hid; exec_in Hrun;
    [|inversion Hrun; subst resp; discriminate Hok].
  destruct (fail_select_session f); exec_in Hrun;
    [inversion Hrun; subst resp; discriminate Hok|].
  destruct (single (filter (col_eq Session.id (session_id b)) (sessions d)))
    as [s|] eqn:Hs; exec_in Hrun;
    [|inversion Hrun; subst resp; discriminate Hok].
  destruct (negb (Session.tutor_id s =? user)%string
            && negb (Session.learner_id s =? user)%string) eqn:Hpart;
    exec_in Hrun; [inversion Hrun; subst resp; discriminate Hok|].
  destruct (Session.status_eqb (Session.status s) Session.completed) eqn:Hst;
    exec_in Hrun; [inversion Hrun; subst resp; discriminate Hok|].
  destruct (fail_select_learner f); exec_in Hrun;
    [inversion Hrun; subst resp; discriminate Hok|].
  destruct (single (filter (col_eq Profile.user_id (Session.learner_id s))
                      (profiles d))) as [lp|] eqn:Hlp; exec_in Hrun;
    [|inversion Hrun; subst resp; discriminate Hok].
  match type of Hrun with
  | context [if (?x <? ?y) then _ else _] => destruct (x <? y) eqn:Hc
  end; exec_in Hrun; [inversion Hrun; subst resp; discriminate Hok|].
  destruct (fail_update_session f); exec_in Hrun;
    [inversion Hrun; subst resp; discriminate Hok|].
  exists s, (Profile.credits lp).
  split; [now apply truthy_string_true|].
  split; [exact Hs|].
  split; [now apply participant_of_check|].
  split; [intros E; rewrite E in Hst; discriminate Hst|].
  split; [unfold balance, find_profile; now rewrite Hlp|].
  split; [unfold cost; now apply Z.ltb_ge|].
  crunch Hrun; inversion Hrun; subst resp w'; clear Hrun; exec;
    (split; [apply find_session_completed; exact Hs|reflexivity]).
Qed.



(** X2.  The refusals of complete-session, for a call that names a session
    (the lookup of the session being answered): an unknown session is
    answered 404; a caller who is neither its tutor nor its learner 403;
    then, for a session not yet completed (the lookup of the learner's
    profile being answered), a learner without a profile 404 and a learner
    holding less than the cost 400.  None of them changes the store. *)
Theorem complete_session_refusals (e : env) (f : faults)
    (req : Http.request body) (user : uuid) (b : body) (d : db)
    (log : list string) (resp : Http.response) (w' : world) :
  authenticated (get_user e) req user b ->
  session_id b <> "" ->
  fail_select_session f = false ->
  run (handler e f req) (mkWorld d log) = (resp, w') ->
  (find_session d (session_id b) = None ->
   resp = Http.error 404 "Session not found" /\ store w' = d)
  /\ (forall s,
        find_session d (session_id b) = Some s ->
        (~ participant user s ->
         resp = Http.error 403 "You are not a participant in this session"
         /\ store w' = d)
        /\ (participant user s ->
            Session.status s <> Session.completed ->
            fail_select_learner f = false ->
            (balance d (Session.learner_id s) = None ->
             resp = Http.error 404 "Learner profile not found"
             /\ store w' = d)
            /\ (forall c,
                  balance d (Session.learner_id s) = Some c ->
                  c < cost s ->
                  resp = Http.error 400 "Insufficient credits"
                  /\ store w' = d))).
Proof.
  intros Hauth Hid Hf Hrun.
  rewrite (complete_session_authenticated _ _ _ _ _ Hauth) in Hrun.
  apply truthy_string_true in Hid.
  unfold process in Hrun. rewrite Hid, Hf in Hrun. exec_in Hrun.
  unfold find_session. split.
  - intros Hnone. rewrite Hnone in Hrun. exec_in Hrun.
    inversion Hrun. split; reflexivity.
  - intros s Hs. rewrite Hs in Hrun. split.
    + intros Hnot.
      destruct (negb (Session.tutor_id s =? user)%string
                && negb (Session.learner_id s =? user)%string) eqn:Hp.
      * exec_in Hrun. inversion Hrun. split; reflexivity.
      * elim Hnot. now apply participant_of_check.
    + intros Hpart Hst Hfl.
      rewrite (participant_check _ _ Hpart), (not_completed _ Hst), Hfl
        in Hrun.
      exec_in Hrun. unfold balance, find_profile. split.
      * intros Hnone.
        destruct (single (filter (col_eq Profile.user_id
                                    (Session.learner_id s)) (profiles d)))
          as [lp|]; [discriminate Hnone|].
        exec_in Hrun. inversion Hrun. split; reflexivity.
      * intros c Hc Hlt.
        destruct (single (filter (col_eq Profile.user_id
                                    (Session.learner_id s)) (profiles d)))
          as [lp|]; [|discriminate Hc].
        cbn in Hc. inversion Hc; subst c. unfold cost in Hlt.
        apply Z.ltb_lt in Hlt. rewrite Hlt in Hrun. exec_in Hrun.
        inversion Hrun. split; reflexivity.
Qed.

(** carol holds 0.4 credit and is the learner of an AI session, which she
    names with the letters of its id in upper case. *)
Lemma complete_session_refusals_witness :
  let id := Uuid.of_text "aaaaaaaa-0000-4000-8000-00000000000f" in
  let d := with_sessions
             (fun rows => Sample.session id Sample.bob Sample.carol
                            Session.scheduled true :: rows) Sample.store in
  let b := mkBody "AAAAAAAA-0000-4000-8000-00000000000F" None None in
  let out := run (handler Sample.complete_env no_faults
                    (Sample.post Sample.carol b))
                 (mkWorld d []) in
  balance d Sample.carol = Some 40
  /\ fst out = Http.error 400 "Insufficient credits"
  /\ store (snd out) = d.
Proof.
  cbv zeta. split; [reflexivity|].
  set (id := Uuid.of_text "aaaaaaaa-0000-4000-8000-00000000000f").
  set (d := with_sessions
              (fun rows => Sample.session id Sample.bob Sample.carol
                             Session.scheduled true :: rows) Sample.store).
  set (b := mkBody "AAAAAAAA-0000-4000-8000-00000000000F" None None).
  assert (Hauth : authenticated (get_user Sample.complete_env)
                    (Sample.post Sample.carol b) Sample.carol b)
    by sample_call.
  destruct (complete_session_refusals Sample.complete_env no_faults
              (Sample.post Sample.carol b) Sample.carol b d []
              (fst (run (handler Sample.complete_env no_faults
                           (Sample.post Sample.carol b)) (mkWorld d [])))
              (snd (run (handler Sample.complete_env no_faults
                           (Sample.post Sample.carol b)) (mkWorld d [])))
              Hauth)
    as [_ Hs]; [discriminate|reflexivity|reflexivity|].
  destruct (Hs (Sample.session id Sample.bob Sample.carol
                  Session.scheduled true) eq_refl) as [_ Hpart].
  destruct Hpart as [_ Hpoor];
    [right; reflexivity|discriminate|reflexivity|].
  apply (Hpoor 40); [reflexivity|vm_compute; reflexivity].
Defined.


Lemma participant_completed (e : env) (b : body) (user : uuid)
    (s : Session.t) :
  participant user s -> participant user (completed_session e b s).
Proof. intros H. exact H. Qed.


End CompleteSessionMore.


(** ** The balances and the ledger under complete-session *)

Lemma nonneg_set_credits (q : Profile.t -> bool) (v : numeric)
    (rows : list Profile.t) :
  (forall p, In p rows -> 0 <= Profile.credits p) ->
  0 <= v ->
  forall p, In p (update_rows q (Profile.set_credits v) rows) ->
            0 <= Profile.credits p.
Proof.
  intros Hrows Hv p Hin. unfold update_rows in Hin.
  apply in_map_iff in Hin. destruct Hin as (x & Hx & Hin).
  destruct (q x); subst p; [exact Hv|now apply Hrows].
Qed.

Lemma update_rows_none {A : Type} (p : A -> bool) (f : A -> A)
    (rows : list A) :
  filter p rows = [] -> update_rows p f rows = rows.
Proof.
  unfold update_rows. induction rows as [|x rows IH]; simpl; [reflexivity|].
  destruct (p x); [discriminate|]. intros H. now rewrite IH.
Qed.

(** Setting the credits of the one row of a user moves the total by the
    difference. *)
Lemma total_set_credits (u : uuid) (v : numeric) (rows : list Profile.t)
    (x : Profile.t) :
  single (filter (col_eq Profile.user_id u) rows) = Some x ->
  sum_amounts (map Profile.credits
                 (update_rows (col_eq Profile.user_id u)
                    (Profile.set_credits v) rows))
  = sum_amounts (map Profile.credits rows) - Profile.credits x + v.
Proof.
  intros H. apply single_some in H.
  induction rows as [|y rows IH]; [discriminate H|].
  cbn [filter] in H. unfold update_rows. cbn [map sum_amounts fold_right].
  destruct (col_eq Profile.user_id u y) eqn:E.
  - injection H as Hy Hrest. subst y.
    fold (update_rows (col_eq Profile.user_id u) (Profile.set_credits v) rows).
    rewrite (update_rows_none _ _ _ Hrest).
    cbn [Profile.credits Profile.set_credits].
    fold (sum_amounts (map Profile.credits rows)). lia.
  - fold (update_rows (col_eq Profile.user_id u) (Profile.set_credits v) rows).
    fold (sum_amounts
            (map Profile.credits
               (update_rows (col_eq Profile.user_id u)
                  (Profile.set_credits v) rows))).
    rewrite (IH H). fold (sum_amounts (map Profile.credits rows)). lia.
Qed.

Lemma sum_amounts_app (l1 l2 : list numeric) :
  sum_amounts (l1 ++ l2) = sum_amounts l1 + sum_amounts l2.
Proof. induction l1 as [|x l1 IH]; simpl; [reflexivity|]. rewrite IH. lia. Qed.

Module CompleteSessionLedger.
Import CompleteSession CompleteSessionSpec CompleteSessionMore.

(** Closes [forall p, In p rows -> 0 <= credits p] for the rows a call
    leaves, from the same fact [Hinv] about the rows it found. *)
Ltac nonneg_rows Hinv :=
  first
    [ exact Hinv
    | apply nonneg_set_credits;
      [ nonneg_rows Hinv
      | first
          [ lia
          | match goal with
            | H : single (filter _ ?rows) = Some ?t
              |- 0 <= Profile.credits ?t + one_credit =>
                let Hn := fresh "Hn" in
                enough (Hn : forall p, In p rows -> 0 <= Profile.credits p)
                  by (apply single_filter_holds in H; destruct H as [_ H];
                      specialize (Hn t H); unfold one_credit; lia);
                nonneg_rows Hinv
            end ] ] ].

Lemma process_keeps_balances_nonneg (e : env) (f : faults) (user : uuid)
    (b : body) (d : db) (log : list string) :
  nonneg_balances d ->
  nonneg_balances (store (snd (run (process e f user b) (mkWorld d log)))).
Proof.
  intros Hinv.
  destruct (run (process e f user b) (mkWorld d log)) as [resp w'] eqn:Hrun.
  unfold process in Hrun. unfold nonneg_balances in *.
  crunch Hrun; inversion Hrun; subst resp w'; clear Hrun; exec;
    try exact Hinv;
    repeat match goal with
      | H : (_ <? _) = false |- _ => apply Z.ltb_ge in H
      end;
    unfold half_credit in *;
    nonneg_rows Hinv.
Qed.

(** X4.  complete-session never puts a profile in debt: when no profile
    holds a negative balance before a call, none does after it, whatever the
    request and whichever store calls fail. *)
Theorem complete_session_keeps_balances_nonneg (e : env) (f : faults)
    (req : Http.request body) (d : db) (log : list string) :
  nonneg_balances d ->
  nonneg_balances (store (snd (run (handler e f req) (mkWorld d log)))).
Proof.
  intros Hinv.
  destruct (complete_session_gate e f req (mkWorld d log))
    as [(user & b & Hauth)|[Hsame _]].
  - rewrite (complete_session_authenticated _ _ _ _ _ Hauth).
    now apply process_keeps_balances_nonneg.
  - now rewrite Hsame.
Qed.

(** alice, who holds exactly 1 credit after two sessions, completes a third
    and is left with 0, not less. *)
Lemma complete_session_keeps_balances_nonneg_witness :
  let d := with_profiles
             (update_rows (col_eq Profile.user_id Sample.alice)
                          (Profile.set_credits 100)) Sample.store in
  let out := run (handler Sample.complete_env no_faults
                    (Sample.post Sample.alice
                       (mkBody Sample.human_session None None)))
                 (mkWorld d []) in
  nonneg_balances d
  /\ balance (store (snd out)) Sample.alice = Some 0
  /\ nonneg_balances (store (snd out)).
Proof.
  cbv zeta.
  assert (Hinv : nonneg_balances
                   (with_profiles
                      (update_rows (col_eq Profile.user_id Sample.alice)
                                   (Profile.set_credits 100)) Sample.store)).
  { intros p Hp. vm_compute in Hp.
    repeat (destruct Hp as [<-|Hp]; [vm_compute; discriminate|]).
    destruct Hp. }
  split; [exact Hinv|]. split; [reflexivity|].
  exact (complete_session_keeps_balances_nonneg Sample.complete_env no_faults
           _ _ [] Hinv).
Defined.

Ltac session_row :=
  match goal with
  | H : single (filter (col_eq Session.id _) (sessions ?d)) = Some ?s |- _ =>
      exists s; split; [exact H|];
      cbn [CreditTransaction.session_id]; f_equal;
      apply of_text_in; exact (find_session_id d _ _ H)
  end.

Lemma process_ledger_grows (e : env) (f : faults) (user : uuid) (b : body)
    (d : db) (log : list string) :
  exists rows,
    credit_transactions
      (store (snd (run (process e f user b) (mkWorld d log))))
    = (credit_transactions d ++ rows)%list
    /\ (List.length rows <= 2)%nat
    /\ (forall row, In row rows ->
          exists s,
            find_session d (session_id b) = Some s
            /\ CreditTransaction.session_id row = Some (Session.id s)).
Proof.
  destruct (run (process e f user b) (mkWorld d log)) as [resp w'] eqn:Hrun.
  unfold process in Hrun.
  crunch Hrun; inversion Hrun; subst resp w'; clear Hrun; exec;
    first
      [ exists []; rewrite app_nil_r; split; [reflexivity|];
        split; [simpl; lia|intros row []]
      | eexists [_]; split; [reflexivity|]; split; [simpl; lia|];
        intros row [<-|[]]; session_row
      | eexists [_; _]; split; [now rewrite <- app_assoc|];
        split; [simpl; lia|];
        intros row [<-|[<-|[]]]; session_row ].
Qed.

Lemma process_keeps_other_tables (e : env) (f : faults) (user : uuid)
    (b : body) :
  keeps (fun d => (learning_requests d, conversations d, messages d,
                   map Session.id (sessions d),
                   map Profile.user_id (profiles d)))
        (process e f user b).
Proof.
  assert (Hs : forall q g rows,
            (forall s, Session.id (g s) = Session.id s) ->
            map Session.id (update_rows q g rows) = map Session.id rows).
  { intros q g rows Hg. unfold update_rows. rewrite map_map.
    apply map_ext. intros s. now destruct (q s). }
  assert (Hp : forall q v rows,
            map Profile.user_id (update_rows q (Profile.set_credits v) rows)
            = map Profile.user_id rows).
  { intros q v rows. unfold update_rows. rewrite map_map.
    apply map_ext. intros p. now destruct (q p). }
  unfold process, update_credits, insert_transaction.
  repeat first
    [ apply keeps_reply | apply keeps_ret | apply keeps_console_log
    | apply keeps_console_error | apply keeps_select_single
    | apply keeps_write; intros ?;
      cbn [learning_requests conversations messages sessions profiles
           with_sessions with_profiles with_credit_transactions];
      rewrite ?Hp, ?Hs by reflexivity; reflexivity
    | apply keeps_bind; [|intros ?]
    | match goal with
      | |- keeps _ (if ?c then _ else _) => destruct c
      | |- keeps _ (match ?c with Some _ => _ | None => _ end) => destruct c
      end ].
Qed.

(** X5.  What complete-session leaves alone, whatever the request and
    whichever store calls fail: the learning requests, the conversations
    and the messages are untouched; no session and no profile is added,
    removed or given another id; and the ledger only grows, by at most two
    rows, each of which references the session that the body names,
    however the body spells its id. *)
Theorem complete_session_frame (e : env) (f : faults)
    (req : Http.request body) (d : db) (log : list string) :
  let d' := store (snd (run (handler e f req) (mkWorld d log))) in
  learning_requests d' = learning_requests d
  /\ conversations d' = conversations d
  /\ messages d' = messages d
  /\ map Session.id (sessions d') = map Session.id (sessions d)
  /\ map Profile.user_id (profiles d') = map Profile.user_id (profiles d)
  /\ exists rows,
       credit_transactions d' = (credit_transactions d ++ rows)%list
       /\ (List.length rows <= 2)%nat
       /\ (forall row b,
             Http.json req = Some b -> In row rows ->
             exists s,
               find_session d (session_id b) = Some s
               /\ CreditTransaction.session_id row = Some (Session.id s)).
Proof.
  cbv zeta.
  destruct (complete_session_gate e f req (mkWorld d log))
    as [(user & b & Hauth)|[Hsame _]].
  - rewrite (complete_session_authenticated _ _ _ _ _ Hauth).
    pose proof (keeps_run _ _ (mkWorld d log)
                  (process_keeps_other_tables e f user b)) as Hk.
    cbn [store] in Hk. injection Hk as H1 H2 H3 H4 H5.
    destruct (process_ledger_grows e f user b d log) as (rows & Hr & Hl & Hs).
    repeat (split; [assumption|]).
    exists rows. split; [exact Hr|]. split; [exact Hl|].
    intros row b' Hb' Hin. destruct Hauth as [_ (h & _ & _ & _ & Hj)].
    assert (b' = b) by congruence. subst b'. now apply Hs.
  - cbn [store] in Hsame. rewrite Hsame.
    repeat (split; [reflexivity|]).
    exists []. rewrite app_nil_r. split; [reflexivity|].
    split; [simpl; lia|intros row b _ []].
Qed.

(** The sum of all balances after a call that passes every check, no store
    call failing. *)
Lemma process_totals (e : env) (user : uuid) (b : body) (d : db)
    (log : list string) (s : Session.t) (c : numeric) :
  session_id b <> "" ->
  find_session d (session_id b) = Some s ->
  participant user s ->
  Session.status s <> Session.completed ->
  balance d (Session.learner_id s) = Some c ->
  cost s <= c ->
  total_credits (store (snd (run (process e no_faults user b) (mkWorld d log))))
  = total_credits d + ledger_total (ledger_rows e s)
    - match balance d (Session.tutor_id s) with
      | Some _ => 0
      | None => if truthy_opt_bool (Session.is_ai_session s) then 0
                else one_credit
      end.
Proof.
  intros Hid Hs Hpart Hst Hbal Hc.
  destruct (balance_find_profile _ _ _ Hbal) as (lp & Hlp & Hlpc).
  apply truthy_string_true in Hid.
  assert (Hrich : (Profile.credits lp <? cost s) = false)
    by (rewrite Hlpc; now apply Z.ltb_ge).
  unfold process, no_faults. flags. rewrite Hid. exec.
  pose proof Hs as Hs'. unfold find_session in Hs'. rewrite Hs'.
  rewrite (participant_check _ _ Hpart), (not_completed _ Hst).
  exec. pose proof Hlp as Hlp'. unfold find_profile in Hlp'. rewrite Hlp'.
  unfold cost in Hrich. rewrite Hrich. exec.
  unfold ledger_total, ledger_rows, learner_row, tutor_row, cost, total_credits.
  destruct (truthy_opt_bool (Session.is_ai_session s)) eqn:Hai; exec.
  - rewrite (total_set_credits _ _ _ _ Hlp').
    cbn [map CreditTransaction.amount sum_amounts fold_right].
    destruct (balance d (Session.tutor_id s)); lia.
  - destruct (single
                (filter (col_eq Profile.user_id (Session.tutor_id s))
                   (update_rows
                      (col_eq Profile.user_id (Session.learner_id s))
                      (Profile.set_credits (Profile.credits lp - one_credit))
                      (profiles d)))) as [tp|] eqn:Htp; exec;
      pose proof Htp as Htp'; rewrite lookup_after_set in Htp';
      cbn [map CreditTransaction.amount sum_amounts fold_right];
      unfold balance, find_profile.
    + rewrite (total_set_credits _ _ _ _ Htp), (total_set_credits _ _ _ _ Hlp').
      destruct (Session.tutor_id s =? Session.learner_id s)%string eqn:E.
      * apply String.eqb_eq in E. rewrite E, Hlp'. cbn. lia.
      * rewrite Htp'. cbn. lia.
    + rewrite (total_set_credits _ _ _ _ Hlp').
      destruct (Session.tutor_id s =? Session.learner_id s)%string eqn:E.
      * apply String.eqb_eq in E. rewrite E, Hlp' in Htp'. discriminate Htp'.
      * rewrite Htp'. cbn. lia.
Qed.

(** X6.  The ledger against the balances.  When a call is answered with
    the success response and no store call fails, the ledger gains exactly
    the rows of the session; the sum of all balances then moves by the sum
    of those rows if the session is an AI session or its tutor has a
    profile.  For a human session whose
    tutor has no profile the rows sum to 0 while the balances lose one
    credit: the 'teaching' row records a credit nobody received. *)
Theorem complete_session_ledger_against_balances (e : env)
    (req : Http.request body) (d : db) (log : list string) :
  let out := run (handler e no_faults req) (mkWorld d log) in
  fst out = completed_response ->
  exists b s,
    Http.json req = Some b
    /\ find_session d (session_id b) = Some s
    /\ credit_transactions (store (snd out))
       = (credit_transactions d ++ ledger_rows e s)%list
    /\ (truthy_opt_bool (Session.is_ai_session s) = true
        \/ balance d (Session.tutor_id s) <> None ->
        total_credits (store (snd out))
        = total_credits d + ledger_total (ledger_rows e s))
    /\ (truthy_opt_bool (Session.is_ai_session s) = false ->
        balance d (Session.tutor_id s) = None ->
        ledger_total (ledger_rows e s) = 0
        /\ total_credits (store (snd out)) = total_credits d - one_credit).
Proof.
  cbv zeta. intros Hok.
  destruct (complete_session_gate e no_faults req (mkWorld d log))
    as [(user & b & Hauth)|[_ Hin]].
  2:{ exfalso. simpl in Hin.
      destruct Hin as [H|[H|[H|[H|[]]]]]; rewrite <- H in Hok;
        discriminate Hok. }
  rewrite (complete_session_authenticated _ _ _ _ _ Hauth) in *.
  destruct (run (process e no_faults user b) (mkWorld d log))
    as [resp w'] eqn:Hrun.
  cbn [fst] in Hok.
  assert (Hok' : Http.status resp = 200) by now rewrite Hok.
  destruct (success_passed_checks _ _ _ _ _ _ _ _ Hrun Hok')
    as (s & c & Hid & Hs & Hpart & Hst & Hbal & Hc & _ & _).
  pose proof (process_totals e user b d log s c Hid Hs Hpart Hst Hbal Hc)
    as Htot.
  destruct (process_effect e user b d log s c Hid Hs Hpart Hst Hbal Hc)
    as (w1 & Hrun1 & _ & _ & Hledger & _).
  rewrite Hrun in Htot, Hrun1. inversion Hrun1; subst w1. cbn [fst snd] in *.
  exists b, s.
  split; [destruct Hauth as [_ (h & _ & _ & _ & Hj)]; exact Hj|].
  split; [exact Hs|]. split; [exact Hledger|]. split.
  - intros [Hai|Htp]; rewrite Htot.
    + rewrite Hai. destruct (balance d (Session.tutor_id s)); lia.
    + destruct (balance d (Session.tutor_id s)); [lia|congruence].
  - intros Hai Htp. rewrite Htot, Htp, Hai.
    unfold ledger_total, ledger_rows, learner_row, tutor_row, cost.
    rewrite Hai. cbn. lia.
Qed.

(** alice completes the session dave taught her; dave has no profile.  Her
    credit is gone, and the two ledger rows cancel. *)
Lemma complete_session_ledger_against_balances_witness :
  let d := Sample.store in
  let out := run (handler Sample.complete_env no_faults
                    (Sample.post Sample.alice
                       (mkBody Sample.orphan_session None None)))
                 (mkWorld d []) in
  fst out = completed_response
  /\ total_credits (store (snd out)) = total_credits d - one_credit
  /\ ledger_total (credit_transactions (store (snd out))) = 0.
Proof.
  cbv zeta. split; [reflexivity|].
  destruct (complete_session_ledger_against_balances Sample.complete_env
              (Sample.post Sample.alice
                 (mkBody Sample.orphan_session None None))
              Sample.store [] eq_refl)
    as (b & s & Hb & Hs & Hl & _ & Hdrift).
  injection Hb as <-.
  vm_compute in Hs. injection Hs as <-.
  split.
  - apply Hdrift; reflexivity.
  - rewrite Hl. reflexivity.
Defined.
End CompleteSessionLedger.


(** ** More on accept-request *)


Module AcceptRequestMore.
Import AcceptRequest AcceptRequestSpec.

(** A request that does not get past the first lines of the handler. *)
Lemma accept_request_gate (e : env) (f : faults) (req : Http.request body)
    (w : world) :
  (exists user b, authenticated (get_user e) req user b)
  \/ (store (snd (run (handler e f req) w)) = store w
      /\ In (fst (run (handler e f req) w))
            [Http.preflight; Http.error 401 "Missing authorization header";
             Http.error 401 "Unauthorized";
             Http.error 500 "Internal server error"]).
Proof.
  unfold handler.
  destruct (Http.method req =? "OPTIONS")%string eqn:Hm;
    [right; split; [reflexivity|simpl; tauto]|].
  destruct (Http.authorization req) as [authHeader|] eqn:Ha;
    [|right; split; [reflexivity|simpl; tauto]].
  destruct (truthy_string authHeader) eqn:Hne; cbn [negb];
    [|right; split; [reflexivity|simpl; tauto]].
  destruct (get_user e authHeader) as [user|] eqn:Hu;
    [|right; split; [reflexivity|simpl; tauto]].
  destruct (Http.json req) as [b|] eqn:Hj;
    [|right; split; [reflexivity|simpl; tauto]].
  left. exists user, b. split; [now apply String.eqb_neq|].
  exists authHeader. split; [exact Ha|].
  split; [now apply truthy_string_true|]. auto.
Qed.

Lemma process_needs_tutor_of_pending (e : env) (f : faults) (user : uuid)
    (b : body) (d : db) (log : list string) :
  store (snd (run (process e f user b) (mkWorld d log))) = d
  \/ exists r,
       request_id b <> "" /\ scheduled_at b <> ""
       /\ find_request d (request_id b) = Some r
       /\ LearningRequest.tutor_id r = user
       /\ LearningRequest.status r = LearningRequest.pending.
Proof.
  unfold process, find_request.
  destruct (truthy_string (request_id b)) eqn:Hid; [|left; reflexivity].
  destruct (truthy_string (scheduled_at b)) eqn:Hat; [|left; reflexivity].
  exec. destruct (fail_select_request f); [left; reflexivity|].
  destruct (single (filter (col_eq LearningRequest.id (request_id b))
                      (learning_requests d))) as [r|] eqn:Hr;
    [|left; reflexivity].
  destruct (LearningRequest.tutor_id r =? user)%string eqn:Hu;
    [|left; reflexivity].
  destruct (LearningRequest.status_eqb (LearningRequest.status r)
              LearningRequest.pending) eqn:Hst; [|left; reflexivity].
  right. exists r.
  split; [now apply truthy_string_true|].
  split; [now apply truthy_string_true|].
  split; [reflexivity|].
  split; [now apply uuid_eqb_eq|now apply status_eqb_pending].
Qed.

(** X7.  Only the tutor of a pending request can make accept-request write:
    whatever the request and whichever store calls fail, either the store is
    left exactly as it was, or the caller was authenticated, the body named
    (with a time) an existing request whose tutor is the caller, and that
    request was pending. *)
Theorem accept_request_writes_need_tutor_of_pending (e : env) (f : faults)
    (req : Http.request body) (d : db) (log : list string) :
  store (snd (run (handler e f req) (mkWorld d log))) = d
  \/ exists user b r,
       authenticated (get_user e) req user b
       /\ request_id b <> "" /\ scheduled_at b <> ""
       /\ find_request d (request_id b) = Some r
       /\ LearningRequest.tutor_id r = user
       /\ LearningRequest.status r = LearningRequest.pending.
Proof.
  destruct (accept_request_gate e f req (mkWorld d log))
    as [(user & b & Hauth)|[Hsame _]]; [|left; exact Hsame].
  rewrite (accept_request_authenticated _ _ _ _ _ Hauth).
  destruct (process_needs_tutor_of_pending e f user b d log)
    as [H|(r & H)]; [left; exact H|].
  right. exists user, b, r. split; [exact Hauth|exact H].
Qed.

(** X8.  How accept-request refuses a caller who names a request and a time:
    404 "Request not found" when no request has that id, 403 "Only the tutor
    can accept this request" when the caller is not its tutor (its learner,
    for one), in both cases with the store untouched, whichever later store
    calls would fail. *)
Theorem accept_request_refusals (e : env) (f : faults)
    (req : Http.request body) (user : uuid) (b : body) (d : db)
    (log : list string) :
  authenticated (get_user e) req user b ->
  request_id b <> "" -> scheduled_at b <> "" ->
  fail_select_request f = false ->
  let out := run (handler e f req) (mkWorld d log) in
  (find_request d (request_id b) = None ->
   out = (Http.error 404 "Request not found", mkWorld d log))
  /\ (forall r,
        find_request d (request_id b) = Some r ->
        LearningRequest.tutor_id r <> user ->
        out = (Http.error 403 "Only the tutor can accept this request",
               mkWorld d log)).
Proof.
  intros Hauth Hid Hat Hf. cbv zeta.
  rewrite (accept_request_authenticated _ _ _ _ _ Hauth).
  apply truthy_string_true in Hid, Hat.
  unfold process, find_request. rewrite Hid, Hat, Hf. exec.
  split.
  - intros Hr. now rewrite Hr.
  - intros r Hr Hu. rewrite Hr. apply uuid_eqb_neq in Hu. now rewrite Hu.
Qed.

(** alice, the learner of the pending request, tries to accept it herself,
    naming it with the letters of its id in upper case; bob names a request
    that does not exist. *)
Lemma accept_request_refusals_witness :
  fst (run (handler Sample.accept_env no_faults
              (Sample.post Sample.alice
                 (mkBody "BBBBBBBB-0000-4000-8000-00000000000A"
                    "2026-03-05T18:00:00Z" None)))
         Sample.world0)
  = Http.error 403 "Only the tutor can accept this request"
  /\ fst (run (handler Sample.accept_env no_faults
                 (Sample.post Sample.bob
                    (mkBody "bbbbbbbb-0000-4000-8000-0000000000ff"
                       "2026-03-05T18:00:00Z" None)))
            Sample.world0)
     = Http.error 404 "Request not found".
Proof.
  split.
  - assert (Ha : authenticated (get_user Sample.accept_env)
                   (Sample.post Sample.alice
                      (mkBody "BBBBBBBB-0000-4000-8000-00000000000A"
                         "2026-03-05T18:00:00Z" None))
                   Sample.alice
                   (mkBody "BBBBBBBB-0000-4000-8000-00000000000A"
                      "2026-03-05T18:00:00Z" None))
      by sample_call.
    destruct (accept_request_refusals Sample.accept_env no_faults _ _ _
                Sample.store [] Ha ltac:(discriminate) ltac:(discriminate)
                eq_refl) as [_ H].
    unfold Sample.world0.
    rewrite (H _ eq_refl ltac:(discriminate)). reflexivity.
  - assert (Hb : authenticated (get_user Sample.accept_env)
                   (Sample.post Sample.bob
                      (mkBody "bbbbbbbb-0000-4000-8000-0000000000ff"
                         "2026-03-05T18:00:00Z" None))
                   Sample.bob
                   (mkBody "bbbbbbbb-0000-4000-8000-0000000000ff"
                      "2026-03-05T18:00:00Z" None))
      by sample_call.
    destruct (accept_request_refusals Sample.accept_env no_faults _ _ _
                Sample.store [] Hb ltac:(discriminate) ltac:(discriminate)
                eq_refl) as [H _].
    unfold Sample.world0. rewrite (H eq_refl). reflexivity.
Defined.



Lemma process_frame (e : env) (f : faults) (user : uuid) (b : body) :
  keeps (fun d => (profiles d, credit_transactions d,
                   map LearningRequest.id (learning_requests d),
                   filter (fun r => negb (col_eq LearningRequest.id
                                            (request_id b) r))
                          (learning_requests d)))
        (process e f user b).
Proof.
  assert (Hi : forall rows,
            map LearningRequest.id
              (update_rows (col_eq LearningRequest.id (request_id b))
                 (LearningRequest.set_status LearningRequest.accepted) rows)
            = map LearningRequest.id rows).
  { intros rows. unfold update_rows. rewrite map_map. apply map_ext.
    intros r. now destruct (col_eq _ _ r). }
  assert (Ho : forall rows,
            filter (fun r => negb (col_eq LearningRequest.id (request_id b) r))
              (update_rows (col_eq LearningRequest.id (request_id b))
                 (LearningRequest.set_status LearningRequest.accepted) rows)
            = filter (fun r => negb (col_eq LearningRequest.id
                                       (request_id b) r)) rows).
  { intros rows. induction rows as [|r rows IH]; [reflexivity|].
    unfold update_rows in *. cbn [map filter].
    destruct (col_eq LearningRequest.id (request_id b) r) eqn:E.
    - assert (E' : col_eq LearningRequest.id (request_id b)
                     (LearningRequest.set_status LearningRequest.accepted r)
                   = true) by exact E.
      rewrite E'. cbn [negb]. exact IH.
    - rewrite E. cbn [negb]. now rewrite IH. }
  unfold process, insert_message, touch_conversation.
  repeat first
    [ apply keeps_reply | apply keeps_ret | apply keeps_console_log
    | apply keeps_console_error | apply keeps_select_single
    | apply keeps_write; intros ?;
      cbn [profiles credit_transactions learning_requests
           with_conversations with_messages with_learning_requests];
      rewrite ?Hi, ?Ho; reflexivity
    | apply keeps_insert_returning; reflexivity
    | apply keeps_bind; [|intros ?]
    | match goal with
      | |- keeps _ (if ?c then _ else _) => destruct c
      | |- keeps _ (match ?c with Some _ => _ | None => _ end) => destruct c
      end ].
Qed.

Ltac request_row :=
  match goal with
  | H : single (filter (col_eq LearningRequest.id _)
                  (learning_requests ?d)) = Some ?r |- _ =>
      exists r; split; [exact H|];
      cbn [Session.request_id]; f_equal;
      apply of_text_in; exact (find_request_id d _ _ H)
  end.

Lemma process_appends (e : env) (f : faults) (user : uuid) (b : body)
    (d : db) (log : list string) :
  let d' := store (snd (run (process e f user b) (mkWorld d log))) in
  (exists ss, sessions d' = (sessions d ++ ss)%list
              /\ (List.length ss <= 1)%nat
              /\ forall s, In s ss ->
                   (exists r,
                      find_request d (request_id b) = Some r
                      /\ Session.request_id s = Some (LearningRequest.id r))
                   /\ Session.tutor_id s = user
                   /\ Session.status s = Session.scheduled)
  /\ (exists ms, messages d' = (messages d ++ ms)%list
                 /\ (List.length ms <= 1)%nat
                 /\ forall m, In m ms -> Message.sender_id m = user).
Proof.
  cbv zeta.
  destruct (run (process e f user b) (mkWorld d log)) as [resp w'] eqn:Hrun.
  unfold process in Hrun.
  crunch Hrun; inversion Hrun; subst resp w'; clear Hrun; exec;
    repeat match goal with
      | H : negb (_ =? _)%string = false |- _ =>
          apply negb_false_iff, uuid_eqb_eq in H
      end;
    (split;
     [ first [ exists []; rewrite app_nil_r; split; [reflexivity|];
               split; [simpl; lia|intros ? []]
             | eexists [_]; split; [reflexivity|]; split; [simpl; lia|];
               intros ? [<-|[]];
               (split; [request_row|split; [assumption|reflexivity]]) ]
     | first [ exists []; rewrite app_nil_r; split; [reflexivity|];
               split; [simpl; lia|intros ? []]
             | eexists [_]; split; [reflexivity|]; split; [simpl; lia|];
               intros ? [<-|[]]; reflexivity ] ]).
Qed.

(** X10.  What accept-request leaves alone, whatever the request and
    whichever store calls fail: no profile and no ledger row is touched, so
    accepting moves no credit; no learning request is added or removed, and
    every request other than the one named in the body is unchanged; the
    conversations keep their ids and pairs; [sessions] gains at most one
    row, scheduled, for the request the body names (however it spells the
    id) and with the caller as tutor; and [messages] gains at most one row,
    sent by the caller. *)
Theorem accept_request_frame (e : env) (f : faults)
    (req : Http.request body) (d : db) (log : list string) :
  let d' := store (snd (run (handler e f req) (mkWorld d log))) in
  profiles d' = profiles d
  /\ credit_transactions d' = credit_transactions d
  /\ map LearningRequest.id (learning_requests d')
     = map LearningRequest.id (learning_requests d)
  /\ (forall b, Http.json req = Some b ->
        filter (fun r => negb (col_eq LearningRequest.id (request_id b) r))
               (learning_requests d')
        = filter (fun r => negb (col_eq LearningRequest.id (request_id b) r))
                 (learning_requests d))
  /\ map row_key (conversations d') = map row_key (conversations d)
  /\ (exists ss, sessions d' = (sessions d ++ ss)%list
        /\ (List.length ss <= 1)%nat
        /\ forall s user b,
             authenticated (get_user e) req user b -> In s ss ->
             (exists r,
                find_request d (request_id b) = Some r
                /\ Session.request_id s = Some (LearningRequest.id r))
             /\ Session.tutor_id s = user
             /\ Session.status s = Session.scheduled)
  /\ (exists ms, messages d' = (messages d ++ ms)%list
        /\ (List.length ms <= 1)%nat
        /\ forall m user b,
             authenticated (get_user e) req user b -> In m ms ->
             Message.sender_id m = user).
Proof.
  cbv zeta.
  pose proof (keeps_run _ _ (mkWorld d log)
                (ConversationSpec.accept_request_keeps_rows e f req))
    as Hconv.
  cbn [store] in Hconv.
  destruct (accept_request_gate e f req (mkWorld d log))
    as [(user & b & Hauth)|[Hsame _]].
  - assert (Huniq : forall user' b',
              authenticated (get_user e) req user' b' ->
              user' = user /\ b' = b).
    { intros user' b' [_ (h' & H1 & _ & H2 & H3)].
      destruct Hauth as [_ (h & H4 & _ & H5 & H6)].
      split; congruence. }
    revert Hconv. rewrite (accept_request_authenticated _ _ _ _ _ Hauth).
    intros Hconv.
    pose proof (keeps_run _ _ (mkWorld d log) (process_frame e f user b))
      as Hk.
    cbn [store] in Hk. injection Hk as H1 H2 H3 H4.
    destruct (process_appends e f user b d log)
      as [(ss & Hs1 & Hs2 & Hs3) (ms & Hm1 & Hm2 & Hm3)].
    split; [exact H1|]. split; [exact H2|]. split; [exact H3|].
    split.
    { intros b' Hb'. destruct Hauth as [_ (h & _ & _ & _ & Hj)].
      assert (b' = b) by congruence. subst b'. exact H4. }
    split; [exact Hconv|]. split.
    + exists ss. split; [exact Hs1|]. split; [exact Hs2|].
      intros s user' b' Ha Hin. destruct (Huniq _ _ Ha) as [-> ->].
      now apply Hs3.
    + exists ms. split; [exact Hm1|]. split; [exact Hm2|].
      intros m user' b' Ha Hin. destruct (Huniq _ _ Ha) as [-> ->].
      now apply Hm3.
  - cbn [store] in Hsame. rewrite Hsame.
    repeat (split; [reflexivity|]).
    split; exists []; rewrite app_nil_r;
      (split; [reflexivity|]; split; [simpl; lia|intros ? ? ? _ []]).
Qed.
End AcceptRequestMore.


(** ** More on send-request *)

(** A filter on columns an update keeps sees the updated rows. *)
Lemma filter_update_rows_kept {A : Type} (p q : A -> bool) (f : A -> A)
    (rows : list A) :
  (forall x, q (f x) = q x) ->
  filter q (update_rows p f rows)
  = map (fun x => if p x then f x else x) (filter q rows).
Proof.
  intros Hkeep. unfold update_rows.
  induction rows as [|x rows IH]; simpl; [reflexivity|].
  assert (Hq : q (if p x then f x else x) = q x)
    by (destruct (p x); [apply Hkeep|reflexivity]).
  rewrite Hq. destruct (q x); simpl; now rewrite IH.
Qed.

Lemma single_nodup_none {A K : Type} (key : A -> K) (p : A -> bool) (k : K)
    (rows : list A) :
  NoDup (map key rows) ->
  (forall x, In x rows -> p x = true -> key x = k) ->
  single (filter p rows) = None ->
  filter p rows = [].
Proof.
  intros Hnd Hk Hnone.
  pose proof (filter_nodup_length key p k rows Hnd Hk) as Hlen.
  destruct (filter p rows) as [|x [|y l]]; simpl in *;
    [reflexivity|discriminate Hnone|lia].
Qed.

Lemma existsb_filter_nil {A : Type} (p : A -> bool) (rows : list A) :
  filter p rows = [] -> existsb p rows = false.
Proof.
  induction rows as [|x rows IH]; simpl; [reflexivity|].
  destruct (p x); [discriminate|exact IH].
Qed.

Module SendRequestMore.
Import SendRequest SendRequestSpec.

(** A request that does not get past the first lines of the handler. *)
Lemma send_request_gate (e : env) (f : faults) (req : Http.request body)
    (w : world) :
  (exists user b, authenticated (get_user e) req user b)
  \/ (store (snd (run (handler e f req) w)) = store w
      /\ In (fst (run (handler e f req) w))
            [Http.preflight; Http.error 401 "Missing authorization header";
             Http.error 401 "Unauthorized";
             Http.error 500 "Internal server error"]).
Proof.
  unfold handler.
  destruct (Http.method req =? "OPTIONS")%string eqn:Hm;
    [right; split; [reflexivity|simpl; tauto]|].
  destruct (Http.authorization req) as [authHeader|] eqn:Ha;
    [|right; split; [reflexivity|simpl; tauto]].
  destruct (truthy_string authHeader) eqn:Hne; cbn [negb];
    [|right; split; [reflexivity|simpl; tauto]].
  destruct (get_user e authHeader) as [user|] eqn:Hu;
    [|right; split; [reflexivity|simpl; tauto]].
  destruct (Http.json req) as [b|] eqn:Hj;
    [|right; split; [reflexivity|simpl; tauto]].
  left. exists user, b. split; [now apply String.eqb_neq|].
  exists authHeader. split; [exact Ha|].
  split; [now apply truthy_string_true|]. auto.
Qed.

Lemma process_all_or_nothing (e : env) (f : faults) (user : uuid) (b : body)
    (d : db) (log : list string) :
  let out := run (process e f user b) (mkWorld d log) in
  (store (snd out) = d /\ Http.status (fst out) <> 201)
  \/ (exists c t,
        tutor_id b <> "" /\ message b <> "" /\ tutor_id b <> user
        /\ Uuid.uuid_in (tutor_id b) = Some t
        /\ balance d user = Some c /\ one_credit <= c
        /\ find_profile d t <> None
        /\ learning_requests (store (snd out))
           = (learning_requests d ++ [new_request e user b])%list
        /\ fst out
           = Http.mkResponse 201 (Http.SuccessRequest (new_request e user b))).
Proof.
  cbv zeta.
  destruct (run (process e f user b) (mkWorld d log)) as [resp w'] eqn:Hrun.
  unfold process in Hrun.
  destruct (truthy_string (tutor_id b)) eqn:Hid; exec_in Hrun;
    [|inversion Hrun; left; split; [reflexivity|discriminate]].
  destruct (truthy_string (message b)) eqn:Hmsg; exec_in Hrun;
    [|inversion Hrun; left; split; [reflexivity|discriminate]].
  destruct (tutor_id b =? user)%string eqn:Hself; exec_in Hrun;
    [inversion Hrun; left; split; [reflexivity|discriminate]|].
  destruct (fail_select_learner f); exec_in Hrun;
    [inversion Hrun; left; split; [reflexivity|discriminate]|].
  destruct (single (filter (col_eq Profile.user_id user) (profiles d)))
    as [lp|] eqn:Hlp; exec_in Hrun;
    [|inversion Hrun; left; split; [reflexivity|discriminate]].
  destruct (Profile.credits lp <? one_credit) eqn:Hc; exec_in Hrun;
    [inversion Hrun; left; split; [reflexivity|discriminate]|].
  destruct (fail_select_tutor f); exec_in Hrun;
    [inversion Hrun; left; split; [reflexivity|discriminate]|].
  destruct (single (filter (col_eq Profile.user_id (tutor_id b)) (profiles d)))
    as [tp|] eqn:Htp; exec_in Hrun;
    [|inversion Hrun; left; split; [reflexivity|discriminate]].
  destruct (fail_insert_request f); exec_in Hrun;
    [inversion Hrun; left; split; [reflexivity|discriminate]|].
  pose proof (find_profile_user_id d _ _ Htp) as Ht.
  right. exists (Profile.credits lp), (Profile.user_id tp).
  split; [now apply truthy_string_true|].
  split; [now apply truthy_string_true|].
  split; [now apply String.eqb_neq|].
  split; [exact Ht|].
  split; [unfold balance, find_profile; now rewrite Hlp|].
  split; [now apply Z.ltb_ge|].
  split.
  { unfold find_profile.
    rewrite <- (filter_col_eq_value Profile.user_id _ _ _ Ht), Htp.
    discriminate. }
  unfold new_request.
  crunch Hrun; inversion Hrun; subst resp w'; clear Hrun; exec;
    split; reflexivity.
Qed.


(** What a 201 of send-request leaves, for a tutor named by the text the
    store prints: the conversations still sorted and without duplicate
    pairs, and the request as a message in the conversation of the two. *)
Lemma process_delivers_message (e : env) (user t : uuid) (b : body) (d : db)
    (log : list string) :
  tutor_id b = t ->
  ordered_unique d ->
  let out := run (process e no_faults user b) (mkWorld d log) in
  Http.status (fst out) = 201 ->
  ordered_unique (store (snd out))
  /\ exists c,
       find_conversation (store (snd out)) user t = Some c
       /\ Conversation.last_message_at c = Some (now e)
       /\ (find_conversation d user t = None ->
           Conversation.id c = new_conversation_id e)
       /\ (forall c0, find_conversation d user t = Some c0 ->
           Conversation.id c = Conversation.id c0)
       /\ messages (store (snd out))
          = (messages d
             ++ [Message.mk (new_message_id e) (Conversation.id c) user
                   ("📚 Learning Request: " ++ message b)%string])%list.
Proof.
  intros Hb Hinv. pose proof Hinv as [_ Hnd]. cbv zeta. intros Hok.
  pose proof (ordered_unique_new_pair d) as Hnew.
  specialize Hnew with (a := user) (b := t).
  destruct (run (process e no_faults user b) (mkWorld d log))
    as [resp w'] eqn:Hrun.
  cbn [fst snd] in *.
  unfold process, no_faults in Hrun. exec_in Hrun.
  destruct (truthy_string (tutor_id b)); exec_in Hrun;
    [|inversion Hrun; subst resp; discriminate Hok].
  destruct (truthy_string (message b)); exec_in Hrun;
    [|inversion Hrun; subst resp; discriminate Hok].
  destruct (tutor_id b =? user)%string; exec_in Hrun;
    [inversion Hrun; subst resp; discriminate Hok|].
  destruct (single (filter (col_eq Profile.user_id user) (profiles d)))
    as [lp|]; exec_in Hrun;
    [|inversion Hrun; subst resp; discriminate Hok].
  destruct (Profile.credits lp <? one_credit); exec_in Hrun;
    [inversion Hrun; subst resp; discriminate Hok|].
  destruct (single (filter (col_eq Profile.user_id (tutor_id b)) (profiles d)));
    exec_in Hrun; [|inversion Hrun; subst resp; discriminate Hok].
  unfold find_conversation. rewrite Hb in Hrun.
  destruct (sortedIds_values user t) as (x & y & Exy & _ & _).
  rewrite Exy in *. cbn [fst snd] in *. rewrite !of_text_out in Hnew.
  assert (Hkeep : forall ts c,
            same_pair x y (Conversation.set_last_message_at ts c)
            = same_pair x y c) by reflexivity.
  destruct (single (filter (same_pair x y) (conversations d)))
    as [c0|] eqn:Hc0.
  - (* the conversation is there *)
    cbn [option_map truthy_opt_string] in Hrun.
    rewrite out_truthy in Hrun. exec_in Hrun.
    rewrite out_truthy, !of_text_out in Hrun. exec_in Hrun.
    inversion Hrun; subst resp w'; clear Hrun. exec.
    split.
    { apply (ordered_unique_same_pairs d); [|exact Hinv].
      cbn [conversations]. apply map_pair_of_touch. }
    exists (Conversation.set_last_message_at (now e) c0).
    rewrite filter_update_rows_kept by apply Hkeep.
    rewrite single_map, Hc0. cbn [option_map].
    rewrite col_eq_out, String.eqb_refl.
    split; [reflexivity|]. split; [reflexivity|].
    split; [discriminate|].
    split; [intros c1 H1; now inversion H1|reflexivity].
  - (* first contact: the conversation is created *)
    assert (Hnil : filter (same_pair x y) (conversations d) = []).
    { apply (single_nodup_none pair_of _ (x, y)); [exact Hnd| |exact Hc0].
      intros c _ Hc. now apply same_pair_out. }
    pose proof (existsb_filter_nil _ _ Hnil) as Hex.
    cbn [option_map truthy_opt_string] in Hrun. exec_in Hrun.
    cbn [Conversation.participant_1 Conversation.participant_2] in Hrun.
    rewrite !of_text_out, Hex in Hrun. exec_in Hrun.
    cbn [Conversation.id] in Hrun.
    rewrite out_truthy, !of_text_out in Hrun. exec_in Hrun.
    inversion Hrun; subst resp w'; clear Hrun. exec.
    split.
    { apply Hnew; [|exact Hex|exact Hinv].
      cbn [conversations with_conversations with_messages
           with_learning_requests].
      now rewrite map_pair_of_touch, map_app. }
    eexists.
    rewrite filter_update_rows_kept by apply Hkeep.
    rewrite filter_app, Hnil. cbn [app filter].
    assert (Hp : same_pair x y
                   (Conversation.mk (new_conversation_id e) x y
                      (Some (db_now e))) = true)
      by (now apply same_pair_out).
    rewrite Hp. cbn [map single].
    rewrite col_eq_out. cbn [Conversation.id]. rewrite String.eqb_refl.
    split; [reflexivity|]. split; [reflexivity|].
    split; [reflexivity|].
    split; [discriminate|reflexivity].
Qed.


(** X12.  A 201 leaves the request as a message in the conversation of the
    two users, when the body names the tutor by the text the store prints
    for their id.  In a store whose conversations are stored sorted and
    without duplicate pairs, when no store call fails and the call answers
    201, the conversation between caller and tutor exists afterwards (found,
    or else created under the id the store generates), its
    [last_message_at] is the time of the call, and [messages] has gained
    exactly one row: in that conversation, from the caller, reading
    "📚 Learning Request: " followed by the message of the body. *)
Theorem send_request_delivers_message (e : env) (req : Http.request body)
    (user t : uuid) (b : body) (d : db) (log : list string) :
  authenticated (get_user e) req user b ->
  tutor_id b = t ->
  ordered_unique d ->
  let out := run (handler e no_faults req) (mkWorld d log) in
  Http.status (fst out) = 201 ->
  exists c,
    find_conversation (store (snd out)) user t = Some c
    /\ Conversation.last_message_at c = Some (now e)
    /\ (find_conversation d user t = None ->
        Conversation.id c = new_conversation_id e)
    /\ (forall c0, find_conversation d user t = Some c0 ->
        Conversation.id c = Conversation.id c0)
    /\ messages (store (snd out))
       = (messages d
          ++ [Message.mk (new_message_id e) (Conversation.id c) user
                ("📚 Learning Request: " ++ message b)%string])%list.
Proof.
  intros Hauth Hb Hinv. cbv zeta.
  rewrite (send_request_authenticated _ _ _ _ _ Hauth).
  intros Hok.
  exact (proj2 (process_delivers_message e user t b d log Hb Hinv Hok)).
Qed.

(** alice writes to bob for the first time. *)
Lemma send_request_delivers_message_witness :
  let b := mkBody Sample.bob None "Guitar on Friday?" None in
  let out := run (handler Sample.send_env no_faults (Sample.post Sample.alice b))
                 (mkWorld Sample.store []) in
  Http.status (fst out) = 201
  /\ option_map Conversation.last_message_at
       (find_conversation (store (snd out)) Sample.alice Sample.bob)
     = Some (Some (now Sample.send_env))
  /\ List.length (messages (store (snd out))) = 1%nat.
Proof.
  cbv zeta.
  assert (Ha : authenticated (get_user Sample.send_env)
                 (Sample.post Sample.alice
                    (mkBody Sample.bob None "Guitar on Friday?" None))
                 Sample.alice
                 (mkBody Sample.bob None "Guitar on Friday?" None))
    by sample_call.
  assert (Hinv : ordered_unique Sample.store)
    by (split; [intros p []|constructor]).
  assert (Hok : Http.status
                  (fst (run (handler Sample.send_env no_faults
                               (Sample.post Sample.alice
                                  (mkBody Sample.bob None "Guitar on Friday?"
                                     None)))
                          (mkWorld Sample.store []))) = 201) by reflexivity.
  destruct (send_request_delivers_message Sample.send_env _ _ Sample.bob _
              Sample.store [] Ha eq_refl Hinv Hok)
    as (c & Hfind & Hts & _ & _ & Hmsg).
  split; [exact Hok|].
  rewrite Hfind, Hmsg. cbn [option_map]. rewrite Hts.
  split; reflexivity.
Defined.

(** X22.  Two users who name each other by the text the store prints for
    their ids share one conversation, whoever starts.  In a store whose
    conversations are stored sorted and without duplicate pairs, when [a]
    sends [b] a request and then [b] sends [a] one, both answered 201 and
    no store call failing, there is exactly one conversation row between
    the two afterwards, whichever way round it is looked for; it is the
    row that the handlers' lookup finds for either of them; the table is
    still sorted and without duplicate pairs; and [messages] has gained
    exactly the two requests, both in that conversation. *)
Theorem contact_in_turn_shares_conversation (e e' : env)
    (req req' : Http.request body) (a b : uuid) (ba bb : body) (d : db)
    (log : list string) :
  authenticated (get_user e) req a ba ->
  tutor_id ba = b ->
  authenticated (get_user e') req' b bb ->
  tutor_id bb = a ->
  ordered_unique d ->
  let first := run (handler e no_faults req) (mkWorld d log) in
  let second := run (handler e' no_faults req') (snd first) in
  Http.status (fst first) = 201 ->
  Http.status (fst second) = 201 ->
  exists c,
    conversations_between (store (snd second)) a b = [c]
    /\ conversations_between (store (snd second)) b a = [c]
    /\ find_conversation (store (snd second)) a b = Some c
    /\ find_conversation (store (snd second)) b a = Some c
    /\ ordered_unique (store (snd second))
    /\ messages (store (snd second))
       = (messages d
          ++ [Message.mk (new_message_id e) (Conversation.id c) a
                ("📚 Learning Request: " ++ message ba)%string;
              Message.mk (new_message_id e') (Conversation.id c) b
                ("📚 Learning Request: " ++ message bb)%string])%list.
Proof.
  intros Ha Hba Hb Hbb Hinv. cbv zeta.
  rewrite (send_request_authenticated _ _ _ _ _ Ha),
    (send_request_authenticated _ _ _ _ _ Hb).
  intros Hok1.
  destruct (process_delivers_message e a b ba d log Hba Hinv Hok1)
    as (Hinv1 & c1 & Hf1 & _ & _ & _ & Hm1).
  destruct (run (process e no_faults a ba) (mkWorld d log))
    as [r1 [d1 log1]].
  cbn [fst snd store] in *. intros Hok2.
  destruct (process_delivers_message e' b a bb d1 log1 Hbb Hinv1 Hok2)
    as (Hinv2 & c2 & Hf2 & _ & _ & Hsame & Hm2).
  rewrite find_conversation_comm in Hf1. specialize (Hsame c1 Hf1).
  destruct (run (process e' no_faults b bb) (mkWorld d1 log1))
    as [r2 [d2 log2]].
  cbn [fst snd store] in *.
  pose proof Hf2 as Hf2'. rewrite find_conversation_comm in Hf2'.
  exists c2.
  split; [now apply found_between|].
  split; [now apply found_between|].
  split; [exact Hf2'|]. split; [exact Hf2|]. split; [exact Hinv2|].
  now rewrite Hm2, Hm1, <- Hsame, <- app_assoc.
Qed.

(** alice asks bob, then bob asks alice. *)
Lemma contact_in_turn_shares_conversation_witness :
  let ba := mkBody Sample.bob None "Guitar on Friday?" None in
  let bb := mkBody Sample.alice None "Chess on Sunday?" None in
  let first := run (handler Sample.send_env no_faults
                      (Sample.post Sample.alice ba))
                   (mkWorld Sample.store []) in
  let second := run (handler Sample.send_env' no_faults
                       (Sample.post Sample.bob bb))
                    (snd first) in
  Http.status (fst first) = 201
  /\ Http.status (fst second) = 201
  /\ List.length (conversations_between (store (snd second)) Sample.alice
                    Sample.bob) = 1%nat
  /\ map Message.conversation_id (messages (store (snd second)))
     = [new_conversation_id Sample.send_env;
        new_conversation_id Sample.send_env].
Proof.
  cbv zeta.
  assert (Hinv : ordered_unique Sample.store)
    by (split; [intros p []|constructor]).
  assert (Hok1 : Http.status
                   (fst (run (handler Sample.send_env no_faults
                                (Sample.post Sample.alice
                                   (mkBody Sample.bob None
                                      "Guitar on Friday?" None)))
                           (mkWorld Sample.store []))) = 201)
    by reflexivity.
  assert (Hok2 : Http.status
                   (fst (run (handler Sample.send_env' no_faults
                                (Sample.post Sample.bob
                                   (mkBody Sample.alice None
                                      "Chess on Sunday?" None)))
                           (snd (run (handler Sample.send_env no_faults
                                        (Sample.post Sample.alice
                                           (mkBody Sample.bob None
                                              "Guitar on Friday?" None)))
                                   (mkWorld Sample.store []))))) = 201)
    by reflexivity.
  split; [exact Hok1|]. split; [exact Hok2|].
  destruct (contact_in_turn_shares_conversation Sample.send_env
              Sample.send_env'
              (Sample.post Sample.alice
                 (mkBody Sample.bob None "Guitar on Friday?" None))
              (Sample.post Sample.bob
                 (mkBody Sample.alice None "Chess on Sunday?" None))
              Sample.alice Sample.bob _ _ Sample.store []
              ltac:(sample_call) eq_refl ltac:(sample_call) eq_refl
              Hinv Hok1 Hok2)
    as (c & Hbetween & _ & _ & _ & _ & _).
  split; [now rewrite Hbetween|reflexivity].
Defined.
End SendRequestMore.

(** ** Across the three functions *)

Lemma forall_update_rows {A : Type} (P : A -> Prop) (q : A -> bool)
    (g : A -> A) (rows : list A) :
  (forall x, P x -> P (g x)) ->
  (forall x, In x rows -> P x) ->
  forall x, In x (update_rows q g rows) -> P x.
Proof.
  intros Hg Hrows x Hin. unfold update_rows in Hin.
  apply in_map_iff in Hin. destruct Hin as (y & <- & Hy).
  destruct (q y); [apply Hg|]; now apply Hrows.
Qed.

Lemma forall_snoc {A : Type} (P : A -> Prop) (rows : list A) (x : A) :
  P x ->
  (forall y, In y rows -> P y) ->
  forall y, In y (rows ++ [x])%list -> P y.
Proof.
  intros Hx Hrows y Hin. apply in_app_or in Hin.
  destruct Hin as [Hin|[<-|[]]]; [now apply Hrows|exact Hx].
Qed.

Lemma single_filter_snoc_fresh {A : Type} (column : A -> uuid) (text : string)
    (v : uuid) (rows : list A) (x : A) :
  Uuid.uuid_in text = Some v ->
  ~ In v (map column rows) ->
  column x = v ->
  single (filter (col_eq column text) (rows ++ [x])%list) = Some x.
Proof.
  intros Hv Hfresh Hx. rewrite filter_app.
  assert (Hnil : filter (col_eq column text) rows = []).
  { induction rows as [|y rows IH]; [reflexivity|].
    cbn [filter]. destruct (col_eq column text y) eqn:E.
    - apply col_eq_true in E. exfalso. apply Hfresh. left. congruence.
    - apply IH. intros Hin. apply Hfresh. right. exact Hin. }
  rewrite Hnil. cbn [app filter].
  assert (E : col_eq column text x = true)
    by (apply col_eq_true; congruence).
  now rewrite E.
Qed.

Lemma uuid_in_not_empty (text : string) (v : uuid) :
  Uuid.uuid_in text = Some v -> text <> "".
Proof. intros H E. subst text. discriminate H. Qed.

Module Lifecycle.

Ltac parties :=
  repeat first
    [ assumption
    | apply forall_update_rows; [intros ? H; exact H|]
    | apply forall_snoc ].

Lemma send_request_keeps_distinct (e : SendRequest.env)
    (f : SendRequest.faults) (user : uuid) (b : SendRequest.body) (d : db)
    (log : list string) :
  Uuid.uuid_in (SendRequest.tutor_id b) <> Some user ->
  distinct_parties d ->
  distinct_parties
    (store (snd (run (SendRequest.process e f user b) (mkWorld d log)))).
Proof.
  intros Hother [Hr Hs].
  destruct (run (SendRequest.process e f user b) (mkWorld d log))
    as [resp w'] eqn:Hrun.
  unfold SendRequest.process in Hrun.
  crunch Hrun; inversion Hrun; subst resp w'; clear Hrun; exec;
    (split; cbn [learning_requests sessions]; parties);
    cbn [LearningRequest.tutor_id LearningRequest.learner_id];
    match goal with
    | H : (if ?c then None else _) = Some _ |- _ =>
        destruct c; [discriminate H|];
        apply single_filter_holds in H; destruct H as [H _];
        apply col_eq_true in H; rewrite (of_text_in _ _ H);
        intros E; apply Hother; now rewrite H, E
    end.
Qed.

Lemma accept_request_keeps_distinct (e : AcceptRequest.env)
    (f : AcceptRequest.faults) (user : uuid) (b : AcceptRequest.body) (d : db)
    (log : list string) :
  distinct_parties d ->
  distinct_parties
    (store (snd (run (AcceptRequest.process e f user b) (mkWorld d log)))).
Proof.
  intros [Hr Hs].
  destruct (run (AcceptRequest.process e f user b) (mkWorld d log))
    as [resp w'] eqn:Hrun.
  unfold AcceptRequest.process in Hrun.
  crunch Hrun; inversion Hrun; subst resp w'; clear Hrun; exec;
    (split; cbn [learning_requests sessions]; parties);
    cbn [Session.tutor_id Session.learner_id];
    match goal with
    | H : single (filter _ (learning_requests d)) = Some ?r |- _ =>
        apply single_filter_holds in H; destruct H as [_ H]; exact (Hr _ H)
    end.
Qed.

Lemma complete_session_keeps_distinct (e : CompleteSession.env)
    (f : CompleteSession.faults) (user : uuid) (b : CompleteSession.body)
    (d : db) (log : list string) :
  distinct_parties d ->
  distinct_parties
    (store (snd (run (CompleteSession.process e f user b) (mkWorld d log)))).
Proof.
  intros [Hr Hs].
  destruct (run (CompleteSession.process e f user b) (mkWorld d log))
    as [resp w'] eqn:Hrun.
  unfold CompleteSession.process in Hrun.
  crunch Hrun; inversion Hrun; subst resp w'; clear Hrun; exec;
    (split; cbn [learning_requests sessions]; parties).
Qed.

(** X13.  Who can become their own tutor.  If no learning request and no
    session of the store has one user as both tutor and learner, the same
    holds after any call of accept-request or complete-session, whatever
    the request and whichever store calls fail: the first copies the two
    parties from the request, the second rewrites neither.  It holds after
    a call of send-request too, unless the text of the body denotes the
    caller's own id. *)
Theorem handlers_keep_parties_distinct (d : db) (log : list string) :
  distinct_parties d ->
  (forall e f req,
     (forall user b,
        authenticated (SendRequest.get_user e) req user b ->
        Uuid.uuid_in (SendRequest.tutor_id b) <> Some user) ->
     distinct_parties
       (store (snd (run (SendRequest.handler e f req) (mkWorld d log)))))
  /\ (forall e f req,
        distinct_parties
          (store (snd (run (AcceptRequest.handler e f req) (mkWorld d log)))))
  /\ (forall e f req,
        distinct_parties
          (store (snd (run (CompleteSession.handler e f req)
                         (mkWorld d log))))).
Proof.
  intros Hinv. split; [|split]; intros e f req.
  - intros Hother.
    destruct (SendRequestMore.send_request_gate e f req (mkWorld d log))
      as [(user & b & Hauth)|[Hsame _]]; [|now rewrite Hsame].
    rewrite (SendRequestSpec.send_request_authenticated _ _ _ _ _ Hauth).
    apply send_request_keeps_distinct; [now apply Hother|exact Hinv].
  - destruct (AcceptRequestMore.accept_request_gate e f req (mkWorld d log))
      as [(user & b & Hauth)|[Hsame _]]; [|now rewrite Hsame].
    rewrite (AcceptRequestSpec.accept_request_authenticated _ _ _ _ _ Hauth).
    now apply accept_request_keeps_distinct.
  - destruct (CompleteSessionMore.complete_session_gate e f req
                (mkWorld d log))
      as [(user & b & Hauth)|[Hsame _]]; [|now rewrite Hsame].
    rewrite (CompleteSessionSpec.complete_session_authenticated _ _ _ _ _
               Hauth).
    now apply complete_session_keeps_distinct.
Qed.

(** In the sample store alice is her own tutor in one session; without that
    session the invariant holds, and it still does after alice's request to
    bob. *)
Lemma handlers_keep_parties_distinct_witness :
  let d := with_sessions
             (filter (fun s => negb (col_eq Session.id Sample.self_session s)))
             Sample.store in
  distinct_parties d
  /\ distinct_parties
       (store (snd (run (SendRequest.handler Sample.send_env
                           SendRequest.no_faults
                           (Sample.post Sample.alice
                              (SendRequest.mkBody Sample.bob None "Guitar?"
                                 None)))
                        (mkWorld d [])))).
Proof.
  cbv zeta.
  assert (Hinv : distinct_parties
                   (with_sessions
                      (filter (fun s => negb (col_eq Session.id
                                                Sample.self_session s)))
                      Sample.store)).
  { split; intros x Hin; vm_compute in Hin;
      repeat (destruct Hin as [<-|Hin]; [vm_compute; discriminate|]);
      destruct Hin. }
  split; [exact Hinv|].
  destruct (handlers_keep_parties_distinct _ [] Hinv) as [H _].
  apply H. intros user b [_ (h & Ha & _ & Hu & Hj)].
  injection Ha as <-. injection Hj as <-.
  vm_compute in Hu. injection Hu as <-. vm_compute. discriminate.
Defined.

Lemma send_request_keeps_sessions (e : SendRequest.env)
    (f : SendRequest.faults) (user : uuid) (b : SendRequest.body) :
  keeps sessions (SendRequest.process e f user b).
Proof.
  unfold SendRequest.process, insert_conversation, insert_message,
    touch_conversation.
  repeat first
    [ apply keeps_reply | apply keeps_ret | apply keeps_console_log
    | apply keeps_console_error | apply keeps_select_single
    | apply keeps_write; reflexivity
    | apply keeps_insert_returning; reflexivity
    | apply keeps_bind; [|intros ?]
    | match goal with
      | |- keeps _ (if ?c then _ else _) => destruct c
      | |- keeps _ (match ?c with Some _ => _ | None => _ end) => destruct c
      | |- keeps _ (fun w => insert_returning _ _ _ w) =>
          intros w; apply (keeps_insert_returning sessions); reflexivity
      end ].
Qed.

(** The session accept-request inserts for request [r]. *)
Lemma accept_request_effect (e : AcceptRequest.env) (user : uuid)
    (b : AcceptRequest.body) (d : db) (log : list string)
    (r : LearningRequest.t) :
  AcceptRequest.request_id b <> "" ->
  AcceptRequest.scheduled_at b <> "" ->
  find_request d (AcceptRequest.request_id b) = Some r ->
  LearningRequest.tutor_id r = user ->
  LearningRequest.status r = LearningRequest.pending ->
  let out := run (AcceptRequest.process e AcceptRequest.no_faults user b)
                 (mkWorld d log) in
  Http.status (fst out) = 201
  /\ profiles (store (snd out)) = profiles d
  /\ exists s,
       sessions (store (snd out)) = (sessions d ++ [s])%list
       /\ Session.id s = AcceptRequest.new_session_id e
       /\ Session.tutor_id s = LearningRequest.tutor_id r
       /\ Session.learner_id s = LearningRequest.learner_id r
       /\ Session.status s = Session.scheduled
       /\ Session.is_ai_session s = Some false.
Proof.
  intros Hid Hat Hr Hu Hst. cbv zeta.
  apply truthy_string_true in Hid, Hat. unfold find_request in Hr.
  apply uuid_eqb_eq in Hu.
  destruct (run (AcceptRequest.process e AcceptRequest.no_faults user b)
              (mkWorld d log)) as [resp w'] eqn:Hrun.
  unfold AcceptRequest.process, AcceptRequest.no_faults in Hrun.
  rewrite Hid, Hat in Hrun. exec_in Hrun.
  rewrite Hr, Hu, Hst in Hrun. exec_in Hrun.
  crunch Hrun; inversion Hrun; subst resp w'; clear Hrun; exec;
    (split; [reflexivity|]; split; [reflexivity|];
     eexists; split; [reflexivity|]; repeat split).
Qed.

(** X14.  A request that goes through the three functions moves exactly one
    credit from its learner to its tutor.  When send-request answers 201 to
    the learner for a body that names another user as tutor, that user then
    accepts the request it created, and either of the two then completes
    the session that acceptance created (no store call failing, the
    generated ids being new, the ids named in whatever spelling), both
    later calls succeed, the learner ends with one credit less and the tutor
    with one credit more than before the request was sent.  Nothing beyond
    the 201 has to be assumed about balances and profiles: send-request has
    checked that the tutor has a profile and that the learner holds a credit,
    and neither it nor accept-request moves any. *)
Theorem request_lifecycle_moves_one_credit
    (es : SendRequest.env) (ea : AcceptRequest.env) (ec : CompleteSession.env)
    (send : Http.request SendRequest.body)
    (accept : Http.request AcceptRequest.body)
    (complete : Http.request CompleteSession.body)
    (learner tutor caller : uuid)
    (bs : SendRequest.body) (ba : AcceptRequest.body)
    (bc : CompleteSession.body) (d : db) (log : list string) :
  authenticated (SendRequest.get_user es) send learner bs ->
  Uuid.uuid_in (SendRequest.tutor_id bs) = Some tutor ->
  tutor <> learner ->
  authenticated (AcceptRequest.get_user ea) accept tutor ba ->
  Uuid.uuid_in (AcceptRequest.request_id ba)
  = Some (SendRequest.new_request_id es) ->
  AcceptRequest.scheduled_at ba <> "" ->
  authenticated (CompleteSession.get_user ec) complete caller bc ->
  caller = learner \/ caller = tutor ->
  Uuid.uuid_in (CompleteSession.session_id bc)
  = Some (AcceptRequest.new_session_id ea) ->
  ~ In (SendRequest.new_request_id es)
       (map LearningRequest.id (learning_requests d)) ->
  ~ In (AcceptRequest.new_session_id ea) (map Session.id (sessions d)) ->
  let sent := run (SendRequest.handler es SendRequest.no_faults send)
                  (mkWorld d log) in
  let accepted := run (AcceptRequest.handler ea AcceptRequest.no_faults accept)
                      (snd sent) in
  let completed :=
    run (CompleteSession.handler ec CompleteSession.no_faults complete)
        (snd accepted) in
  Http.status (fst sent) = 201 ->
  Http.status (fst accepted) = 201
  /\ fst completed = completed_response
  /\ exists cl ct,
       balance d learner = Some cl
       /\ balance d tutor = Some ct
       /\ balance (store (snd completed)) learner = Some (cl - one_credit)
       /\ balance (store (snd completed)) tutor = Some (ct + one_credit).
Proof.
  intros Hs Htutor Hdiff Ha Hrid Hat Hc Hcaller Hsid Hfr Hfs.
  cbv zeta.
  rewrite (SendRequestSpec.send_request_authenticated _ _ _ _ _ Hs),
    (AcceptRequestSpec.accept_request_authenticated _ _ _ _ _ Ha),
    (CompleteSessionSpec.complete_session_authenticated _ _ _ _ _ Hc).
  intros Hok.
  (* send-request *)
  pose proof (keeps_run _ _ (mkWorld d log)
                (SendRequestSpec.process_keeps_profiles es
                   SendRequest.no_faults learner bs)) as Hp1.
  pose proof (keeps_run _ _ (mkWorld d log)
                (send_request_keeps_sessions es SendRequest.no_faults
                   learner bs)) as Hs1.
  destruct (SendRequestMore.process_all_or_nothing es SendRequest.no_faults
              learner bs d log)
    as [[_ Hno]|(cl & t & _ & _ & _ & Ht & Hbl & Hcl & Htp & Hreqs & _)];
    [contradiction|].
  assert (t = tutor) by congruence. subst t.
  destruct (run (SendRequest.process es SendRequest.no_faults learner bs)
              (mkWorld d log)) as [resp1 [d1 log1]].
  cbn [fst snd store] in *. clear Hok resp1.
  (* accept-request *)
  assert (Hr : find_request d1 (AcceptRequest.request_id ba)
               = Some (new_request es learner bs)).
  { unfold find_request. rewrite Hreqs.
    now apply (single_filter_snoc_fresh _ _ _ _ _ Hrid). }
  destruct (accept_request_effect ea tutor ba d1 log1 _
              (uuid_in_not_empty _ _ Hrid) Hat Hr (of_text_in _ _ Ht) eq_refl)
    as (Hok2 & Hp2 & s & Hs2 & Hsi & Hst & Hsl & Hss & Hai).
  destruct (run (AcceptRequest.process ea AcceptRequest.no_faults tutor ba)
              (mkWorld d1 log1)) as [resp2 [d2 log2]].
  cbn [fst snd store] in *.
  split; [exact Hok2|]. clear Hok2 resp2.
  cbn [LearningRequest.tutor_id LearningRequest.learner_id new_request]
    in Hst, Hsl.
  rewrite (of_text_in _ _ Ht) in Hst.
  (* complete-session *)
  assert (Hfind : find_session d2 (CompleteSession.session_id bc) = Some s).
  { unfold find_session. rewrite Hs2, Hs1.
    now apply (single_filter_snoc_fresh _ _ _ _ _ Hsid). }
  assert (Hcost : cost s = one_credit) by (unfold cost; now rewrite Hai).
  assert (Hbal2 : forall u, balance d2 u = balance d u).
  { intros u. unfold balance, find_profile. now rewrite Hp2, Hp1. }
  assert (Htb : exists ct, balance d tutor = Some ct).
  { unfold balance. destruct (find_profile d tutor) as [tp|];
      [now exists (Profile.credits tp)|contradiction]. }
  destruct Htb as [ct Htb].
  destruct (CompleteSessionSpec.process_effect ec caller bc d2 log2 s cl)
    as (w3 & Hrun3 & _ & Hbal3 & _).
  - exact (uuid_in_not_empty _ _ Hsid).
  - exact Hfind.
  - unfold participant. rewrite Hst, Hsl.
    destruct Hcaller as [->| ->]; [right|left]; reflexivity.
  - rewrite Hss. discriminate.
  - rewrite Hsl, Hbal2. exact Hbl.
  - rewrite Hcost. exact Hcl.
  - rewrite Hrun3. cbn [fst snd].
    split; [reflexivity|].
    exists cl, ct. split; [exact Hbl|]. split; [exact Htb|].
    rewrite !Hbal3, !Hbal2, Hbl, Htb. unfold debit, credit.
    rewrite Hcost, Hai, Hst, Hsl, !String.eqb_refl.
    apply uuid_eqb_neq in Hdiff. rewrite Hdiff.
    rewrite String.eqb_sym, Hdiff. cbn.
    split; f_equal; lia.
Qed.

(** alice asks bob, naming him in upper case; bob accepts; alice
    completes. *)
Lemma request_lifecycle_moves_one_credit_witness :
  let bs := SendRequest.mkBody "22222222-BBBB-4BBB-8BBB-000000000002" None
              "Guitar on Friday?" None in
  let ba := AcceptRequest.mkBody
              (SendRequest.new_request_id Sample.send_env)
              "2026-03-05T18:00:00Z" None in
  let bc := CompleteSession.mkBody
              (AcceptRequest.new_session_id Sample.accept_env) None None in
  let sent := run (SendRequest.handler Sample.send_env SendRequest.no_faults
                     (Sample.post Sample.alice bs))
                  (mkWorld Sample.store []) in
  let accepted := run (AcceptRequest.handler Sample.accept_env
                         AcceptRequest.no_faults (Sample.post Sample.bob ba))
                      (snd sent) in
  let completed := run (CompleteSession.handler Sample.complete_env
                          CompleteSession.no_faults
                          (Sample.post Sample.alice bc))
                       (snd accepted) in
  Http.status (fst sent) = 201
  /\ Http.status (fst accepted) = 201
  /\ fst completed = completed_response
  /\ balance (store (snd completed)) Sample.alice = Some 200
  /\ balance (store (snd completed)) Sample.bob = Some 200.
Proof.
  cbv zeta.
  assert (Hok : Http.status
                  (fst (run (SendRequest.handler Sample.send_env
                               SendRequest.no_faults
                               (Sample.post Sample.alice
                                  (SendRequest.mkBody
                                     "22222222-BBBB-4BBB-8BBB-000000000002"
                                     None "Guitar on Friday?" None)))
                          (mkWorld Sample.store []))) = 201) by reflexivity.
  split; [exact Hok|].
  destruct (request_lifecycle_moves_one_credit
              Sample.send_env Sample.accept_env Sample.complete_env
              (Sample.post Sample.alice
                 (SendRequest.mkBody "22222222-BBBB-4BBB-8BBB-000000000002"
                    None "Guitar on Friday?" None))
              (Sample.post Sample.bob
                 (AcceptRequest.mkBody
                    (SendRequest.new_request_id Sample.send_env)
                    "2026-03-05T18:00:00Z" None))
              (Sample.post Sample.alice
                 (CompleteSession.mkBody
                    (AcceptRequest.new_session_id Sample.accept_env)
                    None None))
              Sample.alice Sample.bob Sample.alice _ _ _ Sample.store []
              ltac:(sample_call) eq_refl ltac:(discriminate)
              ltac:(sample_call) eq_refl
              ltac:(discriminate) ltac:(sample_call) (or_introl eq_refl)
              eq_refl
              ltac:(vm_compute; intuition discriminate)
              ltac:(vm_compute; intuition discriminate)
              Hok)
    as (H2 & H3 & cl & ct & Hcl & Hct & Hl & Ht).
  split; [exact H2|]. split; [exact H3|].
  vm_compute in Hcl, Hct.
  injection Hcl as <-. injection Hct as <-.
  split; [exact Hl|exact Ht].
Defined.
End Lifecycle.

(** ** The tutor's page *)

Module TutorProfilePageSpec.
Import TutorProfilePage.

(** The view policy hides no row of the pair the page looks up: the user is
    one of the two. *)
Lemma view_policy_shows_pair (u t x y : uuid) (rows : list Conversation.t) :
  (x, y) = (u, t) \/ (x, y) = (t, u) ->
  filter (fun c => Policy.view_conversation u c && same_pair x y c) rows
  = filter (same_pair x y) rows.
Proof.
  intros Hxy. apply filter_ext. intros c.
  destruct (same_pair x y c) eqn:E; [|apply andb_false_r].
  rewrite andb_true_r. apply same_pair_out in E.
  unfold Policy.view_conversation, pair_of in *.
  destruct Hxy as [H|H]; inversion H; subst; inversion E;
    rewrite String.eqb_refl; [reflexivity|apply orb_true_r].
Qed.

(** The create policy lets the row of the page through. *)
Lemma create_policy_allows_pair (u t x y id : uuid)
    (ts : option timestamptz) :
  (x, y) = (u, t) \/ (x, y) = (t, u) ->
  Policy.create_conversation u (Conversation.mk id x y ts) = true.
Proof.
  intros Hxy. unfold Policy.create_conversation.
  cbn [Conversation.participant_1 Conversation.participant_2].
  destruct Hxy as [H|H]; inversion H; subst;
    rewrite String.eqb_refl; [reflexivity|apply orb_true_r].
Qed.

(** X15.  "Message" on a tutor's page finds or creates the one conversation
    the edge functions post into.  For a signed-in user on a tutor's page,
    in a store whose conversations are sorted and free of duplicate pairs:
    the store stays so, whichever store calls fail; when the conversation
    send-request and accept-request look up exists, nothing is written at
    all; when it does not and no call fails, exactly its row is appended and
    is what that lookup finds from then on.  The row-level policies never
    get in the way: the user is one of the two participants. *)
Theorem start_conversation_finds_or_creates (e : env) (f : faults)
    (t u : uuid) (d : db) (log : list string) :
  ordered_unique d ->
  let out := handleStartConversation e f (Some t) (Some u) (mkWorld d log) in
  let row := Conversation.mk (new_conversation_id e)
               (Uuid.of_text (fst (sortedIds u t)))
               (Uuid.of_text (snd (sortedIds u t))) (Some (db_now e)) in
  fst out = Next (Some "/messages")
  /\ ordered_unique (store (snd out))
  /\ (find_conversation d u t <> None -> snd out = mkWorld d log)
  /\ (find_conversation d u t = None -> f = no_faults ->
      store (snd out) = with_conversations (fun rows => (rows ++ [row])%list) d
      /\ find_conversation (store (snd out)) u t = Some row).
Proof.
  intros Hinv. cbv zeta.
  pose proof (ordered_unique_new_pair d) as Hnew0.
  specialize Hnew0 with (a := u) (b := t).
  destruct (sortedIds_values u t) as (p1 & p2 & E & Hcase & _).
  unfold handleStartConversation, find_conversation.
  rewrite E in *. cbn [fst snd] in *. rewrite !of_text_out in *.
  unfold bind, select_single, insert_conversation, insert_returning, ret.
  cbv zeta. cbn [store console conversations].
  rewrite (view_policy_shows_pair u t p1 p2 _ Hcase),
    (create_policy_allows_pair u t p1 p2 _ _ Hcase).
  cbn [negb orb Conversation.participant_1 Conversation.participant_2].
  rewrite orb_false_r.
  destruct (single (filter (same_pair p1 p2) (conversations d)))
    as [c|] eqn:Hc.
  - (* the conversation exists *)
    pose proof (found_exists _ _ _ Hc) as Hex.
    destruct (fail_select_conversation f); cbv beta;
      cbn [store console conversations]; rewrite ?Hex, ?orb_true_r;
      cbn [fst snd store];
      (split; [reflexivity|]; split; [exact Hinv|];
       split; [reflexivity|intros H; discriminate H]).
  - (* it does not *)
    assert (Hnil : filter (same_pair p1 p2) (conversations d) = []).
    { destruct Hinv as [_ Hnd].
      apply (single_nodup_none pair_of _ (p1, p2)); [exact Hnd| |exact Hc].
      intros x _ Hx. now apply same_pair_out. }
    pose proof (existsb_filter_nil _ _ Hnil) as Hex.
    assert (Hnew : forall d',
              conversations d'
              = (conversations d
                 ++ [Conversation.mk (new_conversation_id e) p1 p2
                       (Some (db_now e))])%list ->
              ordered_unique d').
    { intros d' Hd'.
      apply (Hnew0 d'); [|exact Hex|exact Hinv].
      rewrite Hd', map_app. reflexivity. }
    assert (Hfound : single
                       (filter (same_pair p1 p2)
                          (conversations d
                           ++ [Conversation.mk (new_conversation_id e) p1 p2
                                 (Some (db_now e))])%list)
                     = Some (Conversation.mk (new_conversation_id e) p1 p2
                               (Some (db_now e)))).
    { rewrite filter_app, Hnil. cbn [app filter].
      assert (Hp : same_pair p1 p2
                     (Conversation.mk (new_conversation_id e) p1 p2
                        (Some (db_now e))) = true)
        by (now apply same_pair_out).
      now rewrite Hp. }
    destruct (fail_select_conversation f) eqn:Hf1,
             (fail_insert_conversation f) eqn:Hf2;
      cbv beta; cbn [store console conversations]; rewrite ?Hex;
      cbn [fst snd store orb];
      (split; [reflexivity|]);
      (split; [first [exact Hinv|apply Hnew; reflexivity]|]);
      (split; [intros H; now contradiction H|]);
      intros _ Hf; subst f; try discriminate Hf1; try discriminate Hf2.
    split; [reflexivity|exact Hfound].
Qed.

(** carol opens bob's page and presses "Message" twice. *)
Lemma start_conversation_finds_or_creates_witness :
  let e := mkEnv "2026-03-01T09:00:00.100Z"
                 (Uuid.of_text "cccccccc-0000-4000-8000-000000000021") in
  let first := handleStartConversation e no_faults (Some Sample.bob)
                 (Some Sample.carol) (mkWorld Sample.store []) in
  let second := handleStartConversation e no_faults (Some Sample.bob)
                  (Some Sample.carol) (snd first) in
  List.length (conversations (store (snd first))) = 1%nat
  /\ snd second = snd first.
Proof.
  cbv zeta.
  assert (Hinv : ordered_unique Sample.store)
    by (split; [intros p []|constructor]).
  destruct (start_conversation_finds_or_creates
              (mkEnv "2026-03-01T09:00:00.100Z"
                     (Uuid.of_text "cccccccc-0000-4000-8000-000000000021"))
              no_faults Sample.bob Sample.carol Sample.store [] Hinv)
    as (_ & Hinv1 & _ & Hcreate).
  destruct (Hcreate eq_refl eq_refl) as [Hstore Hfind].
  split; [now rewrite Hstore|].
  destruct (handleStartConversation _ no_faults (Some Sample.bob)
              (Some Sample.carol) (mkWorld Sample.store []))
    as [r1 [d1 log1]] eqn:Hrun.
  cbn [fst snd store] in *.
  destruct (start_conversation_finds_or_creates
              (mkEnv "2026-03-01T09:00:00.100Z"
                     (Uuid.of_text "cccccccc-0000-4000-8000-000000000021"))
              no_faults Sample.bob Sample.carol d1 log1 Hinv1)
    as (_ & _ & Hsame & _).
  apply Hsame. rewrite Hfind. discriminate.
Defined.


End TutorProfilePageSpec.


(** ** The messages page *)

Lemma update_rows_never {A : Type} (p : A -> bool) (f : A -> A)
    (rows : list A) :
  (forall x, p x = false) -> update_rows p f rows = rows.
Proof.
  intros Hp. unfold update_rows. rewrite <- (map_id rows) at 2.
  apply map_ext. intros x. now rewrite Hp.
Qed.

Module UseMessagesSpec.
Import UseMessages.

(** X17.  Opening a conversation marks nothing as read.  The update that
    ends [fetchMessages] asks for the rows other users sent, and the only
    update policy on [messages] lets a user reach the rows they sent
    themselves: no row is both, so the table is left as it was, whatever
    it holds, and the unread count [fetchConversations] shows for any
    conversation is what it was before. *)
Theorem mark_as_read_marks_nothing (ts : timestamptz)
    (conversationId user : option uuid) (convs : list Conversation.t)
    (rows : list row) :
  markAsRead ts conversationId user convs rows = rows
  /\ forall user_id convo_id,
       unreadCount user_id convs convo_id
         (markAsRead ts conversationId user convs rows)
       = unreadCount user_id convs convo_id rows.
Proof.
  assert (H : markAsRead ts conversationId user convs rows = rows).
  { unfold markAsRead.
    destruct conversationId as [cid|], user as [uid|]; try reflexivity.
    destruct (negb (truthy_string cid)); [reflexivity|].
    apply update_rows_never. intros r.
    unfold MessagePolicy.update_message. rewrite !col_eq_out.
    rewrite (String.eqb_sym uid).
    destruct (Message.sender_id (message r) =? uid)%string; cbn [negb andb];
      [now rewrite andb_false_r|reflexivity]. }
  split; [exact H|]. intros user_id convo_id. now rewrite H.
Qed.

Lemma send_message_touch_keeps_keys (uid cid : uuid) (ts : timestamptz)
    (rows : list Conversation.t) :
  map row_key
    (update_rows (fun c => MessagePolicy.update_conversation uid c
                           && col_eq Conversation.id cid c)
       (Conversation.set_last_message_at ts) rows)
  = map row_key rows.
Proof. apply map_row_key_touch. Qed.

(** X18.  [sendMessage] posts only into a conversation of the user.  When
    it reports success, a conversation with the given id has the user as a
    participant, [messages] has gained exactly the trimmed text from the
    user in that conversation, and the conversations have kept their ids
    and pairs; when it does not, the store is exactly as it was.  In no case
    is a profile, request, session or ledger row touched.  A participant's
    non-empty message to an existing conversation, no store call failing,
    does succeed, and the update of [last_message_at] that follows is not
    stopped by the update policy. *)
Theorem send_message_only_by_participants (e : env) (f : faults)
    (cid uid : uuid) (content : string) (d : db) (log : list string) :
  let out := sendMessage e f (Some cid) (Some uid) content (mkWorld d log) in
  let d' := store (snd out) in
  (fst out = Next (Some true) ->
   (exists c, In c (conversations d) /\ Conversation.id c = cid
              /\ Policy.view_conversation uid c = true)
   /\ messages d'
      = (messages d
         ++ [Message.mk (new_message_id e) cid uid (trim e content)])%list
   /\ map row_key (conversations d') = map row_key (conversations d))
  /\ (fst out <> Next (Some true) -> d' = d)
  /\ (profiles d' = profiles d
      /\ learning_requests d' = learning_requests d
      /\ sessions d' = sessions d
      /\ credit_transactions d' = credit_transactions d)
  /\ (forall c,
        In c (conversations d) -> Conversation.id c = cid ->
        Policy.view_conversation uid c = true ->
        (cid : string) <> "" -> trim e content <> "" -> f = no_faults ->
        fst out = Next (Some true)
        /\ In (Conversation.set_last_message_at (now e) c)
              (conversations d')).
Proof.
  cbv zeta. unfold sendMessage.
  destruct (truthy_string cid) eqn:Hcid; cbn [negb orb];
    [|cbn [fst snd store];
      split; [intros H; discriminate H|]; split; [reflexivity|];
      split; [repeat split|];
      intros c _ _ _ Hne; apply truthy_string_false in Hcid; contradiction].
  destruct (truthy_string (trim e content)) eqn:Htrim; cbn [negb];
    [|cbn [fst snd store];
      split; [intros H; discriminate H|]; split; [reflexivity|];
      split; [repeat split|];
      intros c _ _ _ _ Hne; apply truthy_string_false in Htrim;
      contradiction].
  unfold bind, insert_message, write, ret.
  cbn [store console conversations].
  unfold MessagePolicy.send_message.
  cbn [Message.sender_id Message.conversation_id].
  rewrite String.eqb_refl, andb_true_l.
  destruct (MessagePolicy.in_conversation uid (conversations d) cid) eqn:Hin.
  - (* the user is in the conversation *)
    cbn [negb]. rewrite orb_false_r.
    assert (Hc : exists c, In c (conversations d) /\ Conversation.id c = cid
                           /\ Policy.view_conversation uid c = true).
    { unfold MessagePolicy.in_conversation in Hin.
      apply existsb_exists in Hin. destruct Hin as (c & Hc & Hp).
      apply andb_true_iff in Hp. destruct Hp as [Hid Hp].
      exists c. split; [exact Hc|]. split; [now apply uuid_eqb_eq|exact Hp]. }
    destruct (fail_insert_message f) eqn:Hf1; cbn [negb fst snd store].
    + split; [intros H; discriminate H|].
      split; [reflexivity|]. split; [repeat split|].
      intros c _ _ _ _ _ Hf. subst f. discriminate Hf1.
    + destruct (fail_update_conversation f) eqn:Hf2;
        cbn [fst snd store messages conversations with_messages
             with_conversations profiles learning_requests sessions
             credit_transactions].
      * split; [intros _; split; [exact Hc|split; reflexivity]|].
        split; [intros H; now contradiction H|]. split; [repeat split|].
        intros c _ _ _ _ _ Hf. subst f. discriminate Hf2.
      * split;
          [intros _; split; [exact Hc|];
           split; [reflexivity|apply send_message_touch_keeps_keys]|].
        split; [intros H; now contradiction H|]. split; [repeat split|].
        intros c Hcin Hid Hview _ _ _. split; [reflexivity|].
        unfold update_rows. apply in_map_iff. exists c.
        split; [|exact Hcin].
        unfold MessagePolicy.update_conversation. rewrite col_eq_out.
        unfold Policy.view_conversation in Hview.
        apply uuid_eqb_eq in Hid. now rewrite Hview, Hid.
  - (* the policy refuses the insert *)
    cbn [negb]. rewrite orb_true_r. cbn [negb fst snd store].
    split; [intros H; discriminate H|].
    split; [reflexivity|]. split; [repeat split|].
    intros c Hcin Hid Hview _ _ _. exfalso.
    assert (Htrue : MessagePolicy.in_conversation uid (conversations d) cid
                    = true).
    { unfold MessagePolicy.in_conversation. apply existsb_exists.
      exists c. split; [exact Hcin|].
      apply uuid_eqb_eq in Hid. unfold Policy.view_conversation in Hview.
      now rewrite Hid, Hview. }
    rewrite Htrue in Hin. discriminate Hin.
Qed.
End UseMessagesSpec.


(** ** Writes whose failure nobody hears of *)

Module SilentFailures.

(** X19.  A tutor who is not paid is not told, and neither is anyone else.
    For a human session between two different users, when the call has
    debited the learner and then the lookup of the tutor's profile or the
    write that credits it fails, the call still answers the success
    response; the console holds the two lines of a run without incident and
    no error; the learner
    has paid one credit, the tutor holds what they held, and the 'teaching'
    row of +1 is written all the same (unless its own insert fails). *)
Theorem failed_tutor_credit_is_silent (e : CompleteSession.env)
    (f : CompleteSession.faults) (req : Http.request CompleteSession.body)
    (user : uuid) (b : CompleteSession.body) (d : db) (log : list string)
    (s : Session.t) (c ct : numeric) :
  authenticated (CompleteSession.get_user e) req user b ->
  CompleteSession.session_id b <> "" ->
  find_session d (CompleteSession.session_id b) = Some s ->
  participant user s ->
  Session.status s <> Session.completed ->
  truthy_opt_bool (Session.is_ai_session s) = false ->
  Session.tutor_id s <> Session.learner_id s ->
  balance d (Session.learner_id s) = Some c ->
  one_credit <= c ->
  balance d (Session.tutor_id s) = Some ct ->
  CompleteSession.fail_select_session f = false ->
  CompleteSession.fail_select_learner f = false ->
  CompleteSession.fail_update_session f = false ->
  CompleteSession.fail_deduct f = false ->
  CompleteSession.fail_select_tutor f = true
  \/ CompleteSession.fail_credit_tutor f = true ->
  let out := run (CompleteSession.handler e f req) (mkWorld d log) in
  fst out = completed_response
  /\ console (snd out)
     = (log
        ++ [("Completing session " ++ CompleteSession.session_id b
             ++ " by user " ++ user)%string;
            ("Session " ++ CompleteSession.session_id b
             ++ " completed successfully. Credits transferred.")%string])
       %list
  /\ balance (store (snd out)) (Session.learner_id s) = Some (c - one_credit)
  /\ balance (store (snd out)) (Session.tutor_id s) = Some ct
  /\ (CompleteSession.fail_insert_tutor_tx f = false ->
      In (tutor_row e s) (credit_transactions (store (snd out)))).
Proof.
  intros Hauth Hid Hs Hpart Hst Hai Hdiff Hbal Hc Htb Hf1 Hf2 Hf3 Hf4 Hf5.
  cbv zeta.
  rewrite (CompleteSessionSpec.complete_session_authenticated _ _ _ _ _ Hauth).
  destruct (balance_find_profile _ _ _ Hbal) as (lp & Hlp & Hlpc).
  destruct (balance_find_profile _ _ _ Htb) as (tp & Htp & Htpc).
  pose proof (find_session_id _ _ _ Hs) as Hsid. apply of_text_in in Hsid.
  apply truthy_string_true in Hid.
  assert (Hrich : (Profile.credits lp <? one_credit) = false)
    by (rewrite Hlpc; now apply Z.ltb_ge).
  destruct (run (CompleteSession.process e f user b) (mkWorld d log))
    as [resp w'] eqn:Hrun.
  unfold CompleteSession.process in Hrun.
  rewrite Hid, Hf1, Hf2, Hf3, Hf4 in Hrun. exec_in Hrun.
  pose proof Hs as Hs'. unfold find_session in Hs'. rewrite Hs' in Hrun.
  rewrite (CompleteSessionSpec.participant_check _ _ Hpart),
    (CompleteSessionSpec.not_completed _ Hst) in Hrun.
  exec_in Hrun.
  pose proof Hlp as Hlp'. unfold find_profile in Hlp'. rewrite Hlp' in Hrun.
  rewrite Hai in Hrun. rewrite Hrich in Hrun. exec_in Hrun.
  assert (Htp1 : single
                   (filter (col_eq Profile.user_id (Session.tutor_id s))
                      (update_rows
                         (col_eq Profile.user_id (Session.learner_id s))
                         (Profile.set_credits (Profile.credits lp - one_credit))
                         (profiles d))) = Some tp).
  { rewrite lookup_after_set. apply uuid_eqb_neq in Hdiff.
    rewrite Hdiff. exact Htp. }
  unfold tutor_row. rewrite <- Hsid.
  apply uuid_eqb_neq in Hdiff.
  assert (Hdiff' : (Session.learner_id s =? Session.tutor_id s)%string = false)
    by (now rewrite String.eqb_sym).
  destruct (CompleteSession.fail_select_tutor f) eqn:Hst1; exec_in Hrun.
  - crunch Hrun; inversion Hrun; subst resp w'; clear Hrun; exec;
      (split; [reflexivity|]); (split; [cbn [append]; now rewrite <- app_assoc|]);
      rewrite ?balance_with_credit_transactions, ?balance_set_credits,
        ?balance_with_sessions, ?String.eqb_refl, ?Hdiff, ?Hbal, ?Htb;
      cbn [option_map]; rewrite ?Hlpc;
      (split; [reflexivity|]); (split; [reflexivity|]);
      intros H; try discriminate H;
      apply in_or_app; right; left; reflexivity.
  - destruct Hf5 as [Hf5|Hf5]; [discriminate Hf5|].
    rewrite Htp1, Hf5 in Hrun.
    crunch Hrun; inversion Hrun; subst resp w'; clear Hrun; exec;
      (split; [reflexivity|]); (split; [cbn [append]; now rewrite <- app_assoc|]);
      rewrite ?balance_with_credit_transactions, ?balance_set_credits,
        ?balance_with_sessions, ?String.eqb_refl, ?Hdiff, ?Hbal, ?Htb;
      cbn [option_map]; rewrite ?Hlpc;
      (split; [reflexivity|]); (split; [reflexivity|]);
      intros H; try discriminate H;
      apply in_or_app; right; left; reflexivity.
Qed.

(** alice completes the session bob taught while the write that credits him
    fails. *)
Lemma failed_tutor_credit_is_silent_witness :
  let f := CompleteSession.mkFaults false false false false false true
             false false in
  let out := run (CompleteSession.handler Sample.complete_env f
                    (Sample.post Sample.alice
                       (CompleteSession.mkBody Sample.human_session None None)))
                 (mkWorld Sample.store []) in
  fst out = completed_response
  /\ List.length (console (snd out)) = 2%nat
  /\ balance (store (snd out)) Sample.alice = Some 200
  /\ balance (store (snd out)) Sample.bob = Some 100.
Proof.
  cbv zeta.
  destruct (failed_tutor_credit_is_silent Sample.complete_env
              (CompleteSession.mkFaults false false false false false true
                 false false)
              (Sample.post Sample.alice
                 (CompleteSession.mkBody Sample.human_session None None))
              Sample.alice _ Sample.store []
              (Sample.session Sample.human_session Sample.bob Sample.alice
                 Session.scheduled false) 300 100
              ltac:(sample_call) ltac:(discriminate) eq_refl
              (or_intror eq_refl) ltac:(discriminate) eq_refl
              ltac:(discriminate) eq_refl ltac:(unfold one_credit; lia)
              eq_refl eq_refl eq_refl eq_refl eq_refl (or_intror eq_refl))
    as (H1 & H2 & H3 & H4 & _).
  split; [exact H1|]. split; [now rewrite H2|].
  split; [exact H3|exact H4].
Defined.

(** X20.  accept-request tells the learner only through a conversation that
    is already there.  With no store call failing, a call that answers 201
    has added to [messages] exactly one row when the two users have a
    conversation (in it, from the tutor, reading "✅ Request accepted!
    Session scheduled for " and the time as [toLocaleString] prints it) and
    has stamped that conversation with the time of the call; when they have
    none it still answers 201, creates none and adds no message. *)
Theorem accept_request_notifies_through_conversation (e : AcceptRequest.env)
    (req : Http.request AcceptRequest.body) (user : uuid)
    (b : AcceptRequest.body) (d : db) (log : list string)
    (r : LearningRequest.t) :
  authenticated (AcceptRequest.get_user e) req user b ->
  find_request d (AcceptRequest.request_id b) = Some r ->
  let out := run (AcceptRequest.handler e AcceptRequest.no_faults req)
                 (mkWorld d log) in
  Http.status (fst out) = 201 ->
  match find_conversation d (LearningRequest.learner_id r)
          (LearningRequest.tutor_id r) with
  | Some c =>
      messages (store (snd out))
      = (messages d
         ++ [Message.mk (AcceptRequest.new_message_id e) (Conversation.id c)
               user
               ("✅ Request accepted! Session scheduled for "
                ++ AcceptRequest.toLocaleString e
                     (AcceptRequest.scheduled_at b))%string])%list
      /\ find_conversation (store (snd out)) (LearningRequest.learner_id r)
           (LearningRequest.tutor_id r)
         = Some (Conversation.set_last_message_at (AcceptRequest.now e) c)
  | None =>
      messages (store (snd out)) = messages d
      /\ conversations (store (snd out)) = conversations d
  end.
Proof.
  intros Hauth Hr. cbv zeta.
  rewrite (AcceptRequestSpec.accept_request_authenticated _ _ _ _ _ Hauth).
  intros Hok.
  destruct (run (AcceptRequest.process e AcceptRequest.no_faults user b)
              (mkWorld d log)) as [resp w'] eqn:Hrun.
  cbn [fst snd] in *.
  unfold find_request in Hr. unfold find_conversation.
  unfold AcceptRequest.process, AcceptRequest.no_faults in Hrun.
  exec_in Hrun.
  destruct (negb (truthy_string (AcceptRequest.request_id b))
            || negb (truthy_string (AcceptRequest.scheduled_at b)));
    exec_in Hrun; [inversion Hrun; subst resp; discriminate Hok|].
  rewrite Hr in Hrun.
  destruct (negb (LearningRequest.tutor_id r =? user)%string); exec_in Hrun;
    [inversion Hrun; subst resp; discriminate Hok|].
  destruct (negb (LearningRequest.status_eqb (LearningRequest.status r)
                    LearningRequest.pending)); exec_in Hrun;
    [inversion Hrun; subst resp; discriminate Hok|].
  set (p1 := fst (sortedIds (LearningRequest.learner_id r)
                    (LearningRequest.tutor_id r))) in *.
  set (p2 := snd (sortedIds (LearningRequest.learner_id r)
                    (LearningRequest.tutor_id r))) in *.
  destruct (single (filter (same_pair p1 p2) (conversations d)))
    as [c|] eqn:Hc; exec_in Hrun;
    inversion Hrun; subst resp w'; clear Hrun; exec.
  - split; [reflexivity|].
    rewrite filter_update_rows_kept by reflexivity.
    rewrite single_map, Hc. cbn [option_map].
    rewrite col_eq_out. cbn [Conversation.id Conversation.set_last_message_at].
    now rewrite String.eqb_refl.
  - split; reflexivity.
Qed.

(** bob accepts alice's pending request: the two have never written to each
    other, so alice gets no message. *)
Lemma accept_request_notifies_through_conversation_witness :
  let b := AcceptRequest.mkBody Sample.pending_request "2026-03-05T18:00:00Z"
             None in
  let out := run (AcceptRequest.handler Sample.accept_env
                    AcceptRequest.no_faults (Sample.post Sample.bob b))
                 (mkWorld Sample.store []) in
  Http.status (fst out) = 201
  /\ messages (store (snd out)) = []
  /\ conversations (store (snd out)) = [].
Proof.
  cbv zeta.
  assert (Hok : Http.status
                  (fst (run (AcceptRequest.handler Sample.accept_env
                               AcceptRequest.no_faults
                               (Sample.post Sample.bob
                                  (AcceptRequest.mkBody Sample.pending_request
                                     "2026-03-05T18:00:00Z" None)))
                          (mkWorld Sample.store []))) = 201) by reflexivity.
  split; [exact Hok|].
  exact (accept_request_notifies_through_conversation Sample.accept_env
           (Sample.post Sample.bob
              (AcceptRequest.mkBody Sample.pending_request
                 "2026-03-05T18:00:00Z" None))
           Sample.bob _ Sample.store []
           (LearningRequest.mk Sample.pending_request Sample.alice Sample.bob
              None (Some "Guitar?") None LearningRequest.pending)
           ltac:(sample_call) eq_refl Hok).
Defined.
End SilentFailures.
